(** * CDMX air quality: table extraction, aggregation and classification

    A shallow embedding of [src/airqualitydata.js]:
    [parseAirQualityHtml], [processAirQualityData] and
    [getAirQualityCategory], with the JavaScript facilities they rely on
    (numbers, strings, regular-expression matches, plain objects used as
    dictionaries, exceptions) modelled next to them. *)

From Stdlib Require Import ZArith Ascii String List Bool Lia Permutation.
From Stdlib Require Import DecimalString.
From Stdlib Require Import Floats.SpecFloat.
From stdpp Require Import gmap strings list fin_maps.

Import ListNotations.
Local Open Scope string_scope.
Local Open Scope Z_scope.

(** ** Completions

    A call either returns a value or throws.  Only the two error kinds the
    module can raise are listed. *)

Inductive JsError := ReferenceError | TypeError.

Inductive completion (A : Type) : Type :=
| Return (a : A)
| Throw (e : JsError).
Arguments Return {A} a.
Arguments Throw {A} e.

(** ** Numbers

    A JavaScript number is an IEEE 754 binary64 value.  [spec_float] is
    the Standard Library's executable description of that format; the
    operations below are its instances at precision 53 and maximal
    exponent 1024. *)

Module Num.

Definition t := spec_float.

Definition prec : Z := 53.
Definition emax : Z := 1024.

Definition NaN : t := S754_nan.
Definition Infinity : t := S754_infinity false.
Definition NegInfinity : t := S754_infinity true.

Definition isNaN (x : t) : bool :=
  match x with S754_nan => true | _ => false end.

(** [Number.isFinite]. *)
Definition isFinite (x : t) : bool :=
  match x with
  | S754_zero _ | S754_finite _ _ _ => true
  | S754_infinity _ | S754_nan => false
  end.

(** [x <= y], [x + y], [x / y]. *)
Definition le (x y : t) : bool := SFleb x y.
Definition lt (x y : t) : bool := SFltb x y.
Definition add (x y : t) : t := SFadd prec emax x y.
Definition div (x y : t) : t := SFdiv prec emax x y.

(** The number nearest to the integer [z] (exact up to 2^53), which is
    the number [parseInt] gives for an integer text. *)
Definition ofZ (z : Z) : t := binary_normalize prec emax z 0 false.

(** The sign of the number [x - y]: -1 when it is below zero, 1 when
    it is above, 0 when it is zero or NaN.  The difference of two numbers
    is below zero exactly when the first is below the second, and NaN
    when one of them is NaN or both are the same infinity. *)
Definition signOfDifference (x y : t) : Z :=
  match SFcompare x y with
  | Some Lt => -1
  | Some Gt => 1
  | Some Eq | None => 0
  end.

(** The number nearest to the ratio [n / d] of two positive integers,
    ties to even, negated when [neg] is set. *)
Definition ofRatio (neg : bool) (n d : positive) : t :=
  let '(q, e, l) := SFdiv_core_binary prec emax (Zpos n) 0 (Zpos d) 0 in
  binary_round_aux prec emax neg q e l.

(** The value of a decimal literal [digits * 10^-scale], as the source
    text [35.4] is [decimal 354 1]. *)
Definition decimal (digits : Z) (scale : nat) : t :=
  match digits with
  | Z0 => S754_zero false
  | Zpos n => ofRatio false n (Z.to_pos (10 ^ Z.of_nat scale))
  | Zneg n => ofRatio true n (Z.to_pos (10 ^ Z.of_nat scale))
  end.

(** [parseFloat(x.toFixed(1))].  [toFixed(1)] writes the integer [n]
    nearest to [10 * |x|] (the larger one on a tie) with one fractional
    digit, keeping the sign of a negative [x]; from [10^21] on it writes
    the number in full, and a number that is not finite by its name.
    [parseFloat] reads the text back to the nearest number. *)
Definition roundOneDecimal (x : t) : t :=
  match x with
  | S754_nan => S754_nan
  | S754_infinity s => S754_infinity s
  | S754_zero _ => S754_zero false
  | S754_finite s m e =>
      let big :=
        if 0 <=? e then 10 ^ 21 <=? Zpos m * 2 ^ e
        else 10 ^ 21 * 2 ^ (- e) <=? Zpos m in
      if big then x
      else
        let n :=
          if 0 <=? e then 10 * Zpos m * 2 ^ e
          else (20 * Zpos m + 2 ^ (- e)) / 2 ^ (- e + 1) in
        match n with
        | Zpos p => ofRatio s p 10
        | _ => S754_zero s
        end
  end.

End Num.

(** ** Strings

    A string is a sequence of code units.  What the module tests in a
    text (white space, digits, separators, the letters of its header
    names and tokens) lies below code 256, so a code unit is an [ascii].
    Case mapping is that of the letters A to Z: a code unit outside them
    is never mapped onto one of them, so the comparisons with the header
    names and the tokens see nothing else. *)

Module Str.

Definition code (c : ascii) : Z := Z.of_nat (nat_of_ascii c).

(** White space and line terminators removed by [trim]. *)
Definition isWhiteSpace (c : ascii) : bool :=
  let n := code c in
  ((9 <=? n) && (n <=? 13)) || (n =? 32) || (n =? 160).

(** The class [\d] of a regular expression. *)
Definition isDigit (c : ascii) : bool :=
  let n := code c in (48 <=? n) && (n <=? 57).

Definition digitValue (c : ascii) : Z := code c - 48.

Fixpoint trimStart (s : string) : string :=
  match s with
  | EmptyString => EmptyString
  | String c s' => if isWhiteSpace c then trimStart s' else s
  end.

Fixpoint trimEnd (s : string) : string :=
  match s with
  | EmptyString => EmptyString
  | String c s' =>
      match trimEnd s' with
      | EmptyString => if isWhiteSpace c then EmptyString else String c EmptyString
      | t => String c t
      end
  end.

Definition trim (s : string) : string := trimEnd (trimStart s).

Definition lowerChar (c : ascii) : ascii :=
  let n := code c in
  if (65 <=? n) && (n <=? 90) then ascii_of_nat (Z.to_nat (n + 32)) else c.

Definition upperChar (c : ascii) : ascii :=
  let n := code c in
  if (97 <=? n) && (n <=? 122) then ascii_of_nat (Z.to_nat (n - 32)) else c.

Fixpoint mapChars (f : ascii -> ascii) (s : string) : string :=
  match s with
  | EmptyString => EmptyString
  | String c s' => String (f c) (mapChars f s')
  end.

(** [toLowerCase] and [toUpperCase]. *)
Definition toLowerCase : string -> string := mapChars lowerChar.
Definition toUpperCase : string -> string := mapChars upperChar.

Fixpoint startsWith (p s : string) : bool :=
  match p, s with
  | EmptyString, _ => true
  | String a p', String b s' => Ascii.eqb a b && startsWith p' s'
  | String _ _, EmptyString => false
  end.

Fixpoint includes (sub s : string) : bool :=
  startsWith sub s ||
  match s with
  | EmptyString => false
  | String _ s' => includes sub s'
  end.

(** [s.padStart(2, '0')]. *)
Definition padStart2 (s : string) : string :=
  match s with
  | EmptyString => "00"
  | String c EmptyString => String "0" (String c EmptyString)
  | _ => s
  end.

(** The longest run of digits at the head of [s], and what follows. *)
Fixpoint spanDigits (s : string) : string * string :=
  match s with
  | String c s' =>
      if isDigit c then
        let '(d, r) := spanDigits s' in (String c d, r)
      else (EmptyString, s)
  | EmptyString => (EmptyString, EmptyString)
  end.

(** The value of a string of decimal digits. *)
Fixpoint digitsValueFrom (acc : Z) (s : string) : Z :=
  match s with
  | EmptyString => acc
  | String c s' => digitsValueFrom (10 * acc + digitValue c) s'
  end.
Definition digitsValue : string -> Z := digitsValueFrom 0.

Fixpoint allDigits (s : string) : bool :=
  match s with
  | EmptyString => true
  | String c s' => isDigit c && allDigits s'
  end.

(** [s.replace(/[^\d.]/g, '')]. *)
Fixpoint keepDigitsAndDots (s : string) : string :=
  match s with
  | EmptyString => EmptyString
  | String c s' =>
      if isDigit c || Ascii.eqb c "." then String c (keepDigitsAndDots s')
      else keepDigitsAndDots s'
  end.

(** [s.match(/(\d+)/)]: the first digit run, taken as long as it goes. *)
Fixpoint matchDigits (s : string) : option string :=
  match s with
  | EmptyString => None
  | String c s' =>
      if isDigit c then Some (fst (spanDigits s)) else matchDigits s'
  end.

Definition isDateSeparator (c : ascii) : bool :=
  Ascii.eqb c "/" || Ascii.eqb c "-".

(** An attempt of [/(\d+)[\/\-](\d+)[\/\-](\d+)/] at the head of [s].
    A digit run followed by a separator can only be the whole run, so
    the greedy groups are the three maximal runs. *)
Definition matchDateHere (s : string) : option (string * string * string) :=
  match spanDigits s with
  | (String a d1, String sep1 r1) =>
      if isDateSeparator sep1 then
        match spanDigits r1 with
        | (String b d2, String sep2 r2) =>
            if isDateSeparator sep2 then
              match spanDigits r2 with
              | (String c d3, _) => Some (String a d1, String b d2, String c d3)
              | _ => None
              end
            else None
        | _ => None
        end
      else None
  | _ => None
  end.

(** [s.match(...)] for the date pattern: the leftmost position at which
    an attempt succeeds. *)
Fixpoint matchDate (s : string) : option (string * string * string) :=
  match matchDateHere s with
  | Some m => Some m
  | None =>
      match s with
      | EmptyString => None
      | String _ s' => matchDate s'
      end
  end.

(** [key.split(' ')]. *)
Fixpoint splitSpaces (s : string) : list string :=
  match s with
  | EmptyString => [EmptyString]
  | String c s' =>
      if Ascii.eqb c " " then EmptyString :: splitSpaces s'
      else
        match splitSpaces s' with
        | w :: ws => String c w :: ws
        | [] => [String c EmptyString]
        end
  end.

Fixpoint noSpace (s : string) : bool :=
  match s with
  | EmptyString => true
  | String c s' => negb (Ascii.eqb c " ") && noSpace s'
  end.

(** The decimal text of an integer, [n.toString()]. *)
Definition ofZ (z : Z) : string := NilZero.string_of_int (Z.to_int z).

Definition hexValue (c : ascii) : option Z :=
  let n := code c in
  if (48 <=? n) && (n <=? 57) then Some (n - 48)
  else if (97 <=? n) && (n <=? 102) then Some (n - 87)
  else if (65 <=? n) && (n <=? 70) then Some (n - 55)
  else None.

Definition radixDigit (radix : Z) (c : ascii) : option Z :=
  if radix =? 16 then hexValue c
  else if isDigit c then Some (digitValue c) else None.

(** The digits of [s] up to the first character that is none, as a
    number; [None] when there is not even one. *)
Fixpoint readDigits (radix : Z) (acc : option Z) (s : string) : option Z :=
  match s with
  | EmptyString => acc
  | String c s' =>
      match radixDigit radix c with
      | Some d =>
          readDigits radix
            (Some (radix * match acc with Some a => a | None => 0 end + d)) s'
      | None => acc
      end
  end.

Definition stripSign (s : string) : bool * string :=
  match s with
  | String "-" s' => (true, s')
  | String "+" s' => (false, s')
  | _ => (false, s)
  end.

Definition stripHexPrefix (s : string) : Z * string :=
  match s with
  | String "0" (String "x" s') => (16, s')
  | String "0" (String "X" s') => (16, s')
  | _ => (10, s)
  end.

(** [parseInt(s)] without a radix: leading white space, a sign, a
    [0x] prefix, then digits.  [None] stands for NaN. *)
Definition parseInt (s : string) : option Z :=
  let '(neg, s1) := stripSign (trimStart s) in
  let '(radix, s2) := stripHexPrefix s1 in
  match readDigits radix None s2 with
  | Some n => Some (if neg then - n else n)
  | None => None
  end.

(** [parseFloat(s)] for a text of digits and dots, as [keepDigitsAndDots]
    leaves it: integer digits, then a dot and fraction digits; NaN when
    neither part has a digit. *)
Definition parseFloat (s : string) : Num.t :=
  let '(int, r) := spanDigits s in
  let frac :=
    match r with
    | String "." r' => fst (spanDigits r')
    | _ => EmptyString
    end in
  match int, frac with
  | EmptyString, EmptyString => Num.NaN
  | _, _ => Num.decimal (digitsValue (int ++ frac)) (String.length frac)
  end.

End Str.

(** ** Plain objects used as dictionaries

    A lookup [obj[key]] on an object literal finds the object's own
    properties first and then the members every object inherits from
    [Object.prototype].  These are functions (for ["__proto__"], the
    prototype object itself): all are truthy, none is an array and none can
    be iterated. *)

Definition objectPrototypeMembers : list string :=
  [ "constructor"; "hasOwnProperty"; "isPrototypeOf"; "propertyIsEnumerable";
    "toLocaleString"; "toString"; "valueOf"; "__proto__";
    "__defineGetter__"; "__defineSetter__"; "__lookupGetter__";
    "__lookupSetter__" ].

Definition inheritedMember (key : string) : bool :=
  existsb (String.eqb key) objectPrototypeMembers.

(** ** getAirQualityCategory *)

Record Threshold := {
  max : Num.t;
  category : string;
  color : string
}.

Record Category := {
  cat_category : string;
  cat_color : string
}.

(** The six tiers of a pollutant, from the five finite bounds of its
    table; the colours and labels are the same in every table. *)
Definition tiers (b1 b2 b3 b4 b5 : Num.t) : list Threshold :=
  [ {| max := b1; category := "Good"; color := "#00e400" |};
    {| max := b2; category := "Moderate"; color := "#ffff00" |};
    {| max := b3; category := "Unhealthy for Sensitive Groups"; color := "#ff7e00" |};
    {| max := b4; category := "Unhealthy"; color := "#ff0000" |};
    {| max := b5; category := "Very Unhealthy"; color := "#99004c" |};
    {| max := Num.Infinity; category := "Hazardous"; color := "#7e0023" |} ].

Definition categories_o3 : list Threshold :=
  tiers (Num.decimal 70 0) (Num.decimal 95 0) (Num.decimal 154 0)
        (Num.decimal 204 0) (Num.decimal 404 0).
Definition categories_pm10 : list Threshold :=
  tiers (Num.decimal 54 0) (Num.decimal 154 0) (Num.decimal 254 0)
        (Num.decimal 354 0) (Num.decimal 424 0).
Definition categories_pm25 : list Threshold :=
  tiers (Num.decimal 12 0) (Num.decimal 354 1) (Num.decimal 554 1)
        (Num.decimal 1504 1) (Num.decimal 2504 1).
Definition categories_nox : list Threshold :=
  tiers (Num.decimal 53 0) (Num.decimal 100 0) (Num.decimal 360 0)
        (Num.decimal 649 0) (Num.decimal 1249 0).
Definition categories_co : list Threshold :=
  tiers (Num.decimal 44 1) (Num.decimal 94 1) (Num.decimal 124 1)
        (Num.decimal 154 1) (Num.decimal 304 1).
Definition categories_so2 : list Threshold :=
  tiers (Num.decimal 35 0) (Num.decimal 75 0) (Num.decimal 185 0)
        (Num.decimal 304 0) (Num.decimal 604 0).

(** The own properties of the [categories] object. *)
Definition categories (parameter : string) : option (list Threshold) :=
  if String.eqb parameter "o3" then Some categories_o3
  else if String.eqb parameter "pm10" then Some categories_pm10
  else if String.eqb parameter "pm25" then Some categories_pm25
  else if String.eqb parameter "nox" then Some categories_nox
  else if String.eqb parameter "co" then Some categories_co
  else if String.eqb parameter "so2" then Some categories_so2
  else None.

Definition unknownCategory : Category :=
  {| cat_category := "Unknown"; cat_color := "#808080" |}.

(** The [for ... of] loop with its early [return], and the fallback after
    it. *)
Fixpoint scanThresholds (thresholds : list Threshold) (value : Num.t) : Category :=
  match thresholds with
  | [] => unknownCategory
  | threshold :: rest =>
      if Num.le value (max threshold) then
        {| cat_category := category threshold; cat_color := color threshold |}
      else scanThresholds rest value
  end.

(** [categories[parameter] || categories.o3]: a table of its own, else an
    inherited member (truthy, so it is kept, and iterating it throws),
    else the ozone table. *)
Definition getAirQualityCategory (parameter : string) (value : Num.t)
  : completion Category :=
  match categories parameter with
  | Some thresholds => Return (scanThresholds thresholds value)
  | None =>
      if inheritedMember parameter then Throw TypeError
      else Return (scanThresholds categories_o3 value)
  end.

(** The table a parameter is classified with. *)
Definition thresholdsFor (parameter : string) : list Threshold :=
  match categories parameter with
  | Some thresholds => thresholds
  | None => categories_o3
  end.

(** Bounds of a table strictly increase from tier to tier. *)
Fixpoint ascendingBounds (thresholds : list Threshold) : bool :=
  match thresholds with
  | a :: (b :: _) as rest => Num.lt (max a) (max b) && ascendingBounds rest
  | _ => true
  end.

(** ** Documents and observations

    The extractor reads a parsed document only through
    [querySelectorAll] and [textContent]: a table is the list of its [tr]
    rows, a row the list of the texts of its [td] cells. *)

Definition Row := list string.
Definition Table := list Row.
Definition Document := list Table.

(** [rawValue] is either the upper-cased text of a cell or
    [value.toString()], the decimal text of the parsed number. *)
Inductive RawValue :=
| RawText (text : string)
| RawNumber (v : Num.t).

Record Observation := {
  date : string;
  hour : string;
  value : option Num.t;     (* [None] is [null] *)
  rawValue : RawValue;
  station : string;
  parameter : string
}.

(** The four readings taken from [new Date()] at line 182.  A calendar
    year is far below 2^53, so the integers compared with it are compared
    exactly. *)
Record Clock := {
  getFullYear : Z;
  getMonth : Z;             (* 0 to 11 *)
  getDate : Z;
  getHours : Z
}.

Definition currentMonth (now : Clock) : string :=
  Str.padStart2 (Str.ofZ (getMonth now + 1)).
Definition currentDay (now : Clock) : string :=
  Str.padStart2 (Str.ofZ (getDate now)).

Definition nonEmpty (s : string) : bool :=
  match s with EmptyString => false | String _ _ => true end.

(** Truthiness of an optional string argument: [null] and [''] are falsy. *)
Definition truthy (o : option string) : bool :=
  match o with Some s => nonEmpty s | None => false end.

(** Comparisons of numbers that may be NaN ([None]). *)
Definition numGt (a b : option Z) : bool :=
  match a, b with Some x, Some y => y <? x | _, _ => false end.
Definition numEq (a b : option Z) : bool :=
  match a, b with Some x, Some y => x =? y | _, _ => false end.

Fixpoint findIndexFrom {A} (p : A -> bool) (i : nat) (l : list A) : option nat :=
  match l with
  | [] => None
  | x :: l' => if p x then Some i else findIndexFrom p (S i) l'
  end.
Definition findIndex {A} (p : A -> bool) (l : list A) : option nat :=
  findIndexFrom p 0%nat l.

(** [Map.prototype.set]: a new key goes last, a known key keeps its place. *)
Fixpoint mapSet (key : string) (v : nat) (m : list (string * nat))
  : list (string * nat) :=
  match m with
  | [] => [(key, v)]
  | (k, w) :: m' =>
      if String.eqb key k then (key, v) :: m' else (k, w) :: mapSet key v m'
  end.

(** *** Table selection (lines 94-104) *)

Fixpoint selectLoop (rest : list Table) (dataTable : Table) (maxRows : nat) : Table :=
  match rest with
  | [] => dataTable
  | t :: rest' =>
      let rowCount := length t in
      if (maxRows <? rowCount)%nat then selectLoop rest' t rowCount
      else selectLoop rest' dataTable maxRows
  end.

Definition selectDataTable (tables : Document) : option Table :=
  match tables with
  | [] => None
  | t0 :: rest => Some (selectLoop rest t0 (length t0))
  end.

(** *** Header resolution (lines 108-176) *)

Record Layout := {
  rows : list Row;
  fechaIndex : option nat;
  horaIndex : nat;
  stationIndices : list (string * nat)
}.

Definition isFechaHeader (text : string) : bool :=
  String.eqb (Str.toLowerCase text) "fecha" || Str.includes "fecha" (Str.toLowerCase text).
Definition isHoraHeader (text : string) : bool :=
  String.eqb (Str.toLowerCase text) "hora" || Str.includes "hora" (Str.toLowerCase text).

(** The loop of lines 165-174 over the header cells from index [i] on. *)
Fixpoint collectStations (specificStation : option string) (i : nat)
    (texts : list string) (acc : list (string * nat)) : list (string * nat) :=
  match texts with
  | [] => acc
  | text :: rest =>
      let stationName := Str.trim text in
      let acc' :=
        if nonEmpty stationName then
          if truthy specificStation
             && negb (String.eqb stationName (default "" specificStation))
          then acc
          else mapSet stationName i acc
        else acc in
      collectStations specificStation (S i) rest acc'
  end.

(** Lines 143-176, once the header cells are settled. *)
Definition resolveHeader (tableRows : list Row) (headerCells : Row)
    (specificStation : option string) : option Layout :=
  let headerTexts := map Str.trim headerCells in
  let fecha := findIndex isFechaHeader headerTexts in
  match findIndex isHoraHeader headerTexts with
  | None => None
  | Some hora =>
      let stationStartIndex := S hora in
      Some {| rows := tableRows;
              fechaIndex := fecha;
              horaIndex := hora;
              stationIndices :=
                collectStations specificStation stationStartIndex
                  (drop stationStartIndex headerTexts) [] |}
  end.

(** Lines 82-176.  [Return None] is one of the early [return []];
    [Throw TypeError] is the assignment to the constant [headerCells] at
    line 134, reached for a PM2.5 request when the second row has fewer
    than two cells and one of the next three rows has two or more. *)
Definition resolveLayout (tables : Document) (param : string)
    (specificStation : option string) : completion (option Layout) :=
  match selectDataTable tables with
  | None => Return None
  | Some tableRows =>
      if (length tableRows <? 2)%nat then Return None
      else
        let headerCells := default [] (tableRows !! 1%nat) in
        if (length headerCells <? 2)%nat then
          if String.eqb param "pm25" || String.eqb param "pm25nowCast" then
            if existsb (fun r : Row => (2 <=? length r)%nat)
                 (take 3 (drop 2 tableRows))
            then Throw TypeError
            else Return (resolveHeader tableRows headerCells specificStation)
          else Return None
        else Return (resolveHeader tableRows headerCells specificStation)
  end.

(** *** Row walk (lines 179-310) *)

(** Lines 198-213: the day named by the row's date cell, else [day]. *)
Definition rowDayOf (day : option string) (fecha : option nat) (cells : Row)
  : option string :=
  match fecha with
  | None => day
  | Some fi =>
      match cells !! fi with
      | None => day
      | Some cell =>
          match Str.matchDate (Str.trim cell) with
          | None => day
          | Some (m1, m2, m3) =>
              if numGt (Str.parseInt m3) (Some 31) then Some (Str.padStart2 m1)
              else if numGt (Str.parseInt m1) (Some 31) then Some (Str.padStart2 m3)
              else Some (Str.padStart2 m2)
          end
      end
  end.

(** Lines 215-220: [None] when the row is skipped for want of a day. *)
Definition resolveDay (specificDay : option string) (fecha : option nat)
    (cells : Row) : option string :=
  let day := if truthy specificDay
             then Some (Str.padStart2 (default "" specificDay)) else None in
  let rowDay := rowDayOf day fecha cells in
  let rowDay' := if negb (truthy rowDay) && truthy specificDay
                 then Some (Str.padStart2 (default "" specificDay)) else rowDay in
  if truthy rowDay' then rowDay' else None.

(** Lines 223-238: the hour of the row, [None] when the row is skipped. *)
Definition resolveHour (hora : nat) (cells : Row) : option Z :=
  match cells !! hora with
  | None => None
  | Some cell =>
      match Str.matchDigits (Str.trim cell) with
      | None => None
      | Some digits =>
          match Str.parseInt digits with
          | None => None
          | Some h => if (h <? 0) || (23 <? h) then None else Some h
          end
      end
  end.

(** Line 241. *)
Definition hourFilteredOut (specificHour : option string) (h : Z) : bool :=
  match specificHour with
  | None => false
  | Some sh => negb (numEq (Str.parseInt sh) (Some h))
  end.

(** Lines 246-254. *)
Definition isCurrentDay (now : Clock) (year month rowDay : string) : bool :=
  numEq (Str.parseInt year) (Some (getFullYear now))
  && String.eqb month (currentMonth now)
  && String.eqb rowDay (currentDay now).

Definition isFutureDay (now : Clock) (year month rowDay : string) : bool :=
  numGt (Str.parseInt year) (Some (getFullYear now))
  || (numEq (Str.parseInt year) (Some (getFullYear now))
      && numGt (Str.parseInt month) (Str.parseInt (currentMonth now)))
  || (numEq (Str.parseInt year) (Some (getFullYear now))
      && String.eqb month (currentMonth now)
      && numGt (Str.parseInt rowDay) (Str.parseInt (currentDay now))).

Definition skippedAsFuture (now : Clock) (year month rowDay : string) (h : Z) : bool :=
  isFutureDay now year month rowDay
  || (isCurrentDay now year month rowDay && (getHours now <? h)).

Definition missingTokens : list string :=
  [""; "-"; "n/d"; "nr"; "nv"; "**"; "na"; "n/a"].

Definition isMissingToken (valueText : string) : bool :=
  existsb (String.eqb (Str.toLowerCase valueText)) missingTokens.

Definition isoDate (year month rowDay : string) : string :=
  year ++ "-" ++ month ++ "-" ++ rowDay.

(** Lines 264-308: what one station column of a row adds to [data]. *)
Definition processCell (param year month rowDay formattedHour : string)
    (cells : Row) (entry : string * nat) : list Observation :=
  let '(stationName, colIndex) := entry in
  match cells !! colIndex with
  | None => []
  | Some cell =>
      let valueText := Str.trim cell in
      if nonEmpty valueText then
        if isMissingToken valueText then
          [ {| date := isoDate year month rowDay;
               hour := formattedHour;
               value := None;
               rawValue := RawText (Str.toUpperCase valueText);
               station := stationName;
               parameter := param |} ]
        else
          let cleanText := Str.keepDigitsAndDots valueText in
          if nonEmpty cleanText then
            let v := Str.parseFloat cleanText in
            if negb (Num.isNaN v) then
              [ {| date := isoDate year month rowDay;
                   hour := formattedHour;
                   value := Some v;
                   rawValue := RawNumber v;
                   station := stationName;
                   parameter := param |} ]
            else []
          else []
      else []
  end.

(** Lines 190-257: the guards a row goes through before its cells are
    read; each [None] is one [continue].  A row that passes yields its
    day and hour. *)
Definition acceptRow (now : Clock) (L : Layout) (year month : string)
    (specificDay specificHour : option string) (cells : Row)
  : option (string * Z) :=
  if (length cells <=? S (horaIndex L))%nat then None
  else
    match resolveDay specificDay (fechaIndex L) cells with
    | None => None
    | Some rowDay =>
        match resolveHour (horaIndex L) cells with
        | None => None
        | Some h =>
            if hourFilteredOut specificHour h then None
            else if skippedAsFuture now year month rowDay h then None
            else Some (rowDay, h)
        end
    end.

(** Lines 190-309: what one row adds to [data]. *)
Definition processRow (now : Clock) (L : Layout) (param year month : string)
    (specificDay specificHour : option string) (cells : Row) : list Observation :=
  match acceptRow now L year month specificDay specificHour cells with
  | None => []
  | Some (rowDay, h) =>
      flat_map
        (processCell param year month rowDay (Str.padStart2 (Str.ofZ h)) cells)
        (stationIndices L)
  end.

(** The rows after the header row, [rowIndex] from 2 on. *)
Definition dataRows (L : Layout) : list Row := drop 2 (rows L).

Definition extractRows (now : Clock) (L : Layout) (param year month : string)
    (specificDay specificHour : option string) : list Observation :=
  flat_map (processRow now L param year month specificDay specificHour)
    (dataRows L).

Section Extractor.

(** The tables [DOMParser] finds in a markup text, in document order. *)
Variable parseFromString : string -> Document.

(** The body of the [try] block, lines 80-312. *)
Definition tryBlock (now : Clock) (html param year month : string)
    (specificDay specificHour specificStation : option string)
  : completion (list Observation) :=
  match resolveLayout (parseFromString html) param specificStation with
  | Throw e => Throw e
  | Return None => Return []
  | Return (Some L) =>
      Return (extractRows now L param year month specificDay specificHour)
  end.

(** [parseAirQualityHtml].

    [globalTables] is what the identifier [tables] denotes outside the
    [try] block.  The function declares [tables] with [const] inside the
    block (line 82), so the read at line 64, which comes before the
    block, looks the name up in the enclosing scopes: [None] when no
    such global exists (the read throws a ReferenceError), [Some ts]
    when one does and holds a list of table elements.

    The [catch] clause returns [data]; the only statement of the block
    that can throw runs before anything is pushed, so [data] is empty
    there. *)
Definition parseAirQualityHtml (globalTables : option Document) (now : Clock)
    (html param year month : string)
    (specificDay specificHour specificStation : option string)
  : completion (list Observation) :=
  match globalTables with
  | None => Throw ReferenceError
  | Some _ =>
      if negb (nonEmpty html) || (String.length html <? 100)%nat then Return []
      else
        match tryBlock now html param year month
                specificDay specificHour specificStation with
        | Return data => Return data
        | Throw _ => Return []
        end
  end.

End Extractor.

(** ** processAirQualityData *)

Module Average.
(** An element of [hourlyAverages]. *)
Record t := {
  date : string;
  hour : string;
  value : Num.t;
  stationCount : nat
}.
End Average.

Record Processed := {
  stations : gmap string (list Observation);
  hourlyAverages : list Average.t
}.

(** One turn of the first [forEach] (lines 329-334).  A station name that
    is not yet a property of [stationData] but names an inherited member
    reads as truthy, so no array is created and the call of [push] on that
    member throws. *)
Definition groupStep (stationData : gmap string (list Observation))
    (item : Observation) : completion (gmap string (list Observation)) :=
  match stationData !! station item with
  | Some group => Return (<[station item := (group ++ [item])%list]> stationData)
  | None =>
      if inheritedMember (station item) then Throw TypeError
      else Return (<[station item := [item]]> stationData)
  end.

Fixpoint groupByStation (data : list Observation)
    (stationData : gmap string (list Observation))
  : completion (gmap string (list Observation)) :=
  match data with
  | [] => Return stationData
  | item :: rest =>
      match groupStep stationData item with
      | Throw e => Throw e
      | Return stationData' => groupByStation rest stationData'
      end
  end.

(** The [hourlyAverages] object while it is filled: its keys in insertion
    order, each with its running [sum] and [count]. *)
Definition Sums := list (string * (Num.t * nat)).

Definition averageKey (item : Observation) : string :=
  date item ++ " " ++ hour item.

(** Lines 344-352 for a key and a value: a new key is added last with
    [sum = v] and [count = 1]; a known key is updated in place. *)
Fixpoint addToKey (key : string) (v : Num.t) (acc : Sums) : Sums :=
  match acc with
  | [] => [(key, (v, 1%nat))]
  | (k, (sum, count)) :: acc' =>
      if String.eqb key k then (k, (Num.add sum v, S count)) :: acc'
      else (k, (sum, count)) :: addToKey key v acc'
  end.

(** One turn of the second [forEach] (lines 339-353). *)
Definition sumStep (acc : Sums) (item : Observation) : Sums :=
  match value item with
  | None => acc
  | Some v => addToKey (averageKey item) v acc
  end.

Definition accumulate (data : list Observation) : Sums :=
  fold_left sumStep data [].

(** Lines 355-362: the array element made from an entry. *)
Definition toAverage (entry : string * (Num.t * nat)) : Average.t :=
  let '(key, (sum, count)) := entry in
  let parts := Str.splitSpaces key in
  {| Average.date := default "" (parts !! 0%nat);
     Average.hour := default "" (parts !! 1%nat);
     Average.value :=
       Num.roundOneDecimal (Num.div sum (Num.ofZ (Z.of_nat count)));
     Average.stationCount := count |}.

Section Aggregator.

(** [String.prototype.localeCompare], which depends on the locale. *)
Variable localeCompare : string -> string -> Z.

(** [Array.prototype.sort] with a comparison function, as the engine
    has it.  The language fixes its result in part only: the result is a
    rearrangement of the array, and it is in the order of the comparison
    function where that function is consistent on the elements; for
    any other comparison function the order is left to the engine.  The
    statements that depend on either fact say so ([sortPermutes],
    [sortOrders]).  A comparison result is read by its sign, so it is
    given as an integer. *)
Variable sort :
  (Average.t -> Average.t -> Z) -> list Average.t -> list Average.t.

(** Lines 363-367.  The hours are read by [parseInt] and subtracted as
    numbers of the language; the difference is NaN, which a sort reads
    as 0, when one of them is no number.  [Num.ofZ x] is the number
    nearest to the integer read; for a text of more than 20 digits the
    language lets an engine round the text cut to 20 digits instead. *)
Definition compareAverages (a b : Average.t) : Z :=
  if negb (String.eqb (Average.date a) (Average.date b))
  then localeCompare (Average.date a) (Average.date b)
  else
    match Str.parseInt (Average.hour a), Str.parseInt (Average.hour b) with
    | Some x, Some y => Num.signOfDifference (Num.ofZ x) (Num.ofZ y)
    | _, _ => 0
    end.

Definition processAirQualityData (data : list Observation)
  : completion Processed :=
  match data with
  | [] => Return {| stations := ∅; hourlyAverages := [] |}
  | _ :: _ =>
      match groupByStation data ∅ with
      | Throw e => Throw e
      | Return stationData =>
          Return {| stations := stationData;
                    hourlyAverages :=
                      sort compareAverages (map toAverage (accumulate data)) |}
      end
  end.

End Aggregator.

(** ** Vocabulary of the statements *)

(** The values, in input order, of the observations of [data] that carry
    a number and whose key is [key]. *)
Definition valuesAtKey (key : string) (data : list Observation) : list Num.t :=
  omap (fun item => if String.eqb (averageKey item) key then value item else None)
       data.


(** The sum as the loop forms it, from the first value on, and the
    mean: that sum divided by the number of values. *)
Definition sumOf (vals : list Num.t) : Num.t :=
  match vals with
  | [] => Num.ofZ 0
  | v :: rest => fold_left Num.add rest v
  end.

Definition meanOf (vals : list Num.t) : Num.t :=
  Num.div (sumOf vals) (Num.ofZ (Z.of_nat (length vals))).

(** Dates and hours of the data model have no blank in them. *)
Definition plainKey (item : Observation) : Prop :=
  Str.noSpace (date item) = true /\ Str.noSpace (hour item) = true.

(** The observations of a station, in input order. *)
Definition ofStation (s : string) (data : list Observation) : list Observation :=
  filter (fun item => station item = s) data.

(** The number of observations over all station groups. *)
Definition groupedCount (m : gmap string (list Observation)) : nat :=
  map_fold (fun _ group n => (length group + n)%nat) 0%nat m.

Definition isTwoDigits (s : string) : bool :=
  (String.length s =? 2)%nat && Str.allDigits s.



(** A two-character, zero-padded hour of the day. *)
Definition isHourOfDay (s : string) (h : Z) : Prop :=
  0 <= h <= 23 /\ s = Str.padStart2 (Str.ofZ h)
  /\ String.length s = 2%nat /\ Str.allDigits s = true
  /\ Str.parseInt s = Some h.

(** ** A sort for the samples

    Insertion, from the last element of the list to the first, of each
    element before the first element it does not come after.  For a
    comparison function that is consistent on the elements this gives
    them in the order of the function, equal ones in their input order,
    as every engine does; for any other comparison function it is one
    of the orders an engine may give.  It stands for the engine's sort
    in the samples only. *)
Fixpoint insertSorted {A} (cmp : A -> A -> Z) (x : A) (l : list A) : list A :=
  match l with
  | [] => [x]
  | y :: l' => if cmp x y <=? 0 then x :: l else y :: insertSorted cmp x l'
  end.

Definition sortBy {A} (cmp : A -> A -> Z) (l : list A) : list A :=
  foldr (insertSorted cmp) [] l.

(** ** Sample pages

    Markup texts with the tables [DOMParser] builds from them, and a
    clock reading 15 March 2025, 10 h. *)

Module Sample.

Definition now : Clock :=
  {| getFullYear := 2025; getMonth := 2; getDate := 15; getHours := 10 |}.

(** A page with a date column; one data row holds a missing-data token
    and an empty cell. *)
Definition tokensHtml : string :=
  "<table><tr><td>Ozono</td></tr><tr><td>Fecha</td><td>Hora</td><td>ACO</td><td>MER</td></tr><tr><td>14/03/2025</td><td>1</td><td>nr</td><td></td></tr></table>".
Definition tokensDoc : Document :=
  [ [ ["Ozono"];
      ["Fecha"; "Hora"; "ACO"; "MER"];
      ["14/03/2025"; "1"; "nr"; ""] ] ].

(** The layout resolved for [tokensDoc], its data row, and the one
    observation the page gives. *)
Definition tokensLayout : Layout :=
  {| rows := [ ["Ozono"];
               ["Fecha"; "Hora"; "ACO"; "MER"];
               ["14/03/2025"; "1"; "nr"; ""] ];
     fechaIndex := Some 0%nat;
     horaIndex := 1%nat;
     stationIndices := [("ACO", 2%nat); ("MER", 3%nat)] |}.
Definition tokensRow : Row := ["14/03/2025"; "1"; "nr"; ""].
Definition tokensObservation : Observation :=
  {| date := "2025-03-14"; hour := "01"; value := None;
     rawValue := RawText "NR"; station := "ACO"; parameter := "o3" |}.

(** A page without a date column, whose text names a day. *)
Definition noFechaHtml : string :=
  "<p>Dia: 14</p><table><tr><td>Ozono</td></tr><tr><td>Hora</td><td>ACO</td></tr><tr><td>1</td><td>10</td></tr></table><p>day: 14</p>".
Definition noFechaDoc : Document :=
  [ [ ["Ozono"]; ["Hora"; "ACO"]; ["1"; "10"] ] ].
Definition noFechaLayout : Layout :=
  {| rows := [ ["Ozono"]; ["Hora"; "ACO"]; ["1"; "10"] ];
     fechaIndex := None;
     horaIndex := 0%nat;
     stationIndices := [("ACO", 1%nat)] |}.

(** A page whose date cell writes the day with three digits, at an hour
    later than the clock's. *)
Definition longDayHtml : string :=
  "<table><tr><td>Ozono</td></tr><tr><td>Fecha</td><td>Hora</td><td>ACO</td></tr><tr><td>015/03/2025</td><td>23</td><td>nr</td></tr></table>".
Definition longDayDoc : Document :=
  [ [ ["Ozono"]; ["Fecha"; "Hora"; "ACO"]; ["015/03/2025"; "23"; "nr"] ] ].

(** A page on today's date with rows before, at and after the clock's
    hour, and a row on the next day. *)
Definition todayHtml : string :=
  "<table><tr><td>Ozono</td></tr><tr><td>Fecha</td><td>Hora</td><td>ACO</td></tr><tr><td>15/03/2025</td><td>10</td><td>nr</td></tr><tr><td>15/03/2025</td><td>11</td><td>nr</td></tr><tr><td>16/03/2025</td><td>1</td><td>nr</td></tr></table>".
Definition todayDoc : Document :=
  [ [ ["Ozono"]; ["Fecha"; "Hora"; "ACO"];
      ["15/03/2025"; "10"; "nr"];
      ["15/03/2025"; "11"; "nr"];
      ["16/03/2025"; "1"; "nr"] ] ].

Definition todayLayout : Layout :=
  {| rows := [ ["Ozono"]; ["Fecha"; "Hora"; "ACO"];
               ["15/03/2025"; "10"; "nr"];
               ["15/03/2025"; "11"; "nr"];
               ["16/03/2025"; "1"; "nr"] ];
     fechaIndex := Some 0%nat;
     horaIndex := 1%nat;
     stationIndices := [("ACO", 2%nat)] |}.
Definition todayObservation : Observation :=
  {| date := "2025-03-15"; hour := "10"; value := None;
     rawValue := RawText "NR"; station := "ACO"; parameter := "o3" |}.

(** A complete table in fewer than 100 characters. *)
Definition shortHtml : string :=
  "<table><tr><td>O3</td></tr><tr><td>Hora</td><td>ACO</td></tr><tr><td>1</td><td>5</td></tr></table>".
Definition shortDoc : Document :=
  [ [ ["O3"]; ["Hora"; "ACO"]; ["1"; "5"] ] ].

Definition parseFromString (html : string) : Document :=
  if String.eqb html tokensHtml then tokensDoc
  else if String.eqb html noFechaHtml then noFechaDoc
  else if String.eqb html longDayHtml then longDayDoc
  else if String.eqb html todayHtml then todayDoc
  else if String.eqb html shortHtml then shortDoc
  else [].

(** Comparison by code units, which is how [localeCompare] orders ISO
    dates. *)
Definition localeCompare (a b : string) : Z :=
  match String.compare a b with Lt => -1 | Eq => 0 | Gt => 1 end.

Definition observation (d h s : string) (v : option Num.t) : Observation :=
  {| date := d; hour := h; value := v;
     rawValue := match v with Some x => RawNumber x | None => RawText "NR" end;
     station := s; parameter := "o3" |}.

Definition sort : (Average.t -> Average.t -> Z) -> list Average.t -> list Average.t :=
  sortBy.

(** Readings of 10 and 20.5 and a missing one at 08 h, a missing one
    alone at 09 h.  The mean at 08 h is 15.25. *)
Definition readings : list Observation :=
  [ observation "2025-03-01" "08" "A" (Some (Num.decimal 10 0));
    observation "2025-03-01" "08" "B" (Some (Num.decimal 205 1));
    observation "2025-03-01" "08" "C" None;
    observation "2025-03-01" "09" "A" None ].

(** What [processAirQualityData] returns for [readings], or nothing. *)
Definition processed : option Processed :=
  match processAirQualityData localeCompare sort readings with
  | Return r => Some r
  | Throw _ => None
  end.


End Sample.

(** ** Vocabulary of the statements, continued *)

(** The day of a row is the padded day filter, or a padded run of digits
    from the row's date cell. *)
Definition dayToken (specificDay : option string) (d : string) : Prop :=
  (2 <= String.length d)%nat
  /\ (Str.allDigits d = true
      \/ (truthy specificDay = true
          /\ d = Str.padStart2 (default "" specificDay))).






(** What the language says of every sort: the result holds the elements
    of the array, each as often as the array does. *)
Definition sortPermutes
    (sort : (Average.t -> Average.t -> Z) -> list Average.t -> list Average.t)
  : Prop :=
  forall cmp l, sort cmp l ≡ₚ l.

(** Checks on the decimal text of small integers, run over their whole
    range. *)
Definition hourFormatOk (h : Z) : bool :=
  let s := Str.padStart2 (Str.ofZ h) in
  (String.length s =? 2)%nat && Str.allDigits s
  && match Str.parseInt s with Some k => k =? h | None => false end.

Definition dayFormatOk (d : Z) : bool :=
  match Str.parseInt (Str.padStart2 (Str.ofZ d)) with
  | Some k => k =? d
  | None => false
  end.

Definition digitChars : list ascii :=
  ["0"; "1"; "2"; "3"; "4"; "5"; "6"; "7"; "8"; "9"]%char.

Definition twoDigitDayOk (ab : ascii * ascii) : bool :=
  let s := String (fst ab) (String (snd ab) EmptyString) in
  match Str.parseInt s with
  | Some d => String.eqb (Str.padStart2 (Str.ofZ d)) s
  | None => false
  end.

(** The running sum and count of a key in the object being filled. *)
Fixpoint lookupKey (key : string) (acc : Sums) : option (Num.t * nat) :=
  match acc with
  | [] => None
  | (k, sc) :: acc' => if String.eqb key k then Some sc else lookupKey key acc'
  end.

(** What lines 344-352 make of an entry, or of its absence, for a value. *)
Definition bump (o : option (Num.t * nat)) (v : Num.t) : option (Num.t * nat) :=
  match o with
  | None => Some (v, 1%nat)
  | Some (sum, count) => Some (Num.add sum v, S count)
  end.

(** The sum and count of a list of values; nothing for no value. *)
Definition summary (vals : list Num.t) : option (Num.t * nat) :=
  match vals with
  | [] => None
  | _ :: _ => Some (sumOf vals, length vals)
  end.

(** [m] holds, for every station of [data], its observations in input
    order, and nothing else. *)
Definition groupsOf (data : list Observation)
    (m : gmap string (list Observation)) : Prop :=
  forall s, m !! s = if decide (ofStation s data = [])
                     then None else Some (ofStation s data).

(** The element of [hourlyAverages] that the values at a key give: the
    first two blank-separated parts of the key, the mean of the values
    rounded to one decimal, and their number. *)
Definition averageAtKey (key : string) (data : list Observation) : Average.t :=
  let vals := valuesAtKey key data in
  {| Average.date := default "" (Str.splitSpaces key !! 0%nat);
     Average.hour := default "" (Str.splitSpaces key !! 1%nat);
     Average.value := Num.roundOneDecimal (meanOf vals);
     Average.stationCount := length vals |}.

(** ** fetchAirQualityData *)

(** What the module reads of a response: [ok], [status], and the text
    that [response.text()] resolves to, [None] when it rejects. *)
Record Response := {
  ok : bool;
  status : Z;
  body : option string
}.

(** Why the promise of [fetchAirQualityData] rejects: the error of line
    42, a rejection of [fetch] or of [response.text()], or an exception
    of [parseAirQualityHtml].  The [catch] of lines 51-54 logs and
    rethrows. *)
Inductive Rejection :=
| HttpError (code : Z)
| NetworkError
| Raised (e : JsError).

Inductive settled (A : Type) : Type :=
| Resolved (a : A)
| Rejected (r : Rejection).
Arguments Resolved {A} a.
Arguments Rejected {A} r.

(** Lines 14-32: the entries of the [URLSearchParams] object.  The
    optional arguments are added when truthy. *)
Definition requestParams (param year month : string)
    (day hr stn : option string) : list (string * string) :=
  let paramValue := if String.eqb param "pm25" then "pm2" else param in
  ([ ("qtipo", "HORARIOS"); ("parametro", paramValue);
     ("anio", year); ("qmes", month) ]
   ++ (if truthy day then [("dia", default "" day)] else [])
   ++ (if truthy hr then [("hora", default "" hr)] else [])
   ++ (if truthy stn then [("qestacion", default "" stn)] else []))%list.

Section Fetcher.

(** The tables [DOMParser] finds in a markup text. *)
Variable parseFromString : string -> Document.

(** [URLSearchParams.prototype.toString]. *)
Variable serialize : list (string * string) -> string.

(** [fetch]: the response a URL gets, [None] when the promise rejects. *)
Variable fetch : string -> option Response.

(** Line 35. *)
Definition requestUrl (param year month : string)
    (day hr stn : option string) : string :=
  "/.netlify/functions/proxy" ++ "?"
  ++ serialize (requestParams param year month day hr stn).

(** Lines 8-55.  The parser is called with the requested parameter and
    the day; the hour and the station go into the request only. *)
Definition fetchAirQualityData (globalTables : option Document) (now : Clock)
    (param year month : string) (day hr stn : option string)
  : settled (list Observation) :=
  match fetch (requestUrl param year month day hr stn) with
  | None => Rejected NetworkError
  | Some response =>
      if negb (ok response) then Rejected (HttpError (status response))
      else
        match body response with
        | None => Rejected NetworkError
        | Some html =>
            match parseAirQualityHtml parseFromString globalTables now
                    html param year month day None None with
            | Return data => Resolved data
            | Throw e => Rejected (Raised e)
            end
        end
  end.

End Fetcher.

(** ** Vocabulary of the further statements *)

(** The upper-case forms of the tokens a cell can hold. *)
Definition upperTokens : list string :=
  ["-"; "N/D"; "NR"; "NV"; "**"; "NA"; "N/A"].

(** The row the header is read from. *)
Definition headerRow (L : Layout) : Row := default [] (rows L !! 1%nat).

(** A text that [trim] leaves as it is. *)
Definition isTrimmed (s : string) : Prop :=
  Str.trimStart s = s /\ Str.trimEnd s = s.

(** What line 272 onwards can put in [value] and [rawValue]. *)
Definition wellFormedReading (o : Observation) : Prop :=
  (value o = None
   /\ exists t, rawValue o = RawText t /\ t ∈ upperTokens)
  \/ (exists v, value o = Some v /\ rawValue o = RawNumber v
                /\ Num.isNaN v = false
                /\ Num.le (Num.ofZ 0) v = true).

(** The entries kept by the loop of lines 165-174 over the header texts
    [all], read up to index [i]. *)
Definition stationEntryUpTo (ss : option string) (start i : nat)
    (all : list string) (e : string * nat) : Prop :=
  (start <= e.2 < i)%nat
  /\ (exists text, all !! e.2 = Some text /\ e.1 = Str.trim text)
  /\ e.1 <> ""
  /\ (truthy ss = true -> e.1 = default "" ss)
  /\ (forall col' text', (e.2 < col' < i)%nat -> all !! col' = Some text' ->
                         Str.trim text' <> e.1).

Definition hasValue (o : Observation) : bool :=
  match value o with Some _ => true | None => false end.

(** The order of the numbers of two hours of the day is the order of
    the hours, checked for one hour against the twenty-four. *)
Definition hoursOrderOk (x : Z) : bool :=
  forallb (fun y => Bool.eqb (Num.le (Num.ofZ x) (Num.ofZ y)) (x <=? y))
          (map (fun k : nat => 0 + Z.of_nat k) (seq 0 24)).

(** The order of an element of [hourlyAverages] and a later one: by
    date where the dates differ; on the same date, where both hours read
    as integers, by the numbers of those integers, which for hours of
    the day is the order of the hours. *)
Definition inOrder (localeCompare : string -> string -> Z)
    (a b : Average.t) : Prop :=
  if String.eqb (Average.date a) (Average.date b)
  then forall x y, Str.parseInt (Average.hour a) = Some x ->
                   Str.parseInt (Average.hour b) = Some y ->
                   Num.le (Num.ofZ x) (Num.ofZ y) = true
                   /\ (0 <= x <= 23 -> 0 <= y <= 23 -> x <= y)
  else localeCompare (Average.date a) (Average.date b) <= 0.

(** Each element of a list stands in [R] to every later one. *)
Fixpoint sortedBy {A} (R : A -> A -> Prop) (l : list A) : Prop :=
  match l with
  | [] => True
  | x :: l' => Forall (R x) l' /\ sortedBy R l'
  end.

(** A comparison function that is consistent on the elements of a
    list, as the language asks of the argument of [sort]: an element
    compares as equal with itself; comparing as equal is symmetric and
    transitive; coming before is transitive, and so is coming after. *)
Definition consistentOn {A} (cmp : A -> A -> Z) (l : list A) : Prop :=
  (forall a, a ∈ l -> cmp a a = 0)
  /\ (forall a b, a ∈ l -> b ∈ l -> cmp a b = 0 -> cmp b a = 0)
  /\ (forall a b c, a ∈ l -> b ∈ l -> c ∈ l ->
        cmp a b = 0 -> cmp b c = 0 -> cmp a c = 0)
  /\ (forall a b c, a ∈ l -> b ∈ l -> c ∈ l ->
        cmp a b < 0 -> cmp b c < 0 -> cmp a c < 0)
  /\ (forall a b c, a ∈ l -> b ∈ l -> c ∈ l ->
        0 < cmp a b -> 0 < cmp b c -> 0 < cmp a c).

(** What the language says of a sort whose comparison function is
    consistent on the elements: in the result no element comes after a
    later one. *)
Definition sortOrders
    (sort : (Average.t -> Average.t -> Z) -> list Average.t -> list Average.t)
  : Prop :=
  forall cmp l, consistentOn cmp l ->
                sortedBy (fun a b => cmp a b <= 0) (sort cmp l).

(** [localeCompare] orders the dates of the observations: a date
    compares as equal with itself and with no other date, and coming
    before and coming after are transitive. *)
Definition ordersDatesOf (localeCompare : string -> string -> Z)
    (data : list Observation) : Prop :=
  (forall a, a ∈ data -> localeCompare (date a) (date a) = 0)
  /\ (forall a b, a ∈ data -> b ∈ data ->
        localeCompare (date a) (date b) = 0 -> date a = date b)
  /\ (forall a b c, a ∈ data -> b ∈ data -> c ∈ data ->
        localeCompare (date a) (date b) < 0 ->
        localeCompare (date b) (date c) < 0 ->
        localeCompare (date a) (date c) < 0)
  /\ (forall a b c, a ∈ data -> b ∈ data -> c ∈ data ->
        0 < localeCompare (date a) (date b) ->
        0 < localeCompare (date b) (date c) ->
        0 < localeCompare (date a) (date c)).

(** The counts of the object being filled, added up. *)
Definition countsOf (acc : Sums) : nat :=
  sum_list (map (fun entry => entry.2.2) acc).

(** The date and hour an element of [hourlyAverages] shows. *)
Definition slot (e : Average.t) : string * string :=
  (Average.date e, Average.hour e).

(** The result made from a tier. *)
Definition categoryOf (t : Threshold) : Category :=
  {| cat_category := category t; cat_color := color t |}.

(** The seven results [getAirQualityCategory] can give. *)
Definition knownCategories : list Category :=
  [ {| cat_category := "Good"; cat_color := "#00e400" |};
    {| cat_category := "Moderate"; cat_color := "#ffff00" |};
    {| cat_category := "Unhealthy for Sensitive Groups"; cat_color := "#ff7e00" |};
    {| cat_category := "Unhealthy"; cat_color := "#ff0000" |};
    {| cat_category := "Very Unhealthy"; cat_color := "#99004c" |};
    {| cat_category := "Hazardous"; cat_color := "#7e0023" |};
    unknownCategory ].

Definition monthFormatOk (k : Z) : bool :=
  match Str.parseInt (Str.padStart2 (Str.ofZ k)) with
  | Some j => j =? k
  | None => false
  end.

Definition caseFoldOk (c : ascii) : bool :=
  Ascii.eqb (Str.upperChar (Str.lowerChar c)) (Str.upperChar c).

(** ** Further sample pages *)

Module Sample2.

(** A page with a short layout table before the data table and a table
    of the same size after it. *)
Definition threeTables : Document :=
  [ [ ["Red de monitoreo"] ];
    [ ["Ozono"]; ["Fecha"; "Hora"; "ACO"]; ["14/03/2025"; "1"; "31"] ];
    [ ["a"]; ["b"]; ["c"] ] ].

(** A page whose header names a station twice and whose readings carry
    a sign and a unit. *)
Definition signedHtml : string :=
  "<table><tr><td>Ozono</td></tr><tr><td>Fecha</td><td>Hora</td><td>ACO</td><td> MER </td><td>ACO</td></tr><tr><td>14/03/2025</td><td>7</td><td>1</td><td>-5 ppb</td><td>n/d</td></tr></table>".
Definition signedDoc : Document :=
  [ [ ["Ozono"];
      ["Fecha"; "Hora"; "ACO"; " MER "; "ACO"];
      ["14/03/2025"; "7"; "1"; "-5 ppb"; "n/d"] ] ].
Definition signedLayout : Layout :=
  {| rows := [ ["Ozono"];
               ["Fecha"; "Hora"; "ACO"; " MER "; "ACO"];
               ["14/03/2025"; "7"; "1"; "-5 ppb"; "n/d"] ];
     fechaIndex := Some 0%nat;
     horaIndex := 1%nat;
     stationIndices := [("ACO", 4%nat); ("MER", 3%nat)] |}.
Definition signedObservations : list Observation :=
  [ {| date := "2025-03-14"; hour := "07"; value := None;
       rawValue := RawText "N/D"; station := "ACO"; parameter := "pm25" |};
    {| date := "2025-03-14"; hour := "07"; value := Some (Num.decimal 5 0);
       rawValue := RawNumber (Num.decimal 5 0); station := "MER";
       parameter := "pm25" |} ].

(** A page whose second row has one cell only. *)
Definition shortHeaderHtml : string :=
  "<table><tr><td>PM2.5</td></tr><tr><td>Hora</td></tr><tr><td>Hora</td><td>ACO</td></tr><tr><td>1</td><td>12</td></tr></table>".
Definition shortHeaderDoc : Document :=
  [ [ ["PM2.5"]; ["Hora"]; ["Hora"; "ACO"]; ["1"; "12"] ] ].

Definition parseFromString (html : string) : Document :=
  if String.eqb html signedHtml then signedDoc
  else if String.eqb html shortHeaderHtml then shortHeaderDoc
  else Sample.parseFromString html.

(** A serialisation of the request entries and a proxy that answers
    every PM2.5 request for March 2025 with the signed page. *)
Fixpoint serialize (entries : list (string * string)) : string :=
  match entries with
  | [] => ""
  | [(k, v)] => k ++ "=" ++ v
  | (k, v) :: rest => k ++ "=" ++ v ++ "&" ++ serialize rest
  end.

Definition fetch (url : string) : option Response :=
  if Str.startsWith
       "/.netlify/functions/proxy?qtipo=HORARIOS&parametro=pm2&anio=2025&qmes=03"
       url
  then Some {| ok := true; status := 200; body := Some signedHtml |}
  else Some {| ok := false; status := 404; body := Some "" |}.

(** Readings of three hours, out of order, one of them without a value. *)
Definition readings : list Observation :=
  [ Sample.observation "2025-03-02" "10" "A" (Some (Num.decimal 30 0));
    Sample.observation "2025-03-01" "9" "A" (Some (Num.decimal 10 0));
    Sample.observation "2025-03-02" "10" "B" None;
    Sample.observation "2025-03-02" "10" "C" (Some (Num.decimal 40 0));
    Sample.observation "2025-03-01" "10" "B" (Some (Num.decimal 20 0)) ].

(** What [processAirQualityData] returns for [readings], or nothing. *)
Definition processed : option Processed :=
  match processAirQualityData Sample.localeCompare Sample.sort readings with
  | Return r => Some r
  | Throw _ => None
  end.

End Sample2.

(** * Properties *)

(** ** The model on sample texts *)

Example trim_keeps_inner_blanks : Str.trim "  n/d  " = "n/d".
Proof. reflexivity. Qed.

Example date_match_is_leftmost :
  Str.matchDate "1/2 12/34/56x" = Some ("12", "34", "56").
Proof. reflexivity. Qed.

Example date_match_needs_three_runs : Str.matchDate "03/2025" = None.
Proof. reflexivity. Qed.

Example hour_match_is_first_run : Str.matchDigits "Hora: 12h30" = Some "12".
Proof. reflexivity. Qed.

Example parseInt_samples :
  map Str.parseInt ["015"; " 12abc"; "-7"; "0x1F"; "abc"; ""]
  = [Some 15; Some 12; Some (-7); Some 31; None; None].
Proof. reflexivity. Qed.

Example parseFloat_samples :
  map Str.parseFloat ["12.5"; ".5"; "5."; "1.2.3"; "."; "..5"]
  = [Num.decimal 125 1; Num.decimal 5 1; Num.decimal 5 0;
     Num.decimal 12 1; Num.NaN; Num.NaN].
Proof. reflexivity. Qed.

(** 0.1 + 0.2 is not 0.3, and the mean of 0.1 and 0.2 rounds to 0.2. *)
Example binary_sum :
  Num.add (Num.decimal 1 1) (Num.decimal 2 1) <> Num.decimal 3 1
  /\ Num.roundOneDecimal
       (Num.div (Num.add (Num.decimal 1 1) (Num.decimal 2 1)) (Num.ofZ 2))
     = Num.decimal 2 1.
Proof. split; [discriminate | reflexivity]. Qed.

Example key_splits_back :
  Str.splitSpaces "2025-03-01 08" = ["2025-03-01"; "08"].
Proof. reflexivity. Qed.

(** ** Classification *)

(** Case analysis on the table a parameter selects. *)
Ltac by_table p :=
  unfold thresholdsFor, categories;
  repeat match goal with
         | |- context [String.eqb p ?k] => destruct (String.eqb p k)
         end.

Lemma finite_le_Infinity (v : Num.t) :
  Num.isFinite v = true -> Num.le v Num.Infinity = true.
Proof. destruct v as [s|s| |s m e]; simpl; intros H; try discriminate; reflexivity. Qed.

Lemma NaN_le_nothing (b : Num.t) : Num.le Num.NaN b = false.
Proof. reflexivity. Qed.

(** Every table of the module is made of five finite bounds and the
    unbounded tier. *)
Lemma thresholdsFor_tiers (p : string) :
  exists b1 b2 b3 b4 b5,
    thresholdsFor p = tiers b1 b2 b3 b4 b5
    /\ Forall (fun b => Num.isFinite b = true) [b1; b2; b3; b4; b5].
Proof.
  by_table p; do 5 eexists; (split; [reflexivity | repeat constructor]).
Qed.

Lemma thresholdsFor_ascending (p : string) :
  ascendingBounds (thresholdsFor p) = true.
Proof.
  by_table p; vm_compute; reflexivity.
Qed.

(** The loop returns the first tier whose bound is at or above the
    value, when there is one. *)
Lemma scanThresholds_first (ths : list Threshold) (v : Num.t) (k : nat) (u : Threshold) :
  ths !! k = Some u -> Num.le v (max u) = true ->
  exists (i : nat) (t : Threshold),
    ths !! i = Some t
    /\ Num.le v (max t) = true
    /\ (forall (j : nat) (w : Threshold),
           (j < i)%nat -> ths !! j = Some w -> Num.le v (max w) = false)
    /\ scanThresholds ths v
       = {| cat_category := category t; cat_color := color t |}.
Proof.
  revert k. induction ths as [|a ths IH]; intros k Hk Hle.
  - discriminate.
  - simpl. destruct (Num.le v (max a)) eqn:Ha.
    + exists 0%nat, a. repeat split; auto. intros j w Hj. lia.
    + destruct k as [|k].
      * simpl in Hk. injection Hk as ->. congruence.
      * simpl in Hk. destruct (IH k Hk Hle) as (i & t & Hi & Hti & Hbefore & Hscan).
        exists (S i), t. repeat split; auto.
        intros [|j] w Hj Hw; simpl in Hw.
        -- injection Hw as <-. exact Ha.
        -- apply (Hbefore j w); [lia | exact Hw].
Qed.

(** Without a match the loop falls through to the fallback. *)
Lemma scanThresholds_none (ths : list Threshold) (v : Num.t) :
  (forall t, t ∈ ths -> Num.le v (max t) = false) ->
  scanThresholds ths v = unknownCategory.
Proof.
  induction ths as [|a ths IH]; intros H; simpl; [reflexivity|].
  rewrite (H a) by (left). apply IH. intros t Ht. apply H. right. exact Ht.
Qed.

Lemma getAirQualityCategory_scan (p : string) (v : Num.t) :
  inheritedMember p = false ->
  getAirQualityCategory p v = Return (scanThresholds (thresholdsFor p) v).
Proof.
  intros Hp. unfold getAirQualityCategory, thresholdsFor.
  destruct (categories p); [reflexivity|]. rewrite Hp. reflexivity.
Qed.

(** C3 as the specification states it fails: positive infinity is at or
    below the unbounded tier, so it is classified Hazardous. *)
Lemma infinity_is_not_unknown :
  Num.isFinite Num.Infinity = false
  /\ getAirQualityCategory "o3" Num.Infinity
     = Return {| cat_category := "Hazardous"; cat_color := "#7e0023" |}
  /\ getAirQualityCategory "o3" Num.Infinity <> Return unknownCategory.
Proof. repeat split. vm_compute. discriminate. Qed.

(** C3, amended.  For a parameter that does not name an inherited member
    of the table object: NaN is classified Unknown/#808080, positive
    infinity Hazardous/#7e0023 (the last tier) and negative infinity
    Good/#00e400 (the first tier). *)
Theorem non_finite_value_category (p : string) :
  inheritedMember p = false ->
  getAirQualityCategory p Num.NaN = Return unknownCategory
  /\ getAirQualityCategory p Num.Infinity
     = Return {| cat_category := "Hazardous"; cat_color := "#7e0023" |}
  /\ getAirQualityCategory p Num.NegInfinity
     = Return {| cat_category := "Good"; cat_color := "#00e400" |}.
Proof.
  intros Hp. rewrite !getAirQualityCategory_scan by exact Hp.
  destruct (thresholdsFor_tiers p) as (b1 & b2 & b3 & b4 & b5 & -> & Hfin).
  repeat match goal with
         | H : Forall _ (_ :: _) |- _ => inversion H; subst; clear H
         end.
  split; [|split].
  - rewrite scanThresholds_none; [reflexivity|].
    intros t _. apply NaN_le_nothing.
  - unfold tiers. simpl.
    repeat match goal with
           | H : Num.isFinite ?b = true |- context [Num.le Num.Infinity ?b] =>
               replace (Num.le Num.Infinity b) with false
                 by (destruct b; simpl in H; try discriminate; reflexivity)
           end.
    reflexivity.
  - unfold tiers. simpl.
    match goal with
    | H : Num.isFinite ?b = true |- context [Num.le Num.NegInfinity ?b] =>
        replace (Num.le Num.NegInfinity b) with true
          by (destruct b; simpl in H; try discriminate; reflexivity)
    end.
    reflexivity.
Qed.

Lemma non_finite_value_category_witness :
  inheritedMember "pm25" = false
  /\ getAirQualityCategory "pm25" Num.NaN = Return unknownCategory
  /\ getAirQualityCategory "pm25" Num.Infinity
     = Return {| cat_category := "Hazardous"; cat_color := "#7e0023" |}
  /\ getAirQualityCategory "pm25" Num.NegInfinity
     = Return {| cat_category := "Good"; cat_color := "#00e400" |}.
Proof.
  split; [reflexivity | apply (non_finite_value_category "pm25"); reflexivity].
Defined.

(** C4.  The failing input: the parameter "constructor" and the value
    50.  The string has no breakpoint table, yet it is not classified
    with the ozone table as line 429 says a parameter that is not found
    is: [categories[parameter]] finds the inherited member, which is
    truthy, so the fallback [|| categories.o3] is not taken and the
    iteration throws. *)
Theorem inherited_name_is_not_classified :
  categories "constructor" = None
  /\ Num.isFinite (Num.decimal 50 0) = true
  /\ getAirQualityCategory "constructor" (Num.decimal 50 0) = Throw TypeError
  /\ getAirQualityCategory "constructor" (Num.decimal 50 0)
     <> Return (scanThresholds categories_o3 (Num.decimal 50 0)).
Proof. repeat split. vm_compute. discriminate. Qed.

(** The two boundary readings of the specification. *)
Example o3_70_is_good :
  getAirQualityCategory "o3" (Num.decimal 70 0)
  = Return {| cat_category := "Good"; cat_color := "#00e400" |}.
Proof. reflexivity. Qed.

Example o3_70_1_is_moderate :
  getAirQualityCategory "o3" (Num.decimal 701 1)
  = Return {| cat_category := "Moderate"; cat_color := "#ffff00" |}.
Proof. reflexivity. Qed.

(** X22.  Lines 376-444.  For every finite value and every parameter
    string that does not name an inherited member of the table object,
    the result is the category and colour of the first tier, in the
    order of the table, whose bound is at or above the value; the bounds
    of the table increase, and a parameter without a table of its own is
    classified with the ozone table. *)
Theorem category_is_first_tier_at_or_above (p : string) (v : Num.t) :
  inheritedMember p = false ->
  Num.isFinite v = true ->
  exists (i : nat) (t : Threshold),
    thresholdsFor p !! i = Some t
    /\ Num.le v (max t) = true
    /\ (forall (j : nat) (w : Threshold),
           (j < i)%nat -> thresholdsFor p !! j = Some w ->
           Num.le v (max w) = false)
    /\ getAirQualityCategory p v
       = Return {| cat_category := category t; cat_color := color t |}
    /\ ascendingBounds (thresholdsFor p) = true
    /\ (categories p = None -> thresholdsFor p = categories_o3).
Proof.
  intros Hp Hv.
  destruct (thresholdsFor_tiers p) as (b1 & b2 & b3 & b4 & b5 & Htiers & _).
  assert (Hlast : thresholdsFor p !! 5%nat
                  = Some {| max := Num.Infinity; category := "Hazardous";
                            color := "#7e0023" |})
    by (rewrite Htiers; reflexivity).
  destruct (scanThresholds_first (thresholdsFor p) v 5 _ Hlast
              (finite_le_Infinity v Hv))
    as (i & t & Hi & Hle & Hbefore & Hscan).
  exists i, t. repeat split; auto.
  - rewrite getAirQualityCategory_scan by exact Hp. rewrite Hscan. reflexivity.
  - apply thresholdsFor_ascending.
  - intros Hnone. unfold thresholdsFor. rewrite Hnone. reflexivity.
Qed.

Lemma category_is_first_tier_at_or_above_witness :
  inheritedMember "o3" = false
  /\ Num.isFinite (Num.decimal 701 1) = true
  /\ exists (i : nat) (t : Threshold),
      thresholdsFor "o3" !! i = Some t
      /\ Num.le (Num.decimal 701 1) (max t) = true
      /\ (forall (j : nat) (w : Threshold),
             (j < i)%nat -> thresholdsFor "o3" !! j = Some w ->
             Num.le (Num.decimal 701 1) (max w) = false)
      /\ getAirQualityCategory "o3" (Num.decimal 701 1)
         = Return {| cat_category := category t; cat_color := color t |}
      /\ ascendingBounds (thresholdsFor "o3") = true
      /\ (categories "o3" = None -> thresholdsFor "o3" = categories_o3).
Proof.
  split; [reflexivity | split; [reflexivity |]].
  apply (category_is_first_tier_at_or_above "o3" (Num.decimal 701 1));
    reflexivity.
Defined.

(** ** Strings and small numbers *)

Lemma padStart2_length (s : string) : (2 <= String.length (Str.padStart2 s))%nat.
Proof. destruct s as [|a [|b s]]; simpl; lia. Qed.

Lemma padStart2_two (s : string) :
  String.length s = 2%nat -> Str.padStart2 s = s.
Proof. destruct s as [|a [|b s]]; simpl; intros H; try discriminate; reflexivity. Qed.

Lemma padStart2_allDigits (s : string) :
  Str.allDigits s = true -> Str.allDigits (Str.padStart2 s) = true.
Proof. destruct s as [|a [|b s]]; simpl; intros H; auto. Qed.

Lemma padStart2_nonEmpty (s : string) : nonEmpty (Str.padStart2 s) = true.
Proof. destruct s as [|a [|b s]]; reflexivity. Qed.

Lemma spanDigits_allDigits (s : string) :
  Str.allDigits (fst (Str.spanDigits s)) = true.
Proof.
  induction s as [|c s IH]; simpl; [reflexivity|].
  destruct (Str.isDigit c) eqn:Hc; [|reflexivity].
  destruct (Str.spanDigits s) as [d r]. simpl in *. rewrite Hc. exact IH.
Qed.

Lemma matchDateHere_allDigits (s m1 m2 m3 : string) :
  Str.matchDateHere s = Some (m1, m2, m3) ->
  Str.allDigits m1 = true /\ Str.allDigits m2 = true /\ Str.allDigits m3 = true.
Proof.
  unfold Str.matchDateHere. intros H.
  pose proof (spanDigits_allDigits s) as H1.
  destruct (Str.spanDigits s) as [[|a d1] [|sep1 r1]]; try discriminate.
  destruct (Str.isDateSeparator sep1); try discriminate.
  pose proof (spanDigits_allDigits r1) as H2.
  destruct (Str.spanDigits r1) as [[|b d2] [|sep2 r2]]; try discriminate.
  destruct (Str.isDateSeparator sep2); try discriminate.
  pose proof (spanDigits_allDigits r2) as H3.
  destruct (Str.spanDigits r2) as [[|c d3] r3]; try discriminate.
  injection H as <- <- <-. auto.
Qed.

Lemma matchDate_allDigits (s m1 m2 m3 : string) :
  Str.matchDate s = Some (m1, m2, m3) ->
  Str.allDigits m1 = true /\ Str.allDigits m2 = true /\ Str.allDigits m3 = true.
Proof.
  induction s as [|c s IH]; simpl.
  - intros H. discriminate H.
  - destruct (Str.matchDateHere (String c s)) as [[[a b] d]|] eqn:Hh.
    + intros H. injection H as -> -> ->. exact (matchDateHere_allDigits _ _ _ _ Hh).
    + exact IH.
Qed.

(** A property of the integers from [lo] to [lo + n - 1], checked one by
    one. *)
Lemma Z_range_forallb (f : Z -> bool) (lo : Z) (n : nat) :
  forallb f (map (fun k : nat => lo + Z.of_nat k) (seq 0 n)) = true ->
  forall z, lo <= z < lo + Z.of_nat n -> f z = true.
Proof.
  intros H z Hz. rewrite forallb_forall in H. apply H.
  apply in_map_iff. exists (Z.to_nat (z - lo)). split; [lia|].
  apply in_seq. lia.
Qed.

Lemma hour_format (h : Z) :
  0 <= h <= 23 -> isHourOfDay (Str.padStart2 (Str.ofZ h)) h.
Proof.
  intros Hh.
  assert (Hok : hourFormatOk h = true).
  { apply (Z_range_forallb hourFormatOk 0 24); [vm_compute; reflexivity | lia]. }
  unfold hourFormatOk in Hok.
  apply andb_prop in Hok as [Hok Hparse]. apply andb_prop in Hok as [Hlen Hdig].
  repeat split; try lia; auto.
  - apply Nat.eqb_eq. exact Hlen.
  - destruct (Str.parseInt _) as [k|]; [|discriminate].
    apply Z.eqb_eq in Hparse. subst. reflexivity.
Qed.

(** The clock's day text reads back as the clock's day. *)
Lemma parseInt_currentDay (now : Clock) :
  1 <= getDate now <= 31 ->
  Str.parseInt (currentDay now) = Some (getDate now).
Proof.
  intros Hd. unfold currentDay.
  assert (Hok : dayFormatOk (getDate now) = true).
  { apply (Z_range_forallb dayFormatOk 1 31); [vm_compute; reflexivity | lia]. }
  unfold dayFormatOk in Hok.
  destruct (Str.parseInt _) as [k|]; [|discriminate].
  apply Z.eqb_eq in Hok. subst. reflexivity.
Qed.

Lemma isDigit_cases (c : ascii) : Str.isDigit c = true -> In c digitChars.
Proof.
  destruct c as [[] [] [] [] [] [] [] []]; intros H;
    vm_compute in H; try discriminate H; vm_compute; tauto.
Qed.

(** A day written with two digits is the text the clock gives for its
    number. *)
Lemma two_digit_day_text (s : string) (d : Z) :
  isTwoDigits s = true -> Str.parseInt s = Some d ->
  Str.padStart2 (Str.ofZ d) = s.
Proof.
  unfold isTwoDigits. intros H Hp. apply andb_prop in H as [Hlen Hdig].
  destruct s as [|a [|b [|c s]]]; try discriminate Hlen.
  simpl in Hdig. apply andb_prop in Hdig as [Ha Hb].
  apply andb_prop in Hb as [Hb _].
  assert (Hall : forallb twoDigitDayOk (list_prod digitChars digitChars) = true)
    by (vm_compute; reflexivity).
  rewrite forallb_forall in Hall.
  specialize (Hall (a, b)).
  unfold twoDigitDayOk in Hall. simpl fst in Hall. simpl snd in Hall.
  rewrite Hp in Hall. apply String.eqb_eq. apply Hall.
  apply in_prod; apply isDigit_cases; assumption.
Qed.


(** ** Extraction *)

Lemma elem_of_flat_map {A B} (f : A -> list B) (l : list A) (y : B) :
  y ∈ flat_map f l <-> exists x, x ∈ l /\ y ∈ f x.
Proof.
  split.
  - intros H. apply list_elem_of_In, in_flat_map in H as (x & Hx & Hy).
    exists x. split; apply list_elem_of_In; assumption.
  - intros (x & Hx & Hy). apply list_elem_of_In, in_flat_map.
    exists x. split; apply list_elem_of_In; assumption.
Qed.

(** With a global [tables] in scope the call returns; what it returns is
    empty unless the markup has 100 characters or more and a layout is
    resolved, and then it is what the row walk collects. *)
Lemma parse_return_inv (P : string -> Document) g now html p y m sd sh ss obs :
  parseAirQualityHtml P g now html p y m sd sh ss = Return obs ->
  g <> None
  /\ (obs = []
      \/ exists L, (100 <= String.length html)%nat
                   /\ resolveLayout (P html) p ss = Return (Some L)
                   /\ obs = extractRows now L p y m sd sh).
Proof.
  unfold parseAirQualityHtml, tryBlock. destruct g as [ts|]; [|discriminate].
  intros H. split; [discriminate|].
  destruct (negb (nonEmpty html) || (String.length html <? 100)%nat) eqn:Hshort.
  - left. congruence.
  - apply orb_false_elim in Hshort as [_ Hlen]. apply Nat.ltb_ge in Hlen.
    destruct (resolveLayout (P html) p ss) as [[L|]|e].
    + right. exists L. repeat split; auto. congruence.
    + left. congruence.
    + left. congruence.
Qed.

Lemma parse_with_layout (P : string -> Document) g now html p y m sd sh ss obs L :
  parseAirQualityHtml P g now html p y m sd sh ss = Return obs ->
  (100 <= String.length html)%nat ->
  resolveLayout (P html) p ss = Return (Some L) ->
  obs = flat_map (processRow now L p y m sd sh) (dataRows L).
Proof.
  unfold parseAirQualityHtml, tryBlock. destruct g as [ts|]; [|discriminate].
  intros H Hlen HL. rewrite HL in H.
  assert (Hne : nonEmpty html = true) by (destruct html; [simpl in Hlen; lia | reflexivity]).
  rewrite Hne in H. simpl in H.
  apply Nat.ltb_ge in Hlen. rewrite Hlen in H. unfold extractRows in H. congruence.
Qed.

(** With a global [tables] in scope, no input makes the call throw. *)
Lemma parse_returns_when_tables_is_bound (P : string -> Document) ts now html p y m sd sh ss :
  exists obs, parseAirQualityHtml P (Some ts) now html p y m sd sh ss = Return obs.
Proof.
  unfold parseAirQualityHtml.
  destruct (negb (nonEmpty html) || (String.length html <? 100)%nat); [eauto|].
  destruct (tryBlock P now html p y m sd sh ss); eauto.
Qed.

(** With a global [tables] in scope, markup of fewer than 100 characters
    gives the empty sequence, whatever tables it holds. *)
Lemma short_markup_returns_empty_when_tables_is_bound
    (P : string -> Document) ts now html p y m sd sh ss :
  (String.length html < 100)%nat ->
  parseAirQualityHtml P (Some ts) now html p y m sd sh ss = Return [].
Proof.
  intros Hlen. unfold parseAirQualityHtml.
  apply Nat.ltb_lt in Hlen. rewrite Hlen, orb_true_r. reflexivity.
Qed.

Lemma acceptRow_inv now L y m sd sh cells rowDay h :
  acceptRow now L y m sd sh cells = Some (rowDay, h) <->
  (S (horaIndex L) < length cells)%nat
  /\ resolveDay sd (fechaIndex L) cells = Some rowDay
  /\ resolveHour (horaIndex L) cells = Some h
  /\ hourFilteredOut sh h = false
  /\ skippedAsFuture now y m rowDay h = false.
Proof.
  unfold acceptRow. split.
  - destruct (length cells <=? S (horaIndex L))%nat eqn:Hlen; [discriminate|].
    apply Nat.leb_gt in Hlen.
    destruct (resolveDay sd (fechaIndex L) cells) as [d|]; [|discriminate].
    destruct (resolveHour (horaIndex L) cells) as [k|]; [|discriminate].
    destruct (hourFilteredOut sh k) eqn:Hf; [discriminate|].
    destruct (skippedAsFuture now y m d k) eqn:Hs; [discriminate|].
    intros H. injection H as -> ->. auto.
  - intros (Hlen & -> & -> & -> & ->).
    apply Nat.leb_gt in Hlen. rewrite Hlen. reflexivity.
Qed.

Lemma processRow_accepted now L p y m sd sh cells rowDay h :
  acceptRow now L y m sd sh cells = Some (rowDay, h) ->
  processRow now L p y m sd sh cells
  = flat_map (processCell p y m rowDay (Str.padStart2 (Str.ofZ h)) cells)
      (stationIndices L).
Proof. unfold processRow. intros ->. reflexivity. Qed.

Lemma processRow_rejected now L p y m sd sh cells :
  acceptRow now L y m sd sh cells = None ->
  processRow now L p y m sd sh cells = [].
Proof. unfold processRow. intros ->. reflexivity. Qed.

Lemma processCell_fields p y m rowDay fh cells entry o :
  o ∈ processCell p y m rowDay fh cells entry ->
  date o = isoDate y m rowDay /\ hour o = fh
  /\ station o = entry.1 /\ parameter o = p.
Proof.
  unfold processCell. destruct entry as [name col].
  destruct (cells !! col) as [cell|]; [|intros H; inversion H].
  destruct (nonEmpty (Str.trim cell)); [|intros H; inversion H].
  destruct (isMissingToken (Str.trim cell)).
  - intros H. apply list_elem_of_singleton in H. subst o. simpl. auto.
  - destruct (nonEmpty (Str.keepDigitsAndDots (Str.trim cell))); [|intros H; inversion H].
    destruct (negb (Num.isNaN _)); [|intros H; inversion H].
    intros H. apply list_elem_of_singleton in H. subst o. simpl. auto.
Qed.

(** An emitted observation comes from a row that passed the guards. *)
Lemma extractRows_elem now L p y m sd sh o :
  o ∈ flat_map (processRow now L p y m sd sh) (dataRows L) ->
  exists cells rowDay h entry,
    cells ∈ dataRows L
    /\ acceptRow now L y m sd sh cells = Some (rowDay, h)
    /\ entry ∈ stationIndices L
    /\ o ∈ processCell p y m rowDay (Str.padStart2 (Str.ofZ h)) cells entry.
Proof.
  intros H. apply elem_of_flat_map in H as (cells & Hcells & Ho).
  unfold processRow in Ho.
  destruct (acceptRow now L y m sd sh cells) as [[rowDay h]|] eqn:Hacc;
    [|inversion Ho].
  apply elem_of_flat_map in Ho as (entry & Hentry & Ho).
  exists cells, rowDay, h, entry. auto.
Qed.

Lemma resolveHour_range hora cells h :
  resolveHour hora cells = Some h -> 0 <= h <= 23.
Proof.
  unfold resolveHour. destruct (cells !! hora) as [cell|]; [|discriminate].
  destruct (Str.matchDigits (Str.trim cell)) as [digits|]; [|discriminate].
  destruct (Str.parseInt digits) as [k|]; [|discriminate].
  destruct ((k <? 0) || (23 <? k)) eqn:Hk; [discriminate|].
  intros H. injection H as <-.
  apply orb_false_elim in Hk as [H0 H23]. lia.
Qed.

Lemma rowDayOf_token sd fecha cells d :
  rowDayOf (if truthy sd then Some (Str.padStart2 (default "" sd)) else None)
    fecha cells = Some d ->
  dayToken sd d.
Proof.
  unfold rowDayOf, dayToken.
  assert (Hday : (if truthy sd then Some (Str.padStart2 (default "" sd)) else None)
                 = Some d ->
                 (2 <= String.length d)%nat
                 /\ (Str.allDigits d = true
                     \/ truthy sd = true /\ d = Str.padStart2 (default "" sd))).
  { destruct (truthy sd); [|discriminate]. intros H. injection H as <-.
    split; [apply padStart2_length | right; auto]. }
  destruct fecha as [fi|]; [|exact Hday].
  destruct (cells !! fi) as [cell|]; [|exact Hday].
  destruct (Str.matchDate (Str.trim cell)) as [[[m1 m2] m3]|] eqn:Hm; [|exact Hday].
  apply matchDate_allDigits in Hm as (H1 & H2 & H3).
  destruct (numGt (Str.parseInt m3) (Some 31));
    [|destruct (numGt (Str.parseInt m1) (Some 31))];
    intros H; injection H as <-;
    (split; [apply padStart2_length | left; apply padStart2_allDigits; assumption]).
Qed.

Lemma resolveDay_token sd fecha cells d :
  resolveDay sd fecha cells = Some d -> dayToken sd d.
Proof.
  unfold resolveDay.
  set (day := if truthy sd then Some (Str.padStart2 (default "" sd)) else None).
  destruct (rowDayOf day fecha cells) as [r|] eqn:Hr.
  - apply rowDayOf_token in Hr.
    destruct (negb (truthy (Some r)) && truthy sd) eqn:Hc.
    + cbn [truthy]. rewrite (padStart2_nonEmpty (default "" sd)).
      intros H. injection H as <-. apply andb_prop in Hc as [_ Hsd].
      split; [apply padStart2_length | right; auto].
    + destruct (truthy (Some r)); [|discriminate].
      intros H. injection H as <-. exact Hr.
  - cbn [truthy negb andb]. destruct (truthy sd) eqn:Hsd.
    + cbn [truthy]. rewrite (padStart2_nonEmpty (default "" sd)).
      intros H. injection H as <-.
      split; [apply padStart2_length | right; auto].
    + cbn [truthy]. discriminate.
Qed.

(** Without a day filter, a row whose date cell names no day has no day. *)
Lemma resolveDay_without_fecha sd cells :
  truthy sd = false -> resolveDay sd None cells = None.
Proof. unfold resolveDay, rowDayOf. intros ->. reflexivity. Qed.

Lemma mapSet_keys (key : string) (v : nat) (m : list (string * nat)) (k : string) :
  k ∈ (mapSet key v m).*1 -> k = key \/ k ∈ m.*1.
Proof.
  induction m as [|[k' w] m IH]; simpl.
  - intros H. apply list_elem_of_singleton in H. auto.
  - destruct (String.eqb key k') eqn:Hkey; simpl.
    + intros H. apply elem_of_cons in H as [->|H]; [auto | right; right; exact H].
    + intros H. apply elem_of_cons in H as [->|H]; [right; left|].
      destruct (IH H); [auto | right; right; assumption].
Qed.

Lemma mapSet_NoDup (key : string) (v : nat) (m : list (string * nat)) :
  NoDup m.*1 -> NoDup (mapSet key v m).*1.
Proof.
  induction m as [|[k' w] m IH]; simpl; intros Hnd.
  - repeat constructor. intros H. inversion H.
  - apply NoDup_cons in Hnd as [Hk' Hnd].
    destruct (String.eqb key k') eqn:Hkey; simpl.
    + apply String.eqb_eq in Hkey. subst k'. apply NoDup_cons. auto.
    + apply NoDup_cons. split; [|auto].
      intros Hin. destruct (mapSet_keys key v m k' Hin) as [->|Hin'].
      * rewrite String.eqb_refl in Hkey. discriminate.
      * contradiction.
Qed.

Lemma collectStations_NoDup ss i texts acc :
  NoDup acc.*1 -> NoDup (collectStations ss i texts acc).*1.
Proof.
  revert i acc. induction texts as [|text texts IH]; intros i acc Hnd; [exact Hnd|].
  simpl. apply IH.
  destruct (nonEmpty (Str.trim text)); [|exact Hnd].
  destruct (truthy ss && negb (String.eqb (Str.trim text) (default "" ss)));
    [exact Hnd | apply mapSet_NoDup; exact Hnd].
Qed.

(** A station name is the key of one entry of the station map only. *)
Lemma resolveLayout_NoDup tables p ss L :
  resolveLayout tables p ss = Return (Some L) -> NoDup (stationIndices L).*1.
Proof.
  assert (Hheader : forall tableRows headerCells,
             resolveHeader tableRows headerCells ss = Some L ->
             NoDup (stationIndices L).*1).
  { intros tableRows headerCells. unfold resolveHeader.
    destruct (findIndex isHoraHeader (map Str.trim headerCells)); [|discriminate].
    intros H. injection H as <-. simpl.
    apply collectStations_NoDup. constructor. }
  unfold resolveLayout.
  destruct (selectDataTable tables) as [tableRows|]; [|discriminate].
  destruct (length tableRows <? 2)%nat; [discriminate|].
  destruct (length (default [] (tableRows !! 1%nat)) <? 2)%nat.
  - destruct (String.eqb p "pm25" || String.eqb p "pm25nowCast"); [|discriminate].
    destruct (existsb _ _); [discriminate|].
    intros H. injection H as H. exact (Hheader _ _ H).
  - intros H. injection H as H. exact (Hheader _ _ H).
Qed.



(** An observation of the result comes from a data row that passes the
    row guards and from an entry of the station map. *)
Lemma emitted_entry (P : string -> Document) g now html p y m sd sh ss obs o :
  parseAirQualityHtml P g now html p y m sd sh ss = Return obs ->
  o ∈ obs ->
  exists L cells rowDay h entry,
    resolveLayout (P html) p ss = Return (Some L)
    /\ cells ∈ dataRows L
    /\ acceptRow now L y m sd sh cells = Some (rowDay, h)
    /\ entry ∈ stationIndices L
    /\ o ∈ processCell p y m rowDay (Str.padStart2 (Str.ofZ h)) cells entry.
Proof.
  intros Hret Ho.
  destruct (parse_return_inv P g now html p y m sd sh ss obs Hret)
    as [_ [-> | (L & Hlen & HL & ->)]]; [inversion Ho|].
  apply extractRows_elem in Ho
      as (cells & rowDay & h & entry & Hcells & Hacc & Hentry & Ho).
  exists L, cells, rowDay, h, entry. auto.
Qed.






(** A date cell that writes the day with one digit gives a day of two. *)
Example one_digit_day :
  resolveDay None (Some 0%nat) ["5/3/2025"; "1"] = Some "05".
Proof. reflexivity. Qed.

(** C1, a defect of the code.  Line 64 reads [tables] before the [try]
    block that declares it, and outside that block.  Where no global of
    that name exists, which is how the module is written, every call
    throws a ReferenceError to its caller, whatever the markup, the
    parameter, the year, the month and the filters. *)
Theorem parseAirQualityHtml_throws_ReferenceError
    (P : string -> Document) now html p y m sd sh ss :
  parseAirQualityHtml P None now html p y m sd sh ss = Throw ReferenceError.
Proof. reflexivity. Qed.

(** C9, the same defect.  Markup of 98 characters that holds a complete
    table does not reach the length guard of lines 68-72: the call throws
    the ReferenceError of line 64 instead of returning the empty
    sequence. *)
Theorem short_markup_throws_ReferenceError :
  String.length Sample.shortHtml = 98%nat
  /\ parseAirQualityHtml Sample.parseFromString None Sample.now
       Sample.shortHtml "o3" "2025" "03" (Some "14") None None
     = Throw ReferenceError
  /\ tryBlock Sample.parseFromString Sample.now
       Sample.shortHtml "o3" "2025" "03" (Some "14") None None
     = Return [ {| date := "2025-03-14"; hour := "01";
                   value := Some (Num.decimal 5 0);
                   rawValue := RawNumber (Num.decimal 5 0);
                   station := "ACO"; parameter := "o3" |} ].
Proof. repeat split. Qed.




(** C5 as the specification states it fails: the table has no date
    column, no day filter is given, the text of the page names day 14,
    the data row has a valid hour and a reading, and nothing is
    emitted. *)
Lemma rows_without_a_day_are_not_emitted :
  exists L cells,
    resolveLayout (Sample.parseFromString Sample.noFechaHtml) "o3" None
    = Return (Some L)
    /\ fechaIndex L = None
    /\ dataRows L = [cells]
    /\ resolveHour (horaIndex L) cells = Some 1
    /\ processCell "o3" "2025" "03" "14" "01" cells ("ACO", 1%nat) <> []
    /\ Str.includes "Dia: 14" Sample.noFechaHtml = true
    /\ parseAirQualityHtml Sample.parseFromString (Some []) Sample.now
         Sample.noFechaHtml "o3" "2025" "03" None None None
       = Return [].
Proof. do 2 eexists. repeat split. discriminate. Qed.

(** C5, amended.  When the selected table has no date column and no day
    filter is given, every data row is skipped at line 219: the call,
    when it returns, returns the empty sequence.  No day is looked for in
    the text of the page and no default day is used. *)
Theorem no_date_column_and_no_day_filter_emit_nothing
    (P : string -> Document) g now html p y m sd sh ss obs (L : Layout) :
  parseAirQualityHtml P g now html p y m sd sh ss = Return obs ->
  resolveLayout (P html) p ss = Return (Some L) ->
  fechaIndex L = None ->
  truthy sd = false ->
  obs = [].
Proof.
  intros Hret HL Hfecha Hsd.
  destruct (parse_return_inv P g now html p y m sd sh ss obs Hret)
    as [_ [-> | (L' & Hlen & HL' & ->)]]; [reflexivity|].
  assert (L' = L) by congruence. subst L'.
  unfold extractRows.
  induction (dataRows L) as [|cells rest IH]; [reflexivity|].
  simpl. rewrite IH, app_nil_r.
  apply processRow_rejected. unfold acceptRow.
  rewrite Hfecha, (resolveDay_without_fecha sd cells Hsd).
  destruct (length cells <=? S (horaIndex L))%nat; reflexivity.
Qed.

Lemma no_date_column_and_no_day_filter_emit_nothing_witness :
  parseAirQualityHtml Sample.parseFromString (Some []) Sample.now
    Sample.noFechaHtml "o3" "2025" "03" None None None = Return []
  /\ @nil Observation = [].
Proof.
  split; [reflexivity|].
  apply (no_date_column_and_no_day_filter_emit_nothing
           Sample.parseFromString (Some []) Sample.now Sample.noFechaHtml
           "o3" "2025" "03" None None None [] Sample.noFechaLayout);
    reflexivity.
Defined.




(** ** The filter on future hours *)

Lemma numGt_irrefl (a : option Z) : numGt a a = false.
Proof. destruct a as [x|]; simpl; [apply Z.ltb_irrefl | reflexivity]. Qed.

Lemma numEq_refl (x : Z) : numEq (Some x) (Some x) = true.
Proof. simpl. apply Z.eqb_refl. Qed.

(** C8.  The failing input: the request is for the clock's year and
    month, the row is on the clock's day (15, written 015) at 23 h, and
    the clock reads 10 h.  The row is a future hour of the current day,
    which lines 245-257 mean to skip, and it is emitted: the test for a
    later day reads the day as a number, the test for the same day
    compares the texts, and 015 is neither after 15 nor the text 15. *)
Theorem three_digit_day_escapes_the_hour_filter :
  Str.parseInt "2025" = Some (getFullYear Sample.now)
  /\ "03" = currentMonth Sample.now
  /\ exists L cells,
      resolveLayout (Sample.parseFromString Sample.longDayHtml) "o3" None
      = Return (Some L)
      /\ dataRows L = [cells]
      /\ resolveDay None (fechaIndex L) cells = Some "015"
      /\ Str.parseInt "015" = Some (getDate Sample.now)
      /\ resolveHour (horaIndex L) cells = Some 23
      /\ getHours Sample.now < 23
      /\ processRow Sample.now L "o3" "2025" "03" None None cells <> []
      /\ parseAirQualityHtml Sample.parseFromString (Some []) Sample.now
           Sample.longDayHtml "o3" "2025" "03" None None None
         = Return [ {| date := "2025-03-015"; hour := "23"; value := None;
                       rawValue := RawText "NR"; station := "ACO";
                       parameter := "o3" |} ].
Proof.
  split; [reflexivity | split; [reflexivity|]].
  do 2 eexists. repeat split. discriminate.
Qed.

(** X24.  Lines 245-257.  When the requested year and month are the
    clock's: a row whose day reads as a number after the clock's day
    adds no observation, whatever the text of the day; a row whose day
    is written with two digits and is the clock's day, with an hour
    after the clock's hour, adds none either; and a row whose day reads
    as the clock's day, at the clock's hour, is not held back by this
    filter, so when it also passes the length guard and the hour filter
    its cells are read. *)
Theorem future_rows_add_nothing
    (P : string -> Document) g now html p y m sd sh ss obs (L : Layout) :
  parseAirQualityHtml P g now html p y m sd sh ss = Return obs ->
  (100 <= String.length html)%nat ->
  resolveLayout (P html) p ss = Return (Some L) ->
  Str.parseInt y = Some (getFullYear now) ->
  m = currentMonth now ->
  1 <= getDate now <= 31 ->
  obs = flat_map (processRow now L p y m sd sh) (dataRows L)
  /\ forall (cells : Row) (rowDay : string) (d h : Z),
      resolveDay sd (fechaIndex L) cells = Some rowDay ->
      resolveHour (horaIndex L) cells = Some h ->
      Str.parseInt rowDay = Some d ->
      (getDate now < d -> processRow now L p y m sd sh cells = [])
      /\ (isTwoDigits rowDay = true -> d = getDate now -> getHours now < h ->
          processRow now L p y m sd sh cells = [])
      /\ (d = getDate now -> h = getHours now ->
          skippedAsFuture now y m rowDay h = false
          /\ ((S (horaIndex L) < length cells)%nat ->
              hourFilteredOut sh h = false ->
              processRow now L p y m sd sh cells
              = flat_map
                  (processCell p y m rowDay (Str.padStart2 (Str.ofZ h)) cells)
                  (stationIndices L))).
Proof.
  intros Hret Hlen HL Hy Hm Hdate. split.
  - exact (parse_with_layout P g now html p y m sd sh ss obs L Hret Hlen HL).
  - intros cells rowDay d h Hday Hhour Hd.
    pose proof (parseInt_currentDay now Hdate) as Hcur.
    assert (Hdrop : skippedAsFuture now y m rowDay h = true ->
                    processRow now L p y m sd sh cells = []).
    { intros Hskip. apply processRow_rejected. unfold acceptRow.
      rewrite Hday, Hhour, Hskip.
      destruct (length cells <=? S (horaIndex L))%nat; [reflexivity|].
      destruct (hourFilteredOut sh h); reflexivity. }
    split; [|split].
    + intros Hlater. apply Hdrop.
      unfold skippedAsFuture, isFutureDay, isCurrentDay.
      rewrite Hy, numEq_refl, Hm, String.eqb_refl, Hd, Hcur.
      cbn [numGt andb]. apply Z.ltb_lt in Hlater. rewrite Hlater.
      rewrite !orb_true_r. reflexivity.
    + intros Htwo -> Hlater. apply Hdrop.
      unfold skippedAsFuture, isFutureDay, isCurrentDay.
      rewrite Hy, numEq_refl, Hm, String.eqb_refl, Hd, Hcur.
      pose proof (two_digit_day_text rowDay (getDate now) Htwo Hd) as Htext.
      fold (currentDay now) in Htext. rewrite <- Htext, String.eqb_refl.
      apply Z.ltb_lt in Hlater. rewrite Hlater.
      cbn [andb]. apply orb_true_r.
    + intros -> ->.
      assert (Hpass : skippedAsFuture now y m rowDay (getHours now) = false).
      { unfold skippedAsFuture, isFutureDay, isCurrentDay.
        rewrite Hy, Hm, Hd, Hcur, !numGt_irrefl, Z.ltb_irrefl.
        rewrite !andb_false_r. reflexivity. }
      split; [exact Hpass|].
      intros Hcells Hfilter. apply processRow_accepted.
      apply acceptRow_inv. auto.
Qed.

Lemma future_rows_add_nothing_witness :
  [Sample.todayObservation]
  = flat_map (processRow Sample.now Sample.todayLayout "o3" "2025" "03" None None)
      (dataRows Sample.todayLayout)
  /\ forall (cells : Row) (rowDay : string) (d h : Z),
      resolveDay None (fechaIndex Sample.todayLayout) cells = Some rowDay ->
      resolveHour (horaIndex Sample.todayLayout) cells = Some h ->
      Str.parseInt rowDay = Some d ->
      (getDate Sample.now < d ->
       processRow Sample.now Sample.todayLayout "o3" "2025" "03" None None cells
       = [])
      /\ (isTwoDigits rowDay = true -> d = getDate Sample.now ->
          getHours Sample.now < h ->
          processRow Sample.now Sample.todayLayout "o3" "2025" "03"
            None None cells
          = [])
      /\ (d = getDate Sample.now -> h = getHours Sample.now ->
          skippedAsFuture Sample.now "2025" "03" rowDay h = false
          /\ ((S (horaIndex Sample.todayLayout) < length cells)%nat ->
              hourFilteredOut None h = false ->
              processRow Sample.now Sample.todayLayout "o3" "2025" "03"
                None None cells
              = flat_map
                  (processCell "o3" "2025" "03" rowDay
                     (Str.padStart2 (Str.ofZ h)) cells)
                  (stationIndices Sample.todayLayout))).
Proof.
  apply (future_rows_add_nothing Sample.parseFromString (Some []) Sample.now
           Sample.todayHtml "o3" "2025" "03" None None None
           [Sample.todayObservation] Sample.todayLayout);
    try reflexivity.
  - vm_compute. lia.
  - vm_compute. split; discriminate.
Defined.

(** The three data rows of the sample page for today: the row at the
    clock's hour is read, the row one hour later and the row of the next
    day are dropped. *)
Example today_rows :
  map (processRow Sample.now Sample.todayLayout "o3" "2025" "03" None None)
      (dataRows Sample.todayLayout)
  = [ [Sample.todayObservation]; []; [] ].
Proof. reflexivity. Qed.

(** ** Numbers *)

(** Rounding a mantissa that is not negative never gives NaN. *)
Lemma shr_1_nonneg (mrs : shr_record) :
  0 <= shr_m mrs -> 0 <= shr_m (shr_1 mrs).
Proof.
  destruct mrs as [m r s]. simpl.
  destruct m as [|[p|p|]|p]; simpl; intros H; lia.
Qed.

Lemma iter_shr_1_nonneg (p : positive) (mrs : shr_record) :
  0 <= shr_m mrs -> 0 <= shr_m (SpecFloat.iter_pos shr_1 p mrs).
Proof.
  revert mrs. induction p as [p IH|p IH|]; intros mrs H; simpl.
  - apply IH, IH, shr_1_nonneg, H.
  - apply IH, IH, H.
  - apply shr_1_nonneg, H.
Qed.

Lemma shr_fexp_nonneg (m e : Z) (l : location) :
  0 <= m -> 0 <= shr_m (fst (shr_fexp Num.prec Num.emax m e l)).
Proof.
  intros H. unfold shr_fexp, shr.
  assert (H0 : 0 <= shr_m (shr_record_of_loc m l)).
  { destruct l as [|[]]; exact H. }
  destruct (fexp Num.prec Num.emax (Zdigits2 m + e) - e); simpl; auto.
  apply iter_shr_1_nonneg, H0.
Qed.

Lemma round_nearest_even_nonneg (m : Z) (l : location) :
  0 <= m -> 0 <= round_nearest_even m l.
Proof.
  intros H. destruct l as [|[]]; simpl; try lia.
  destruct (Z.even m); lia.
Qed.

Lemma binary_round_aux_number (sx : bool) (mx ex : Z) (lx : location) :
  0 <= mx -> Num.isNaN (binary_round_aux Num.prec Num.emax sx mx ex lx) = false.
Proof.
  intros H. unfold binary_round_aux.
  pose proof (shr_fexp_nonneg mx ex lx H) as H1.
  destruct (shr_fexp Num.prec Num.emax mx ex lx) as [mrs' e']. simpl in H1.
  pose proof (shr_fexp_nonneg _ e' loc_Exact
                (round_nearest_even_nonneg _ (loc_of_shr_record mrs') H1)) as H2.
  destruct (shr_fexp Num.prec Num.emax _ e' loc_Exact) as [mrs'' e''].
  simpl in H2.
  destruct (shr_m mrs'') as [|p|p]; [reflexivity| |lia].
  destruct (e'' <=? _); reflexivity.
Qed.

(** The number of an integer is never NaN. *)
Lemma ofZ_number (z : Z) : Num.isNaN (Num.ofZ z) = false.
Proof.
  unfold Num.ofZ, binary_normalize.
  destruct z as [|p|p]; [reflexivity| |]; unfold binary_round;
    destruct (shl_align _ _ _) as [mz ez]; apply binary_round_aux_number; lia.
Qed.

Ltac three_numbers x y z :=
  destruct x as [sx|sx| |sx mx ex], y as [sy|sy| |sy my ey],
           z as [sz|sz| |sz mz ez];
  try destruct sx; try destruct sy; try destruct sz.

Lemma signOfDifference_refl (x : Num.t) : Num.signOfDifference x x = 0.
Proof.
  unfold Num.signOfDifference, SFcompare.
  destruct x as [s|[]| |[] m e]; try reflexivity.
  all: rewrite Z.compare_refl;
       change (Pos.compare_cont Eq m m) with (Pos.compare m m);
       rewrite Pos.compare_refl; reflexivity.
Qed.

Lemma signOfDifference_antisym (x y : Num.t) :
  Num.signOfDifference y x = - Num.signOfDifference x y.
Proof.
  unfold Num.signOfDifference, SFcompare.
  destruct x as [sx|sx| |sx mx ex], y as [sy|sy| |sy my ey];
    try destruct sx; try destruct sy; try reflexivity.
  all: change (Pos.compare_cont Eq ?a ?b) with (Pos.compare a b).
  all: rewrite (Z.compare_antisym ey ex), (Pos.compare_antisym my mx).
  all: destruct (ey ?= ex); simpl; try reflexivity;
       destruct (my ?= mx)%positive; reflexivity.
Qed.

Lemma signOfDifference_trans_lt (x y z : Num.t) :
  Num.signOfDifference x y < 0 -> Num.signOfDifference y z < 0 ->
  Num.signOfDifference x z < 0.
Proof.
  unfold Num.signOfDifference, SFcompare. three_numbers x y z; simpl; try lia.
  all: change (Pos.compare_cont Eq ?a ?b) with (Pos.compare a b).
  all: destruct (Z.compare_spec ex ey), (Z.compare_spec ey ez),
                (Z.compare_spec ex ez);
       try lia; subst.
  all: try (destruct (Pos.compare_spec mx my), (Pos.compare_spec my mz),
                     (Pos.compare_spec mx mz);
            simpl; lia).
Qed.

Lemma signOfDifference_trans_gt (x y z : Num.t) :
  0 < Num.signOfDifference x y -> 0 < Num.signOfDifference y z ->
  0 < Num.signOfDifference x z.
Proof.
  intros H1 H2.
  pose proof (signOfDifference_trans_lt z y x) as H.
  rewrite (signOfDifference_antisym y z), (signOfDifference_antisym x y),
          (signOfDifference_antisym x z) in H.
  lia.
Qed.

Lemma signOfDifference_trans_eq (x y z : Num.t) :
  Num.isNaN y = false ->
  Num.signOfDifference x y = 0 -> Num.signOfDifference y z = 0 ->
  Num.signOfDifference x z = 0.
Proof.
  unfold Num.signOfDifference, SFcompare.
  three_numbers x y z; simpl; try lia; try discriminate.
  all: change (Pos.compare_cont Eq ?a ?b) with (Pos.compare a b).
  all: destruct (Z.compare_spec ex ey), (Z.compare_spec ey ez),
                (Z.compare_spec ex ez);
       try lia; subst.
  all: try (destruct (Pos.compare_spec mx my), (Pos.compare_spec my mz),
                     (Pos.compare_spec mx mz);
            simpl; lia).
Qed.

Lemma signOfDifference_le (x y : Num.t) :
  Num.isNaN x = false -> Num.isNaN y = false ->
  Num.signOfDifference x y <= 0 -> Num.le x y = true.
Proof.
  unfold Num.signOfDifference, Num.le, SFleb.
  destruct x as [sx|sx| |sx mx ex], y as [sy|sy| |sy my ey];
    try discriminate; intros _ _;
    destruct (SFcompare _ _) as [[]|] eqn:Hc; try reflexivity; try lia;
    try discriminate Hc.
Qed.


(** Two hours that differ beyond 2^53 read as the same number. *)
Example large_hours_compare_equal :
  Num.signOfDifference (Num.ofZ 9007199254740993) (Num.ofZ 9007199254740992) = 0
  /\ Num.signOfDifference (Num.ofZ 9) (Num.ofZ 10) = -1.
Proof. split; reflexivity. Qed.

(** 15.25 is written 15.3, and 0.25 as 0.3: halves go away from zero;
    0.15, which is the number just below it, is written 0.1. *)
Example roundOneDecimal_samples :
  map Num.roundOneDecimal
      [Num.decimal 1525 2; Num.decimal 25 2; Num.decimal 15 2;
       Num.decimal (-25) 2; Num.decimal 16666 4]
  = [Num.decimal 153 1; Num.decimal 3 1; Num.decimal 1 1;
     Num.decimal (-3) 1; Num.decimal 17 1].
Proof. reflexivity. Qed.

(** ** Aggregation: hourly averages *)

Lemma lookupKey_addToKey (k key : string) (v : Num.t) (acc : Sums) :
  lookupKey k (addToKey key v acc)
  = if String.eqb k key then bump (lookupKey key acc) v else lookupKey k acc.
Proof.
  induction acc as [|[k' [s c]] acc IH]; simpl.
  - destruct (String.eqb k key); reflexivity.
  - destruct (String.eqb key k') eqn:Hkey; simpl.
    + apply String.eqb_eq in Hkey. subst k'.
      destruct (String.eqb k key); reflexivity.
    + rewrite IH. destruct (String.eqb k key) eqn:Hk.
      * apply String.eqb_eq in Hk. subst k. rewrite Hkey. reflexivity.
      * reflexivity.
Qed.

Lemma keys_addToKey (key : string) (v : Num.t) (acc : Sums) :
  acc.*1 ⊆ (addToKey key v acc).*1
  /\ forall k, k ∈ (addToKey key v acc).*1 -> k = key \/ k ∈ acc.*1.
Proof.
  induction acc as [|[k' [s c]] acc [IH1 IH2]]; simpl.
  - split; [intros x Hx; inversion Hx|].
    intros k Hk. apply list_elem_of_singleton in Hk. auto.
  - destruct (String.eqb key k') eqn:Hkey; simpl.
    + split; [intros x Hx; exact Hx | intros k Hk; auto].
    + split.
      * intros x Hx. apply elem_of_cons in Hx as [->|Hx]; [left|right; auto].
      * intros k Hk. apply elem_of_cons in Hk as [->|Hk].
        -- right. left.
        -- destruct (IH2 k Hk); [auto|]. right. right. assumption.
Qed.

Lemma NoDup_addToKey (key : string) (v : Num.t) (acc : Sums) :
  NoDup acc.*1 -> NoDup (addToKey key v acc).*1.
Proof.
  induction acc as [|[k' [s c]] acc IH]; simpl; intros Hnd.
  - repeat constructor. intros H. inversion H.
  - apply NoDup_cons in Hnd as [Hk' Hnd].
    destruct (String.eqb key k') eqn:Hkey; simpl.
    + apply NoDup_cons. auto.
    + apply NoDup_cons. split; [|auto].
      intros Hin. destruct (proj2 (keys_addToKey key v acc) k' Hin) as [->|Hin'].
      * rewrite String.eqb_refl in Hkey. discriminate.
      * contradiction.
Qed.

Lemma lookupKey_elem (k : string) (sc : Num.t * nat) (acc : Sums) :
  NoDup acc.*1 -> (k, sc) ∈ acc -> lookupKey k acc = Some sc.
Proof.
  induction acc as [|[k' sc'] acc IH]; simpl; intros Hnd Hin.
  - inversion Hin.
  - apply NoDup_cons in Hnd as [Hk' Hnd].
    apply elem_of_cons in Hin as [Heq|Hin].
    + injection Heq as -> ->. rewrite String.eqb_refl. reflexivity.
    + destruct (String.eqb k k') eqn:Hk.
      * apply String.eqb_eq in Hk. subst k'. exfalso. apply Hk'.
        apply list_elem_of_fmap. exists (k, sc). auto.
      * auto.
Qed.


Lemma bump_fold (s : Num.t) (c : nat) (vals : list Num.t) :
  fold_left bump vals (Some (s, c))
  = Some (fold_left Num.add vals s, (c + length vals)%nat).
Proof.
  revert s c. induction vals as [|v vals IH]; intros s c; simpl.
  - f_equal. f_equal. lia.
  - rewrite IH. f_equal. f_equal. lia.
Qed.

Lemma bump_fold_None (vals : list Num.t) :
  fold_left bump vals None = summary vals.
Proof.
  destruct vals as [|v vals]; [reflexivity|].
  simpl. rewrite bump_fold. reflexivity.
Qed.

Lemma valuesAtKey_cons (k : string) (item : Observation) (data : list Observation) :
  valuesAtKey k (item :: data)
  = match (if String.eqb (averageKey item) k then value item else None) with
    | Some v => v :: valuesAtKey k data
    | None => valuesAtKey k data
    end.
Proof. reflexivity. Qed.


(** The entry of a key after the loop: what the loop makes of the entry
    before it and of the values at that key, in order. *)
Lemma lookupKey_fold (k : string) (data : list Observation) (acc : Sums) :
  lookupKey k (fold_left sumStep data acc)
  = fold_left bump (valuesAtKey k data) (lookupKey k acc).
Proof.
  revert acc. induction data as [|item data IH]; intros acc; [reflexivity|].
  cbn [fold_left]. rewrite IH, valuesAtKey_cons. unfold sumStep.
  destruct (value item) as [v|].
  - rewrite lookupKey_addToKey, String.eqb_sym.
    destruct (String.eqb (averageKey item) k) eqn:Hk.
    + apply String.eqb_eq in Hk. subst k. reflexivity.
    + reflexivity.
  - destruct (String.eqb (averageKey item) k); reflexivity.
Qed.

Lemma accumulate_lookup (k : string) (data : list Observation) :
  lookupKey k (accumulate data) = summary (valuesAtKey k data).
Proof. unfold accumulate. rewrite lookupKey_fold. apply bump_fold_None. Qed.

Lemma accumulate_NoDup (data : list Observation) : NoDup (accumulate data).*1.
Proof.
  unfold accumulate.
  assert (H : forall acc, NoDup acc.*1 -> NoDup (fold_left sumStep data acc).*1).
  { induction data as [|item data IH]; intros acc Hnd; [exact Hnd|].
    simpl. apply IH. unfold sumStep.
    destruct (value item); [apply NoDup_addToKey|]; assumption. }
  apply H. constructor.
Qed.

Lemma insertSorted_elem {A} (cmp : A -> A -> Z) (x y : A) (l : list A) :
  y ∈ insertSorted cmp x l <-> y = x \/ y ∈ l.
Proof.
  induction l as [|z l IH]; simpl.
  - rewrite list_elem_of_singleton. split; [auto|].
    intros [H|H]; [auto | inversion H].
  - destruct (cmp x z <=? 0).
    + rewrite elem_of_cons. tauto.
    + rewrite !elem_of_cons, IH. tauto.
Qed.

(** Sorting keeps the elements. *)
Lemma sortBy_elem {A} (cmp : A -> A -> Z) (y : A) (l : list A) :
  y ∈ sortBy cmp l <-> y ∈ l.
Proof.
  induction l as [|x l IH]; simpl; [tauto|].
  rewrite insertSorted_elem, elem_of_cons, IH. tauto.
Qed.

Lemma insertSorted_Permutation {A} (cmp : A -> A -> Z) (x : A) (l : list A) :
  insertSorted cmp x l ≡ₚ x :: l.
Proof.
  induction l as [|z l IH]; simpl; [reflexivity|].
  destruct (cmp x z <=? 0); [reflexivity|].
  rewrite IH. apply Permutation_swap.
Qed.

Lemma sortBy_Permutation {A} (cmp : A -> A -> Z) (l : list A) :
  sortBy cmp l ≡ₚ l.
Proof.
  induction l as [|x l IH]; simpl; [reflexivity|].
  rewrite insertSorted_Permutation, IH. reflexivity.
Qed.

Lemma splitSpaces_cons (c : ascii) (s : string) :
  Str.splitSpaces (String c s)
  = if Ascii.eqb c " " then EmptyString :: Str.splitSpaces s
    else match Str.splitSpaces s with
         | w :: ws => String c w :: ws
         | [] => [String c EmptyString]
         end.
Proof. reflexivity. Qed.

Lemma splitSpaces_noSpace (h : string) :
  Str.noSpace h = true -> Str.splitSpaces h = [h].
Proof.
  induction h as [|c h IH]; [reflexivity|].
  rewrite splitSpaces_cons. cbn [Str.noSpace].
  destruct (Ascii.eqb c " "); [discriminate|].
  intros H. rewrite (IH H). reflexivity.
Qed.

(** A key splits back into the date and hour it was made of. *)
Lemma splitSpaces_key (d h : string) :
  Str.noSpace d = true -> Str.noSpace h = true ->
  Str.splitSpaces (d ++ " " ++ h) = [d; h].
Proof.
  intros Hd Hh. induction d as [|c d IH].
  - change ("" ++ " " ++ h) with (String " " h).
    rewrite splitSpaces_cons, (splitSpaces_noSpace h Hh). reflexivity.
  - change (String c d ++ " " ++ h) with (String c (d ++ " " ++ h)).
    rewrite splitSpaces_cons. cbn [Str.noSpace] in Hd.
    destruct (Ascii.eqb c " "); [discriminate|].
    rewrite (IH Hd). reflexivity.
Qed.



(** A key with a value comes from an observation of the input. *)
Lemma valuesAtKey_source (k : string) (data : list Observation) :
  valuesAtKey k data <> [] ->
  exists item, item ∈ data /\ averageKey item = k /\ value item <> None.
Proof.
  induction data as [|item data IH]; [intros H; exfalso; apply H; reflexivity|].
  rewrite valuesAtKey_cons.
  destruct (String.eqb (averageKey item) k) eqn:Hk.
  - destruct (value item) as [v|] eqn:Hv.
    + intros _. exists item. apply String.eqb_eq in Hk.
      repeat split; [left | exact Hk | congruence].
    + intros H. destruct (IH H) as (x & Hx & Hkx & Hvx).
      exists x. repeat split; [right; exact Hx | exact Hkx | exact Hvx].
  - intros H. destruct (IH H) as (x & Hx & Hkx & Hvx).
    exists x. repeat split; [right; exact Hx | exact Hkx | exact Hvx].
Qed.


Lemma summary_Some (vals : list Num.t) (s : Num.t) (c : nat) :
  summary vals = Some (s, c) -> vals <> [] /\ s = sumOf vals /\ c = length vals.
Proof.
  destruct vals as [|v vals]; [discriminate|].
  intros H. injection H as <- <-. repeat split. discriminate.
Qed.

(** What the call returns for an input that makes it return. *)
Lemma processAirQualityData_averages
    (lc : string -> string -> Z)
    (sort : (Average.t -> Average.t -> Z) -> list Average.t -> list Average.t)
    data r :
  processAirQualityData lc sort data = Return r ->
  (data = [] /\ hourlyAverages r = [])
  \/ hourlyAverages r
     = sort (compareAverages lc) (map toAverage (accumulate data)).
Proof.
  unfold processAirQualityData. destruct data as [|item data].
  - intros H. injection H as <-. left. auto.
  - destruct (groupByStation (item :: data) ∅) as [m|e]; [|discriminate].
    intros H. injection H as <-. right. reflexivity.
Qed.

Lemma processAirQualityData_permutes
    (lc : string -> string -> Z)
    (sort : (Average.t -> Average.t -> Z) -> list Average.t -> list Average.t)
    data r :
  sortPermutes sort ->
  processAirQualityData lc sort data = Return r ->
  hourlyAverages r ≡ₚ map toAverage (accumulate data).
Proof.
  intros Hsort Hret.
  destruct (processAirQualityData_averages lc sort data r Hret)
    as [[-> ->] | ->]; [reflexivity | apply Hsort].
Qed.




Lemma averageAtKey_parts (d h : string) (data : list Observation) :
  Str.noSpace d = true -> Str.noSpace h = true ->
  Average.date (averageAtKey (d ++ " " ++ h) data) = d
  /\ Average.hour (averageAtKey (d ++ " " ++ h) data) = h
  /\ Average.value (averageAtKey (d ++ " " ++ h) data)
     = Num.roundOneDecimal (meanOf (valuesAtKey (d ++ " " ++ h) data))
  /\ Average.stationCount (averageAtKey (d ++ " " ++ h) data)
     = length (valuesAtKey (d ++ " " ++ h) data).
Proof.
  intros Hd Hh. unfold averageAtKey. rewrite splitSpaces_key by assumption.
  repeat split.
Qed.



(** ** Aggregation: station groups *)

Lemma ofStation_snoc (s : string) (data : list Observation) (item : Observation) :
  ofStation s (data ++ [item])%list
  = (ofStation s data ++ (if decide (station item = s) then [item] else []))%list.
Proof.
  unfold ofStation. rewrite filter_app. reflexivity.
Qed.

Lemma groupedCount_insert_None (m : gmap string (list Observation)) k g :
  m !! k = None ->
  groupedCount (<[k:=g]> m) = (length g + groupedCount m)%nat.
Proof.
  intros Hk. unfold groupedCount.
  rewrite map_fold_insert_L; [reflexivity | | exact Hk].
  intros. lia.
Qed.

Lemma groupedCount_insert_Some (m : gmap string (list Observation)) k g0 g :
  m !! k = Some g0 ->
  (groupedCount (<[k:=g]> m) + length g0 = length g + groupedCount m)%nat.
Proof.
  intros Hk. rewrite <- insert_delete_eq.
  rewrite groupedCount_insert_None by apply lookup_delete_eq.
  unfold groupedCount at 2.
  rewrite (map_fold_delete_L _ _ k g0 m); [fold (groupedCount (delete k m)); lia | | exact Hk].
  intros. lia.
Qed.

(** One turn of the grouping loop keeps the groups in step with the
    input read so far. *)
Lemma groupStep_groups (m : gmap string (list Observation))
    (pre : list Observation) (item : Observation) :
  groupsOf pre m -> groupedCount m = length pre ->
  inheritedMember (station item) = false ->
  exists m', groupStep m item = Return m'
             /\ groupsOf (pre ++ [item])%list m'
             /\ groupedCount m' = length (pre ++ [item])%list.
Proof.
  intros Hm Hcount Hname. unfold groupStep.
  pose proof (Hm (station item)) as Hs.
  destruct (m !! station item) as [group|] eqn:Hlook.
  - eexists. split; [reflexivity|]. split.
    + intros s. rewrite ofStation_snoc.
      destruct (decide (station item = s)) as [<-|Hne].
      * rewrite lookup_insert_eq.
        destruct (decide (ofStation (station item) pre = [])) as [|_]; [discriminate|].
        injection Hs as ->.
        destruct (decide ((ofStation (station item) pre ++ [item])%list = [])) as [Hnil|_];
          [|reflexivity].
        destruct (ofStation (station item) pre); discriminate.
      * rewrite lookup_insert_ne by exact Hne. rewrite app_nil_r. apply Hm.
    + pose proof (groupedCount_insert_Some m (station item) group
                    (group ++ [item])%list Hlook) as Hc.
      rewrite !length_app in *. simpl in *. lia.
  - rewrite Hname. eexists. split; [reflexivity|]. split.
    + intros s. rewrite ofStation_snoc.
      destruct (decide (station item = s)) as [<-|Hne].
      * rewrite lookup_insert_eq.
        destruct (decide (ofStation (station item) pre = [])) as [->|]; [|discriminate].
        simpl. reflexivity.
      * rewrite lookup_insert_ne by exact Hne. rewrite app_nil_r. apply Hm.
    + rewrite groupedCount_insert_None by exact Hlook.
      rewrite length_app. simpl. lia.
Qed.

Lemma groupByStation_groups (data pre : list Observation)
    (m : gmap string (list Observation)) :
  groupsOf pre m -> groupedCount m = length pre ->
  (forall item, item ∈ data -> inheritedMember (station item) = false) ->
  exists m', groupByStation data m = Return m'
             /\ groupsOf (pre ++ data)%list m'
             /\ groupedCount m' = length (pre ++ data)%list.
Proof.
  revert pre m. induction data as [|item data IH]; intros pre m Hm Hcount Hnames.
  - exists m. rewrite app_nil_r. auto.
  - destruct (groupStep_groups m pre item Hm Hcount) as (m1 & Hstep & Hm1 & Hc1).
    { apply Hnames. left. }
    destruct (IH (pre ++ [item])%list m1 Hm1 Hc1) as (m' & Hrest & Hm' & Hc').
    { intros x Hx. apply Hnames. right. exact Hx. }
    exists m'. simpl. rewrite Hstep, Hrest.
    rewrite <- app_assoc in Hm', Hc'. auto.
Qed.

(** C10.  The failing input: one observation whose station is named
    "constructor".  The lookup [stationData[item.station]] finds the
    inherited member, which is truthy, so no group is opened and the
    call of [push] throws: the observation is put in no group. *)
Theorem inherited_station_name_throws :
  processAirQualityData Sample.localeCompare Sample.sort
    [ Sample.observation "2025-03-01" "08" "constructor" None ]
  = Throw TypeError.
Proof. reflexivity. Qed.

(** X23.  Lines 326-334 and 369-372.  For observations none of whose
    station names is an inherited member of the [stationData] object,
    the call returns, and [stations] partitions the input: the group of
    a station is the subsequence of the input with that station, in
    input order and with the observations without a value; every
    observation is in the group of its station and in no other; there is
    no empty group; the groups hold as many observations as the input. *)
Theorem stations_partition_the_input
    (lc : string -> string -> Z)
    (sort : (Average.t -> Average.t -> Z) -> list Average.t -> list Average.t)
    (data : list Observation) :
  (forall item, item ∈ data -> inheritedMember (station item) = false) ->
  exists r,
    processAirQualityData lc sort data = Return r
    /\ (forall s group,
          stations r !! s = Some group ->
          group = ofStation s data /\ group <> [] /\ group `sublist_of` data)
    /\ (forall item,
          item ∈ data ->
          exists group, stations r !! station item = Some group /\ item ∈ group)
    /\ (forall item s group,
          stations r !! s = Some group -> item ∈ group -> station item = s)
    /\ groupedCount (stations r) = length data.
Proof.
  intros Hnames.
  assert (Hgroups : exists m, groupByStation data ∅ = Return m
                              /\ groupsOf data m
                              /\ groupedCount m = length data).
  { apply (groupByStation_groups data [] ∅); [|reflexivity|exact Hnames].
    intros s. rewrite lookup_empty. reflexivity. }
  destruct Hgroups as (m & Hret & Hm & Hcount).
  assert (Hgroup : forall s group, m !! s = Some group ->
                                   group = ofStation s data /\ group <> []).
  { intros s group Hs. rewrite (Hm s) in Hs.
    destruct (decide (ofStation s data = [])) as [|Hne]; [discriminate|].
    injection Hs as <-. auto. }
  assert (Hr : exists r, processAirQualityData lc sort data = Return r
                         /\ stations r = m).
  { unfold processAirQualityData. destruct data as [|item data].
    - simpl in Hret. injection Hret as <-. eexists. split; reflexivity.
    - rewrite Hret. eexists. split; reflexivity. }
  destruct Hr as (r & Hr & Hst). exists r. rewrite Hst.
  split; [exact Hr|]. split; [|split; [|split]].
  - intros s group Hs. destruct (Hgroup s group Hs) as [-> Hne].
    repeat split; auto. apply sublist_filter.
  - intros item Hitem. exists (ofStation (station item) data).
    assert (Hin : item ∈ ofStation (station item) data)
      by (apply list_elem_of_filter; auto).
    split; [|exact Hin].
    rewrite (Hm (station item)).
    destruct (decide (ofStation (station item) data = [])) as [Hnil|]; [|reflexivity].
    rewrite Hnil in Hin. inversion Hin.
  - intros item s group Hs Hin. destruct (Hgroup s group Hs) as [-> _].
    apply list_elem_of_filter in Hin as [Hst' _]. exact Hst'.
  - exact Hcount.
Qed.

Lemma stations_partition_the_input_witness :
  (forall item, item ∈ Sample.readings -> inheritedMember (station item) = false)
  /\ exists r,
      processAirQualityData Sample.localeCompare Sample.sort Sample.readings
      = Return r
      /\ (forall s group,
            stations r !! s = Some group ->
            group = ofStation s Sample.readings /\ group <> []
            /\ group `sublist_of` Sample.readings)
      /\ (forall item,
            item ∈ Sample.readings ->
            exists group, stations r !! station item = Some group /\ item ∈ group)
      /\ (forall item s group,
            stations r !! s = Some group -> item ∈ group -> station item = s)
      /\ groupedCount (stations r) = length Sample.readings.
Proof.
  assert (H : forall item, item ∈ Sample.readings ->
                           inheritedMember (station item) = false).
  { intros item Hin. unfold Sample.readings in Hin.
    repeat (apply elem_of_cons in Hin as [->|Hin]; [reflexivity|]).
    inversion Hin. }
  split; [exact H|].
  apply (stations_partition_the_input Sample.localeCompare Sample.sort
           Sample.readings H).
Defined.

(** The sort of the samples holds the elements of its argument. *)
Lemma sample_sort_permutes : sortPermutes Sample.sort.
Proof. intros cmp l. apply sortBy_Permutation. Qed.


(** * Further properties *)

(** ** Table selection *)

Lemma selectLoop_spec (rest pre : list Table) (dataTable : Table) (i : nat) :
  pre !! i = Some dataTable ->
  (forall j u, pre !! j = Some u -> (length u <= length dataTable)%nat) ->
  (forall j u, (j < i)%nat -> pre !! j = Some u ->
               (length u < length dataTable)%nat) ->
  exists i',
    (pre ++ rest)%list !! i' = Some (selectLoop rest dataTable (length dataTable))
    /\ (forall j u, (pre ++ rest)%list !! j = Some u ->
          (length u <= length (selectLoop rest dataTable (length dataTable)))%nat)
    /\ (forall j u, (j < i')%nat -> (pre ++ rest)%list !! j = Some u ->
          (length u < length (selectLoop rest dataTable (length dataTable)))%nat).
Proof.
  revert pre dataTable i. induction rest as [|t rest IH]; intros pre dataTable i Hi Hmax Hfirst.
  - exists i. rewrite app_nil_r. simpl. auto.
  - cbn [selectLoop].
    replace (pre ++ t :: rest)%list with ((pre ++ [t]) ++ rest)%list
      by (rewrite <- app_assoc; reflexivity).
    destruct (length dataTable <? length t)%nat eqn:Hlt.
    + apply Nat.ltb_lt in Hlt.
      apply (IH (pre ++ [t])%list t (length pre)).
      * apply list_lookup_middle. reflexivity.
      * intros j u Hj. apply lookup_snoc_Some in Hj as [[_ Hj]|[_ <-]]; [|unfold Table, Row in *; lia].
        specialize (Hmax j u Hj). (unfold Table, Row in *; lia).
      * intros j u Hlen Hj. apply lookup_snoc_Some in Hj as [[_ Hj]|[-> _]]; [|unfold Table, Row in *; lia].
        specialize (Hmax j u Hj). (unfold Table, Row in *; lia).
    + apply Nat.ltb_ge in Hlt.
      apply (IH (pre ++ [t])%list dataTable i).
      * rewrite lookup_app_l; [exact Hi | eapply lookup_lt_Some; exact Hi].
      * intros j u Hj. apply lookup_snoc_Some in Hj as [[_ Hj]|[_ <-]]; [|unfold Table, Row in *; lia].
        exact (Hmax j u Hj).
      * intros j u Hlen Hj. apply lookup_snoc_Some in Hj as [[_ Hj]|[-> _]].
        -- exact (Hfirst j u Hlen Hj).
        -- apply lookup_lt_Some in Hi. (unfold Table, Row in *; lia).
Qed.

(** X1.  Lines 94-104.  The table that is read is one of the page, no table
    of the page has more rows, and every table before it has fewer: among
    the tables with the most rows it is the first. *)
Theorem selected_table_is_first_with_most_rows (tables : Document) (t : Table) :
  selectDataTable tables = Some t ->
  exists i,
    tables !! i = Some t
    /\ (forall j u, tables !! j = Some u -> (length u <= length t)%nat)
    /\ (forall j u, (j < i)%nat -> tables !! j = Some u ->
                    (length u < length t)%nat).
Proof.
  unfold selectDataTable. destruct tables as [|t0 rest]; [discriminate|].
  intros H. injection H as <-.
  apply (selectLoop_spec rest [t0] t0 0%nat).
  - reflexivity.
  - intros [|j] u Hj; simpl in Hj; [injection Hj as <-; lia | discriminate].
  - intros j u Hj. lia.
Qed.

Lemma selected_table_is_first_with_most_rows_witness :
  selectDataTable Sample2.threeTables
  = Some [ ["Ozono"]; ["Fecha"; "Hora"; "ACO"]; ["14/03/2025"; "1"; "31"] ]
  /\ exists i,
      Sample2.threeTables !! i
      = Some [ ["Ozono"]; ["Fecha"; "Hora"; "ACO"]; ["14/03/2025"; "1"; "31"] ]
      /\ (forall j u, Sample2.threeTables !! j = Some u -> (length u <= 3)%nat)
      /\ (forall j u, (j < i)%nat -> Sample2.threeTables !! j = Some u ->
                      (length u < 3)%nat).
Proof.
  split; [reflexivity|].
  apply (selected_table_is_first_with_most_rows Sample2.threeTables
           [ ["Ozono"]; ["Fecha"; "Hora"; "ACO"]; ["14/03/2025"; "1"; "31"] ]).
  reflexivity.
Defined.

(** ** Trimmed texts *)

Lemma trimStart_length (s : string) :
  (String.length (Str.trimStart s) <= String.length s)%nat.
Proof.
  induction s as [|c s IH]; simpl; [lia|].
  destruct (Str.isWhiteSpace c); simpl; lia.
Qed.

Lemma trimStart_idem (s : string) :
  Str.trimStart (Str.trimStart s) = Str.trimStart s.
Proof.
  induction s as [|c s IH]; simpl; [reflexivity|].
  destruct (Str.isWhiteSpace c) eqn:Hc; [exact IH|].
  simpl. rewrite Hc. reflexivity.
Qed.

Lemma trimEnd_cons (c : ascii) (s : string) :
  Str.trimEnd (String c s)
  = match Str.trimEnd s with
    | EmptyString => if Str.isWhiteSpace c then EmptyString else String c EmptyString
    | String a t => String c (String a t)
    end.
Proof. reflexivity. Qed.

Lemma trimEnd_idem (s : string) :
  Str.trimEnd (Str.trimEnd s) = Str.trimEnd s.
Proof.
  induction s as [|c s IH]; [reflexivity|].
  rewrite trimEnd_cons. destruct (Str.trimEnd s) as [|a t] eqn:Ht.
  - destruct (Str.isWhiteSpace c) eqn:Hc; [reflexivity|].
    rewrite trimEnd_cons. simpl. rewrite Hc. reflexivity.
  - rewrite trimEnd_cons, IH. reflexivity.
Qed.

Lemma trimStart_fixed_head (c : ascii) (s : string) :
  Str.trimStart (String c s) = String c s -> Str.isWhiteSpace c = false.
Proof.
  simpl. destruct (Str.isWhiteSpace c); [|reflexivity].
  intros H. pose proof (trimStart_length s) as Hlen.
  rewrite H in Hlen. simpl in Hlen. lia.
Qed.

Lemma trimStart_trimEnd (s : string) :
  Str.trimStart s = s -> Str.trimStart (Str.trimEnd s) = Str.trimEnd s.
Proof.
  destruct s as [|c s]; [reflexivity|].
  intros H. apply trimStart_fixed_head in H.
  rewrite trimEnd_cons. destruct (Str.trimEnd s); rewrite ?H; simpl; rewrite ?H; reflexivity.
Qed.

(** What [trim] returns has no white space at either end, and trimming
    it again changes nothing. *)
Lemma trim_isTrimmed (s : string) : isTrimmed (Str.trim s).
Proof.
  unfold isTrimmed, Str.trim. split.
  - apply trimStart_trimEnd, trimStart_idem.
  - apply trimEnd_idem.
Qed.

Lemma trim_idem (s : string) : Str.trim (Str.trim s) = Str.trim s.
Proof.
  destruct (trim_isTrimmed s) as [H1 H2].
  unfold Str.trim at 1. rewrite H1. exact H2.
Qed.

(** ** The station map *)

Lemma mapSet_elem (key : string) (v : nat) (m : list (string * nat)) e :
  NoDup m.*1 ->
  e ∈ mapSet key v m -> e = (key, v) \/ (e ∈ m /\ e.1 <> key).
Proof.
  induction m as [|[k w] m IH]; simpl; intros Hnd He.
  - apply list_elem_of_singleton in He. auto.
  - apply NoDup_cons in Hnd as [Hk Hnd].
    destruct (String.eqb key k) eqn:Hkey.
    + apply String.eqb_eq in Hkey. subst k.
      apply elem_of_cons in He as [->|He]; [auto|].
      right. split; [right; exact He|].
      intros Heq. apply Hk. rewrite <- Heq.
      apply list_elem_of_fmap. exists e. auto.
    + apply String.eqb_neq in Hkey.
      apply elem_of_cons in He as [->|He].
      * right. split; [left | simpl; congruence].
      * destruct (IH Hnd He) as [->|[Hin Hne]]; [auto|].
        right. split; [right; exact Hin | exact Hne].
Qed.

Lemma collectStations_entries (ss : option string) (start : nat)
    (all texts : list string) (i : nat) (acc : list (string * nat)) :
  drop i all = texts -> (start <= i)%nat ->
  NoDup acc.*1 ->
  (forall e, e ∈ acc -> stationEntryUpTo ss start i all e) ->
  forall e, e ∈ collectStations ss i texts acc ->
            stationEntryUpTo ss start (length all) all e.
Proof.
  revert i acc. induction texts as [|text rest IH]; intros i acc Hdrop Hstart Hnd Hacc e He.
  - simpl in He. assert (Hlen : (length all <= i)%nat).
    { apply (f_equal length) in Hdrop. rewrite length_drop in Hdrop. simpl in Hdrop. lia. }
    destruct (Hacc e He) as (Hr & Htext & Hne & Hss & Hlast).
    destruct Htext as (text & Htext & Hname).
    pose proof (lookup_lt_Some _ _ _ Htext) as Hlt.
    repeat split; auto; try lia; [eauto|].
    intros col' text' Hcol Hl. apply (Hlast col' text'); [|exact Hl].
    apply lookup_lt_Some in Hl. lia.
  - assert (Hi : all !! i = Some text).
    { rewrite <- (Nat.add_0_r i), <- lookup_drop, Hdrop. reflexivity. }
    assert (Hrest : drop (S i) all = rest).
    { replace (S i) with (i + 1)%nat by lia.
      rewrite <- drop_drop, Hdrop. reflexivity. }
    cbn [collectStations] in He.
    revert He. apply (IH (S i)); [exact Hrest | lia | |].
    + destruct (nonEmpty (Str.trim text)); [|exact Hnd].
      destruct (truthy ss && negb (String.eqb (Str.trim text) (default "" ss)));
        [exact Hnd | apply mapSet_NoDup; exact Hnd].
    + intros e' He'.
      assert (Hkeep : e' ∈ acc -> Str.trim text <> e'.1 ->
                      stationEntryUpTo ss start (S i) all e').
      { intros Hin Hother.
        destruct (Hacc e' Hin) as (Hr & Htext & Hne & Hss & Hlast).
        repeat split; auto; try lia.
        intros col' text' Hcol Hl.
        destruct (decide (col' = i)) as [->|Hneq].
        - rewrite Hi in Hl. injection Hl as <-. exact Hother.
        - apply (Hlast col' text'); [lia | exact Hl]. }
      destruct (nonEmpty (Str.trim text)) eqn:Hnonempty.
      * destruct (truthy ss && negb (String.eqb (Str.trim text) (default "" ss)))
          eqn:Hfilter.
        -- apply Hkeep; [exact He'|].
           apply andb_prop in Hfilter as [Hss Hneq].
           apply negb_true_iff, String.eqb_neq in Hneq.
           destruct (Hacc e' He') as (_ & _ & _ & Hname & _).
           rewrite (Hname Hss). exact Hneq.
        -- destruct (mapSet_elem _ _ _ _ Hnd He') as [->|[Hin Hne]]; [|auto].
           repeat split; simpl; try lia.
           ++ exists text. auto.
           ++ intros Hempty. rewrite Hempty in Hnonempty. discriminate.
           ++ intros Hss. rewrite Hss in Hfilter. simpl in Hfilter.
              apply negb_false_iff, String.eqb_eq in Hfilter. exact Hfilter.
      * apply Hkeep; [exact He'|].
        destruct (Hacc e' He') as (_ & _ & Hne & _ & _).
        intros Heq. apply Hne. rewrite <- Heq.
        destruct (Str.trim text); [reflexivity | discriminate].
Qed.

Lemma findIndexFrom_Some {A} (p : A -> bool) (i : nat) (l : list A) (k : nat) :
  findIndexFrom p i l = Some k ->
  (i <= k < i + length l)%nat
  /\ exists x, l !! (k - i)%nat = Some x /\ p x = true.
Proof.
  revert i. induction l as [|x l IH]; intros i; simpl; [discriminate|].
  destruct (p x) eqn:Hx.
  - intros H. injection H as <-. split; [lia|].
    exists x. rewrite Nat.sub_diag. auto.
  - intros H. destruct (IH (S i) H) as (Hr & y & Hy & Hpy). split; [lia|].
    exists y. replace (k - i)%nat with (S (k - S i)) by lia. auto.
Qed.

(** What a resolved layout holds: the rows of the selected table, the
    header row as its second row, and a station map read from the header
    cells after the hour column. *)
Lemma resolveLayout_inv tables p ss L :
  resolveLayout tables p ss = Return (Some L) ->
  selectDataTable tables = Some (rows L)
  /\ (2 <= length (rows L))%nat
  /\ resolveHeader (rows L) (headerRow L) ss = Some L.
Proof.
  unfold resolveLayout, headerRow.
  destruct (selectDataTable tables) as [tableRows|]; [|discriminate].
  destruct (length tableRows <? 2)%nat eqn:Hrows; [discriminate|].
  apply Nat.ltb_ge in Hrows.
  assert (Hheader : forall cells, resolveHeader tableRows cells ss = Some L ->
                                  rows L = tableRows).
  { intros cells. unfold resolveHeader.
    destruct (findIndex isHoraHeader (map Str.trim cells)); [|discriminate].
    intros H. injection H as <-. reflexivity. }
  destruct (length (default [] (tableRows !! 1%nat)) <? 2)%nat.
  - destruct (String.eqb p "pm25" || String.eqb p "pm25nowCast"); [|discriminate].
    destruct (existsb _ _); [discriminate|].
    intros H. injection H as H. rewrite (Hheader _ H). auto.
  - intros H. injection H as H. rewrite (Hheader _ H). auto.
Qed.

Lemma resolveHeader_inv tableRows cells ss L :
  resolveHeader tableRows cells ss = Some L ->
  findIndex isHoraHeader (map Str.trim cells) = Some (horaIndex L)
  /\ fechaIndex L = findIndex isFechaHeader (map Str.trim cells)
  /\ stationIndices L
     = collectStations ss (S (horaIndex L))
         (drop (S (horaIndex L)) (map Str.trim cells)) [].
Proof.
  unfold resolveHeader.
  destruct (findIndex isHoraHeader (map Str.trim cells)) as [hora|]; [|discriminate].
  intros H. injection H as <-. auto.
Qed.

(** X2.  Lines 160-174.  Every entry of the station map names a header cell
    after the hour column by its trimmed text, which is not empty; the
    names are distinct; and when several header cells have the same
    trimmed text, the entry points at the last of them. *)
Theorem station_map_of_header tables p ss L :
  resolveLayout tables p ss = Return (Some L) ->
  NoDup (stationIndices L).*1
  /\ forall name col,
      (name, col) ∈ stationIndices L ->
      (horaIndex L < col)%nat
      /\ (exists cell, headerRow L !! col = Some cell /\ name = Str.trim cell)
      /\ name <> "" /\ isTrimmed name
      /\ (forall col' cell', (col < col')%nat ->
            headerRow L !! col' = Some cell' -> Str.trim cell' <> name).
Proof.
  intros HL. split; [exact (resolveLayout_NoDup _ _ _ _ HL)|].
  destruct (resolveLayout_inv _ _ _ _ HL) as (_ & _ & Hheader).
  destruct (resolveHeader_inv _ _ _ _ Hheader) as (_ & _ & Hst).
  intros name col Hin. rewrite Hst in Hin.
  pose proof (collectStations_entries ss (S (horaIndex L))
                (map Str.trim (headerRow L)) _ (S (horaIndex L)) []
                eq_refl (Nat.le_refl _) (NoDup_nil_2)) as Hentries.
  assert (Hnil : forall e : string * nat,
             e ∈ ([] : list (string * nat)) ->
             stationEntryUpTo ss (S (horaIndex L)) (S (horaIndex L))
               (map Str.trim (headerRow L)) e)
    by (intros e He; inversion He).
  destruct (Hentries Hnil _ Hin)
    as (Hr & (text & Htext & Hname) & Hne & _ & Hlast).
  simpl in *.
  apply list_lookup_fmap_Some in Htext as (cell & -> & Hcell).
  rewrite trim_idem in Hname.
  repeat split; try lia; try exact Hne.
  - exists cell. auto.
  - rewrite Hname. apply trim_isTrimmed.
  - rewrite Hname. apply trim_isTrimmed.
  - intros col' cell' Hcol Hcell' Heq.
    apply (Hlast col' (Str.trim cell')).
    + split; [lia|]. rewrite length_map. eapply lookup_lt_Some. exact Hcell'.
    + apply list_lookup_fmap_Some. eauto.
    + rewrite trim_idem. exact Heq.
Qed.

Lemma station_map_of_header_witness :
  NoDup (stationIndices Sample2.signedLayout).*1
  /\ forall name col,
      (name, col) ∈ stationIndices Sample2.signedLayout ->
      (horaIndex Sample2.signedLayout < col)%nat
      /\ (exists cell, headerRow Sample2.signedLayout !! col = Some cell
                       /\ name = Str.trim cell)
      /\ name <> "" /\ isTrimmed name
      /\ (forall col' cell', (col < col')%nat ->
            headerRow Sample2.signedLayout !! col' = Some cell' ->
            Str.trim cell' <> name).
Proof.
  apply (station_map_of_header Sample2.signedDoc "pm25" None Sample2.signedLayout).
  reflexivity.
Defined.

(** ** Layouts that give nothing *)

Lemma extractRows_without_stations now L p y m sd sh :
  stationIndices L = [] -> extractRows now L p y m sd sh = [].
Proof.
  intros Hst. unfold extractRows.
  induction (dataRows L) as [|cells rest IH]; [reflexivity|].
  simpl. rewrite IH, app_nil_r. unfold processRow. rewrite Hst.
  destruct (acceptRow now L y m sd sh cells) as [[rowDay h]|]; reflexivity.
Qed.

Lemma resolveLayout_stations tables p ss L :
  resolveLayout tables p ss = Return (Some L) ->
  forall e, e ∈ stationIndices L ->
            stationEntryUpTo ss (S (horaIndex L))
              (length (map Str.trim (headerRow L)))
              (map Str.trim (headerRow L)) e.
Proof.
  intros HL e Hin.
  destruct (resolveLayout_inv _ _ _ _ HL) as (_ & _ & Hheader).
  destruct (resolveHeader_inv _ _ _ _ Hheader) as (_ & _ & Hst).
  rewrite Hst in Hin.
  assert (Hnil : forall e : string * nat,
             e ∈ ([] : list (string * nat)) ->
             stationEntryUpTo ss (S (horaIndex L)) (S (horaIndex L))
               (map Str.trim (headerRow L)) e)
    by (intros e0 He; inversion He).
  exact (collectStations_entries ss (S (horaIndex L))
           (map Str.trim (headerRow L)) _ (S (horaIndex L)) []
           eq_refl (Nat.le_refl _) (NoDup_nil_2) Hnil e Hin).
Qed.

(** X3.  Lines 89-158.  When the page has no table, or the table with the
    most rows has fewer than two rows, or its second row has fewer than
    two cells, or no cell of that row contains "hora", the call, when it
    returns, returns the empty sequence.  This holds for every parameter:
    the search for another header row made for PM2.5 never gives data. *)
Theorem table_without_usable_header_gives_nothing
    (P : string -> Document) g now html p y m sd sh ss obs :
  parseAirQualityHtml P g now html p y m sd sh ss = Return obs ->
  (forall t, selectDataTable (P html) = Some t ->
             (length t < 2)%nat
             \/ (length (default [] (t !! 1%nat)) < 2)%nat
             \/ findIndex isHoraHeader (map Str.trim (default [] (t !! 1%nat)))
                = None) ->
  obs = [].
Proof.
  intros Hret Hbad.
  destruct (parse_return_inv P g now html p y m sd sh ss obs Hret)
    as [_ [-> | (L & Hlen & HL & ->)]]; [reflexivity|].
  destruct (resolveLayout_inv _ _ _ _ HL) as (Hsel & Hrows & Hheader).
  destruct (resolveHeader_inv _ _ _ _ Hheader) as (Hhora & _ & Hst).
  fold (headerRow L) in Hbad.
  destruct (Hbad _ Hsel) as [Hshort | [Hshort | Hnone]].
  - unfold Table, Row in *. lia.
  - apply extractRows_without_stations. rewrite Hst.
    apply findIndexFrom_Some in Hhora as (Hr & _).
    rewrite length_map in Hr. unfold headerRow in *.
    rewrite drop_ge; [reflexivity|]. rewrite length_map.
    unfold Table, Row in *. lia.
  - unfold headerRow, Table, Row in *. simpl in *. congruence.
Qed.

Lemma table_without_usable_header_gives_nothing_witness :
  parseAirQualityHtml Sample2.parseFromString (Some []) Sample.now
    Sample2.shortHeaderHtml "pm25" "2025" "03" (Some "14") None None
  = Return []
  /\ @nil Observation = [].
Proof.
  split; [reflexivity|].
  apply (table_without_usable_header_gives_nothing
           Sample2.parseFromString (Some []) Sample.now
           Sample2.shortHeaderHtml "pm25" "2025" "03" (Some "14") None None []);
    [reflexivity|].
  intros t Ht. vm_compute in Ht. injection Ht as <-.
  right. left. vm_compute. lia.
Defined.

(** ** The filters *)

(** X4.  Lines 165-174.  With a station filter, every observation of the
    result has exactly that station name: the comparison is on the whole
    trimmed header text and minds the case.  A filter with white space
    at either end matches no column. *)
Theorem station_filter_is_exact
    (P : string -> Document) g now html p y m sd sh (name : string) obs :
  parseAirQualityHtml P g now html p y m sd sh (Some name) = Return obs ->
  name <> "" ->
  (forall o, o ∈ obs -> station o = name)
  /\ (~ isTrimmed name -> obs = []).
Proof.
  intros Hret Hname.
  assert (Hall : forall o, o ∈ obs -> station o = name /\ isTrimmed (station o)).
  { intros o Ho.
    destruct (emitted_entry P g now html p y m sd sh _ obs o Hret Ho)
      as (L & cells & rowDay & h & entry & HL & _ & _ & Hentry & Hcell).
    apply processCell_fields in Hcell as (_ & _ & -> & _).
    destruct (resolveLayout_stations _ _ _ _ HL entry Hentry)
      as (_ & (text & _ & Htext) & _ & Hss & _).
    split.
    - apply Hss. simpl. destruct name; [congruence | reflexivity].
    - rewrite Htext. apply trim_isTrimmed. }
  split.
  - intros o Ho. exact (proj1 (Hall o Ho)).
  - intros Hnot. destruct obs as [|o obs]; [reflexivity|].
    exfalso. apply Hnot.
    destruct (Hall o) as [<- Htrim]; [left | exact Htrim].
Qed.

Lemma station_filter_is_exact_witness :
  (forall o, o ∈ [Sample.tokensObservation] -> station o = "ACO")
  /\ (~ isTrimmed "ACO" -> [Sample.tokensObservation] = []).
Proof.
  apply (station_filter_is_exact Sample.parseFromString (Some []) Sample.now
           Sample.tokensHtml "o3" "2025" "03" None None "ACO"
           [Sample.tokensObservation]);
    [reflexivity | discriminate].
Defined.

(** X5.  Line 241.  With an hour filter, every observation of the result is
    at the hour the filter reads as, an integer from 0 to 23; a filter
    that reads as no number leaves nothing. *)
Theorem hour_filter_keeps_one_hour
    (P : string -> Document) g now html p y m sd (s : string) ss obs :
  parseAirQualityHtml P g now html p y m sd (Some s) ss = Return obs ->
  (forall o, o ∈ obs ->
     exists h, Str.parseInt s = Some h /\ 0 <= h <= 23
               /\ hour o = Str.padStart2 (Str.ofZ h))
  /\ (Str.parseInt s = None -> obs = []).
Proof.
  intros Hret.
  assert (Hall : forall o, o ∈ obs ->
             exists h, Str.parseInt s = Some h /\ 0 <= h <= 23
                       /\ hour o = Str.padStart2 (Str.ofZ h)).
  { intros o Ho.
    destruct (emitted_entry P g now html p y m sd _ ss obs o Hret Ho)
      as (L & cells & rowDay & h & entry & _ & _ & Hacc & _ & Hcell).
    apply acceptRow_inv in Hacc as (_ & _ & Hhour & Hfilter & _).
    apply processCell_fields in Hcell as (_ & Hh & _ & _).
    exists h. repeat split; try exact (proj1 (resolveHour_range _ _ _ Hhour));
      try exact (proj2 (resolveHour_range _ _ _ Hhour)); [|exact Hh].
    unfold hourFilteredOut in Hfilter. apply negb_false_iff in Hfilter.
    destruct (Str.parseInt s) as [k|]; [|discriminate].
    simpl in Hfilter. apply Z.eqb_eq in Hfilter. subst. reflexivity. }
  split; [exact Hall|].
  intros Hnone. destruct obs as [|o obs]; [reflexivity|].
  destruct (Hall o) as (h & Hh & _); [left | congruence].
Qed.

Lemma hour_filter_keeps_one_hour_witness :
  (forall o, o ∈ [Sample.tokensObservation] ->
     exists h, Str.parseInt " 1" = Some h /\ 0 <= h <= 23
               /\ hour o = Str.padStart2 (Str.ofZ h))
  /\ (Str.parseInt " 1" = None -> [Sample.tokensObservation] = []).
Proof.
  apply (hour_filter_keeps_one_hour Sample.parseFromString (Some []) Sample.now
           Sample.tokensHtml "o3" "2025" "03" None " 1" None
           [Sample.tokensObservation]).
  reflexivity.
Defined.

Lemma flat_map_ext_elem {A B} (f g : A -> list B) (l : list A) :
  (forall x, x ∈ l -> f x = g x) -> flat_map f l = flat_map g l.
Proof.
  induction l as [|x l IH]; intros H; [reflexivity|].
  simpl. rewrite (H x) by left. rewrite IH; [reflexivity|].
  intros z Hz. apply H. right. exact Hz.
Qed.

Lemma resolveDay_dated sd fi cells cell :
  cells !! fi = Some cell ->
  Str.matchDate (Str.trim cell) <> None ->
  resolveDay sd (Some fi) cells = resolveDay None (Some fi) cells.
Proof.
  intros Hcell Hmatch. unfold resolveDay, rowDayOf. rewrite Hcell.
  destruct (Str.matchDate (Str.trim cell)) as [[[m1 m2] m3]|]; [|congruence].
  destruct (numGt (Str.parseInt m3) (Some 31));
    [|destruct (numGt (Str.parseInt m1) (Some 31))];
    cbn [truthy]; rewrite padStart2_nonEmpty; reflexivity.
Qed.

(** X6.  Lines 198-220.  The day filter selects no row: a row whose date cell
    holds a date keeps the day of that date whatever the filter says.  On
    a page whose data rows all hold a date, the result is the same with
    and without the filter. *)
Theorem day_filter_does_not_select_dated_rows
    (P : string -> Document) g now html p y m sd sh ss (L : Layout) (fi : nat) :
  resolveLayout (P html) p ss = Return (Some L) ->
  fechaIndex L = Some fi ->
  (forall cells, cells ∈ dataRows L ->
     exists cell, cells !! fi = Some cell
                  /\ Str.matchDate (Str.trim cell) <> None) ->
  parseAirQualityHtml P g now html p y m sd sh ss
  = parseAirQualityHtml P g now html p y m None sh ss.
Proof.
  intros HL Hfecha Hdated. unfold parseAirQualityHtml, tryBlock.
  rewrite HL. unfold extractRows.
  rewrite (flat_map_ext_elem (processRow now L p y m sd sh)
             (processRow now L p y m None sh)); [reflexivity|].
  intros cells Hcells. destruct (Hdated cells Hcells) as (cell & Hcell & Hmatch).
  unfold processRow, acceptRow.
  rewrite Hfecha, (resolveDay_dated sd fi cells cell Hcell Hmatch). reflexivity.
Qed.

Lemma day_filter_does_not_select_dated_rows_witness :
  parseAirQualityHtml Sample.parseFromString (Some []) Sample.now
    Sample.tokensHtml "o3" "2025" "03" (Some "20") None None
  = parseAirQualityHtml Sample.parseFromString (Some []) Sample.now
      Sample.tokensHtml "o3" "2025" "03" None None None.
Proof.
  apply (day_filter_does_not_select_dated_rows Sample.parseFromString (Some [])
           Sample.now Sample.tokensHtml "o3" "2025" "03" (Some "20") None None
           Sample.tokensLayout 0%nat); try reflexivity.
  intros cells Hcells. vm_compute in Hcells.
  apply list_elem_of_singleton in Hcells. subst cells.
  exists "14/03/2025". split; [reflexivity | discriminate].
Defined.

(** ** Periods other than the current one *)

Lemma parseInt_currentMonth (now : Clock) :
  0 <= getMonth now <= 11 ->
  Str.parseInt (currentMonth now) = Some (getMonth now + 1).
Proof.
  intros Hm. unfold currentMonth.
  assert (Hok : monthFormatOk (getMonth now + 1) = true).
  { apply (Z_range_forallb monthFormatOk 1 12); [vm_compute; reflexivity | lia]. }
  unfold monthFormatOk in Hok.
  destruct (Str.parseInt _) as [k|]; [|discriminate].
  apply Z.eqb_eq in Hok. subst. reflexivity.
Qed.

Lemma extractRows_all_future now L p y m sd sh :
  (forall rowDay, isFutureDay now y m rowDay = true) ->
  extractRows now L p y m sd sh = [].
Proof.
  intros Hfuture. unfold extractRows.
  induction (dataRows L) as [|cells rest IH]; [reflexivity|].
  simpl. rewrite IH, app_nil_r. apply processRow_rejected. unfold acceptRow.
  destruct (length cells <=? S (horaIndex L))%nat; [reflexivity|].
  destruct (resolveDay sd (fechaIndex L) cells) as [rowDay|]; [|reflexivity].
  destruct (resolveHour (horaIndex L) cells) as [h|]; [|reflexivity].
  destruct (hourFilteredOut sh h); [reflexivity|].
  unfold skippedAsFuture. rewrite Hfuture. reflexivity.
Qed.

(** X7.  Lines 245-257.  A request for a year after the clock's year, or for
    a later month of the clock's year, gives nothing, whatever the page
    holds. *)
Theorem future_period_gives_nothing
    (P : string -> Document) g now html p y m sd sh ss obs (yr : Z) :
  parseAirQualityHtml P g now html p y m sd sh ss = Return obs ->
  Str.parseInt y = Some yr ->
  (getFullYear now < yr
   \/ (yr = getFullYear now /\ 0 <= getMonth now <= 11
       /\ exists mo, Str.parseInt m = Some mo /\ getMonth now + 1 < mo)) ->
  obs = [].
Proof.
  intros Hret Hy Hlater.
  destruct (parse_return_inv P g now html p y m sd sh ss obs Hret)
    as [_ [-> | (L & Hlen & HL & ->)]]; [reflexivity|].
  apply extractRows_all_future. intros rowDay. unfold isFutureDay. rewrite Hy.
  destruct Hlater as [Hyear | (-> & Hclock & mo & Hmo & Hmonth)].
  - cbn [numGt]. apply Z.ltb_lt in Hyear. rewrite Hyear. reflexivity.
  - rewrite numEq_refl, Hmo, (parseInt_currentMonth now Hclock).
    cbn [numGt andb]. apply Z.ltb_lt in Hmonth. rewrite Hmonth.
    rewrite orb_true_r. reflexivity.
Qed.

Lemma future_period_gives_nothing_witness :
  parseAirQualityHtml Sample.parseFromString (Some []) Sample.now
    Sample.tokensHtml "o3" "2025" "04" None None None = Return []
  /\ @nil Observation = [].
Proof.
  split; [reflexivity|].
  apply (future_period_gives_nothing Sample.parseFromString (Some []) Sample.now
           Sample.tokensHtml "o3" "2025" "04" None None None [] 2025);
    try reflexivity.
  right. split; [reflexivity|]. split; [vm_compute; split; discriminate|].
  exists 4. split; [reflexivity | reflexivity].
Defined.

(** X8.  Lines 245-257.  For a year before the clock's year, and for a year
    that reads as no number, the filter on future hours drops no row: a
    row with a day and an hour that passes the hour filter has its cells
    read. *)
Theorem past_or_unreadable_year_is_not_filtered
    now (L : Layout) p y m sd sh (cells : Row) (rowDay : string) (h : Z) :
  (Str.parseInt y = None
   \/ exists yr, Str.parseInt y = Some yr /\ yr < getFullYear now) ->
  skippedAsFuture now y m rowDay h = false
  /\ ((S (horaIndex L) < length cells)%nat ->
      resolveDay sd (fechaIndex L) cells = Some rowDay ->
      resolveHour (horaIndex L) cells = Some h ->
      hourFilteredOut sh h = false ->
      processRow now L p y m sd sh cells
      = flat_map (processCell p y m rowDay (Str.padStart2 (Str.ofZ h)) cells)
          (stationIndices L)).
Proof.
  intros Hy.
  assert (Hpass : skippedAsFuture now y m rowDay h = false).
  { unfold skippedAsFuture, isFutureDay, isCurrentDay.
    destruct Hy as [-> | (yr & -> & Hlt)]; [reflexivity|].
    cbn [numGt numEq].
    replace (getFullYear now <? yr) with false by (symmetry; apply Z.ltb_ge; lia).
    replace (yr =? getFullYear now) with false by (symmetry; apply Z.eqb_neq; lia).
    reflexivity. }
  split; [exact Hpass|].
  intros Hlen Hday Hhour Hfilter. apply processRow_accepted.
  apply acceptRow_inv. auto.
Qed.

Lemma past_or_unreadable_year_is_not_filtered_witness :
  skippedAsFuture Sample.now "2024" "12" "31" 23 = false
  /\ ((S (horaIndex Sample.tokensLayout) < length Sample.tokensRow)%nat ->
      resolveDay None (fechaIndex Sample.tokensLayout) Sample.tokensRow = Some "31" ->
      resolveHour (horaIndex Sample.tokensLayout) Sample.tokensRow = Some 23 ->
      hourFilteredOut None 23 = false ->
      processRow Sample.now Sample.tokensLayout "o3" "2024" "12" None None
        Sample.tokensRow
      = flat_map (processCell "o3" "2024" "12" "31" (Str.padStart2 (Str.ofZ 23))
                    Sample.tokensRow)
          (stationIndices Sample.tokensLayout)).
Proof.
  apply (past_or_unreadable_year_is_not_filtered Sample.now Sample.tokensLayout
           "o3" "2024" "12" None None Sample.tokensRow "31" 23).
  right. exists 2024. split; [reflexivity | reflexivity].
Defined.

(** ** What a cell can add *)

Lemma upperChar_lowerChar (c : ascii) :
  Str.upperChar (Str.lowerChar c) = Str.upperChar c.
Proof.
  apply Ascii.eqb_eq. change (caseFoldOk c = true).
  destruct c as [[] [] [] [] [] [] [] []]; vm_compute; reflexivity.
Qed.

Lemma toUpperCase_toLowerCase (s : string) :
  Str.toUpperCase (Str.toLowerCase s) = Str.toUpperCase s.
Proof.
  unfold Str.toUpperCase, Str.toLowerCase.
  induction s as [|c s IH]; [reflexivity|].
  cbn [Str.mapChars]. rewrite upperChar_lowerChar, IH. reflexivity.
Qed.

Lemma toLowerCase_empty (s : string) :
  Str.toLowerCase s = "" -> s = "".
Proof. destruct s; [reflexivity | discriminate]. Qed.

Lemma missing_token_upper (t : string) :
  nonEmpty t = true -> isMissingToken t = true ->
  Str.toUpperCase t ∈ upperTokens.
Proof.
  intros Hne Hmiss. unfold isMissingToken in Hmiss.
  apply existsb_exists in Hmiss as (tok & Htok & Heq).
  apply String.eqb_eq in Heq. rewrite <- toUpperCase_toLowerCase, Heq.
  unfold missingTokens in Htok. simpl in Htok.
  destruct Htok as [<- | Htok].
  { apply toLowerCase_empty in Heq. subst t. discriminate. }
  apply list_elem_of_In.
  repeat (destruct Htok as [<- | Htok]; [vm_compute; tauto|]).
  destruct Htok.
Qed.

Lemma binary_round_aux_sign (sx : bool) (mx ex : Z) (lx : location) :
  match binary_round_aux Num.prec Num.emax sx mx ex lx with
  | S754_zero s | S754_infinity s | S754_finite s _ _ => s = sx
  | S754_nan => True
  end.
Proof.
  unfold binary_round_aux.
  destruct (shr_fexp _ _ _ _ _) as [mrs' e'].
  destruct (shr_fexp _ _ _ _ _) as [mrs'' e''].
  destruct (shr_m mrs'') as [|p|p]; [reflexivity| |exact I].
  destruct (e'' <=? _); reflexivity.
Qed.

Lemma digitsValueFrom_nonneg (s : string) (acc : Z) :
  Str.allDigits s = true -> 0 <= acc -> 0 <= Str.digitsValueFrom acc s.
Proof.
  revert acc. induction s as [|c s IH]; intros acc Hall Hacc; [exact Hacc|].
  cbn [Str.allDigits] in Hall. apply andb_prop in Hall as [Hc Hs].
  cbn [Str.digitsValueFrom]. apply IH; [exact Hs|].
  assert (0 <= Str.digitValue c); [|lia].
  unfold Str.isDigit in Hc. unfold Str.digitValue. lia.
Qed.

Lemma allDigits_app (a b : string) :
  Str.allDigits (a ++ b) = Str.allDigits a && Str.allDigits b.
Proof.
  induction a as [|c a IH]; [reflexivity|].
  simpl. rewrite IH, andb_assoc. reflexivity.
Qed.

Lemma decimal_sign (n : Z) (k : nat) :
  0 <= n -> Num.isNaN (Num.decimal n k) = false ->
  Num.le (Num.ofZ 0) (Num.decimal n k) = true.
Proof.
  intros Hn Hnan. destruct n as [|n|n]; [reflexivity| |lia].
  unfold Num.decimal, Num.ofRatio in *.
  destruct (SFdiv_core_binary _ _ _ _ _ _) as [[q e] l].
  pose proof (binary_round_aux_sign false q e l) as Hsign.
  destruct (binary_round_aux Num.prec Num.emax false q e l) as [s|s| |s mt ex];
    try discriminate; subst s; reflexivity.
Qed.

Lemma parseFloat_sign (s : string) :
  Num.isNaN (Str.parseFloat s) = false ->
  Num.le (Num.ofZ 0) (Str.parseFloat s) = true.
Proof.
  unfold Str.parseFloat.
  pose proof (spanDigits_allDigits s) as Hint.
  destruct (Str.spanDigits s) as [int r]. simpl in Hint.
  set (frac := match r with
               | String "." r' => (Str.spanDigits r').1
               | _ => ""
               end).
  assert (Hfrac : Str.allDigits frac = true).
  { subst frac. destruct r as [|c r]; [reflexivity|].
    destruct (Ascii.eqb_spec c "."); [subst c|].
    - apply spanDigits_allDigits.
    - destruct c as [[] [] [] [] [] [] [] []]; try reflexivity. congruence. }
  assert (Hdec : Num.isNaN (Num.decimal (Str.digitsValue (int ++ frac))
                              (String.length frac)) = false ->
                 Num.le (Num.ofZ 0)
                   (Num.decimal (Str.digitsValue (int ++ frac))
                      (String.length frac)) = true).
  { apply decimal_sign. apply digitsValueFrom_nonneg; [|lia].
    rewrite allDigits_app, Hint, Hfrac. reflexivity. }
  destruct int; [destruct frac; [discriminate|]|]; exact Hdec.
Qed.

Lemma processCell_length p y m rowDay fh cells entry :
  (length (processCell p y m rowDay fh cells entry) <= 1)%nat.
Proof.
  unfold processCell. destruct entry as [name col].
  destruct (cells !! col) as [cell|]; [|simpl; lia].
  repeat match goal with
         | |- context [if ?b then _ else _] => destruct b
         end; simpl; lia.
Qed.

Lemma processCell_reading p y m rowDay fh cells entry o :
  o ∈ processCell p y m rowDay fh cells entry -> wellFormedReading o.
Proof.
  unfold processCell. destruct entry as [name col].
  destruct (cells !! col) as [cell|]; [|intros H; inversion H].
  destruct (nonEmpty (Str.trim cell)) eqn:Hne; [|intros H; inversion H].
  destruct (isMissingToken (Str.trim cell)) eqn:Hmiss.
  - intros Ho. apply list_elem_of_singleton in Ho. subst o. left.
    split; [reflexivity|]. eexists. split; [reflexivity|].
    apply missing_token_upper; assumption.
  - destruct (nonEmpty (Str.keepDigitsAndDots (Str.trim cell)));
      [|intros H; inversion H].
    destruct (Num.isNaN (Str.parseFloat _)) eqn:Hnan; [intros H; inversion H|].
    intros Ho. apply list_elem_of_singleton in Ho. subst o. right.
    eexists. split; [reflexivity|]. split; [reflexivity|].
    split; [exact Hnan | apply parseFloat_sign; exact Hnan].
Qed.

(** X9.  Lines 263-307.  Every observation of the result either has no value
    and, as raw value, one of the seven tokens in upper case; or has a
    value that is a number, not NaN and not below zero, and that same
    number as raw value.  A sign in the cell is dropped with the other
    characters that are neither digits nor dots, so no value is
    negative. *)
Theorem readings_are_tokens_or_non_negative
    (P : string -> Document) g now html p y m sd sh ss obs :
  parseAirQualityHtml P g now html p y m sd sh ss = Return obs ->
  forall o, o ∈ obs -> wellFormedReading o.
Proof.
  intros Hret o Ho.
  destruct (emitted_entry P g now html p y m sd sh ss obs o Hret Ho)
    as (L & cells & rowDay & h & entry & _ & _ & _ & _ & Hcell).
  exact (processCell_reading _ _ _ _ _ _ _ _ Hcell).
Qed.

Lemma readings_are_tokens_or_non_negative_witness :
  parseAirQualityHtml Sample2.parseFromString (Some []) Sample.now
    Sample2.signedHtml "pm25" "2025" "03" None None None
  = Return Sample2.signedObservations
  /\ forall o, o ∈ Sample2.signedObservations -> wellFormedReading o.
Proof.
  split; [reflexivity|].
  apply (readings_are_tokens_or_non_negative Sample2.parseFromString (Some [])
           Sample.now Sample2.signedHtml "pm25" "2025" "03" None None None
           Sample2.signedObservations).
  reflexivity.
Defined.

(** ** How many observations *)

Lemma flat_map_length_le {A B} (f : A -> list B) (l : list A) (k : nat) :
  (forall x, (length (f x) <= k)%nat) ->
  (length (flat_map f l) <= length l * k)%nat.
Proof.
  intros Hf. induction l as [|x l IH]; [simpl; lia|].
  simpl. rewrite length_app. specialize (Hf x). lia.
Qed.

Lemma processRow_length now L p y m sd sh cells :
  (length (processRow now L p y m sd sh cells) <= length (stationIndices L))%nat.
Proof.
  unfold processRow.
  destruct (acceptRow now L y m sd sh cells) as [[rowDay h]|]; [|simpl; lia].
  pose proof (flat_map_length_le
                (processCell p y m rowDay (Str.padStart2 (Str.ofZ h)) cells)
                (stationIndices L) 1
                (processCell_length p y m rowDay _ cells)).
  lia.
Qed.

Lemma filter_station_other (l : list Observation) (name : string) :
  (forall o, o ∈ l -> station o <> name) ->
  filter (fun o => station o = name) l = [].
Proof.
  induction l as [|o l IH]; intros H; [reflexivity|].
  rewrite filter_cons. destruct (decide (station o = name)) as [Heq|_].
  - exfalso. exact (H o (list_elem_of_here _ _) Heq).
  - apply IH. intros o' Ho'. apply H. right. exact Ho'.
Qed.

Lemma filter_station_entries (f : string * nat -> list Observation)
    (sts : list (string * nat)) (name : string) :
  NoDup sts.*1 ->
  (forall entry o, o ∈ f entry -> station o = entry.1) ->
  (exists col, (name, col) ∈ sts
               /\ filter (fun o => station o = name) (flat_map f sts)
                  = filter (fun o => station o = name) (f (name, col)))
  \/ filter (fun o => station o = name) (flat_map f sts) = [].
Proof.
  intros Hnd Hst. induction sts as [|[n c] sts IH]; [right; reflexivity|].
  rewrite fmap_cons in Hnd. apply NoDup_cons in Hnd as [Hnotin Hnd].
  cbn [flat_map]. rewrite filter_app.
  destruct (decide (n = name)) as [->|Hne].
  - left. exists c. split; [left|].
    assert (Hrest : filter (fun o => station o = name) (flat_map f sts) = []).
    { destruct (IH Hnd) as [(col & Hin & _) | Hnil]; [|exact Hnil].
      exfalso. apply Hnotin. simpl.
      apply list_elem_of_fmap. exists (name, col). auto. }
    rewrite Hrest, app_nil_r. reflexivity.
  - assert (Hhead : filter (fun o => station o = name) (f (n, c)) = []).
    { apply filter_station_other. intros o Ho Heq.
      apply Hst in Ho. simpl in Ho. congruence. }
    rewrite Hhead. cbn [app].
    destruct (IH Hnd) as [(col & Hin & Heq) | Hnil]; [left | right; exact Hnil].
    exists col. split; [right; exact Hin | exact Heq].
Qed.

(** X10.  Lines 189-309.  The result has at most one observation for each data
    row and station column of the layout, and a row gives at most one
    observation for any station name. *)
Theorem at_most_one_observation_per_row_and_station
    (P : string -> Document) g now html p y m sd sh ss obs (L : Layout) :
  parseAirQualityHtml P g now html p y m sd sh ss = Return obs ->
  (100 <= String.length html)%nat ->
  resolveLayout (P html) p ss = Return (Some L) ->
  obs = flat_map (processRow now L p y m sd sh) (dataRows L)
  /\ (length obs <= length (dataRows L) * length (stationIndices L))%nat
  /\ forall cells name,
       (length (filter (fun o => station o = name)
                  (processRow now L p y m sd sh cells)) <= 1)%nat.
Proof.
  intros Hret Hlen HL.
  assert (Hobs : obs = extractRows now L p y m sd sh)
    by exact (parse_with_layout P g now html p y m sd sh ss obs L Hret Hlen HL).
  split; [exact Hobs|]. split.
  - subst obs. unfold extractRows. apply flat_map_length_le.
    intros cells. apply processRow_length.
  - intros cells name. unfold processRow.
    destruct (acceptRow now L y m sd sh cells) as [[rowDay h]|]; [|simpl; lia].
    destruct (filter_station_entries
                (processCell p y m rowDay (Str.padStart2 (Str.ofZ h)) cells)
                (stationIndices L) name) as [(col & _ & ->) | ->].
    + exact (resolveLayout_NoDup _ _ _ _ HL).
    + intros entry o Ho. apply processCell_fields in Ho. tauto.
    + etransitivity; [apply length_filter | apply processCell_length].
    + simpl. lia.
Qed.

Lemma at_most_one_observation_per_row_and_station_witness :
  Sample2.signedObservations
  = flat_map (processRow Sample.now Sample2.signedLayout "pm25" "2025" "03"
                None None)
      (dataRows Sample2.signedLayout)
  /\ (length Sample2.signedObservations
      <= length (dataRows Sample2.signedLayout)
         * length (stationIndices Sample2.signedLayout))%nat
  /\ forall cells name,
       (length (filter (fun o => station o = name)
                  (processRow Sample.now Sample2.signedLayout "pm25" "2025" "03"
                     None None cells)) <= 1)%nat.
Proof.
  apply (at_most_one_observation_per_row_and_station Sample2.parseFromString
           (Some []) Sample.now Sample2.signedHtml "pm25" "2025" "03"
           None None None Sample2.signedObservations Sample2.signedLayout);
    [reflexivity | vm_compute; lia | reflexivity].
Defined.

(** ** The order of the averages *)

(** Case analysis on the observations of the sample readings. *)
Ltac each_reading H :=
  unfold Sample2.readings in H;
  repeat (apply elem_of_cons in H as [->|H]);
  [..|inversion H].

Lemma sortedBy_impl {A} (R R' : A -> A -> Prop) (l : list A) :
  (forall a b, R a b -> R' a b) -> sortedBy R l -> sortedBy R' l.
Proof.
  intros Himpl. induction l as [|x l IH]; [exact id|].
  simpl. intros [Hx Hl]. split; [|exact (IH Hl)].
  eapply Forall_impl; [exact Hx | exact (Himpl x)].
Qed.

Lemma insertSorted_sortedBy {A} (cmp : A -> A -> Z) (D : A -> Prop)
    (x : A) (l : list A) :
  (forall a b c, D a -> D b -> D c ->
                 cmp a b <= 0 -> cmp b c <= 0 -> cmp a c <= 0) ->
  (forall a b, D a -> D b -> 0 < cmp a b -> cmp b a <= 0) ->
  D x -> Forall D l ->
  sortedBy (fun a b => cmp a b <= 0) l ->
  sortedBy (fun a b => cmp a b <= 0) (insertSorted cmp x l).
Proof.
  intros Htrans Htotal Hx. induction l as [|y l IH]; intros HD Hsorted.
  - simpl. split; [constructor | exact I].
  - apply Forall_cons in HD as [Hy HD]. destruct Hsorted as [Hyl Hl].
    cbn [insertSorted]. destruct (cmp x y <=? 0) eqn:Hcmp.
    + apply Z.leb_le in Hcmp. split; [|split; assumption].
      constructor; [exact Hcmp|].
      rewrite Forall_forall in *. intros z Hz.
      apply (Htrans x y z); auto.
    + apply Z.leb_gt in Hcmp. split; [|exact (IH HD Hl)].
      rewrite Forall_forall in *. intros z Hz.
      apply insertSorted_elem in Hz as [->|Hz]; [|auto].
      apply Htotal; auto.
Qed.

Lemma sortBy_sortedBy {A} (cmp : A -> A -> Z) (D : A -> Prop) (l : list A) :
  (forall a b c, D a -> D b -> D c ->
                 cmp a b <= 0 -> cmp b c <= 0 -> cmp a c <= 0) ->
  (forall a b, D a -> D b -> 0 < cmp a b -> cmp b a <= 0) ->
  Forall D l ->
  sortedBy (fun a b => cmp a b <= 0) (sortBy cmp l).
Proof.
  intros Htrans Htotal. induction l as [|x l IH]; intros HD; [exact I|].
  apply Forall_cons in HD as [Hx HD]. cbn [sortBy foldr].
  apply (insertSorted_sortedBy cmp D);
    [exact Htrans | exact Htotal | exact Hx | | exact (IH HD)].
  rewrite Forall_forall in *. intros z Hz. apply HD.
  apply (sortBy_elem cmp z l). exact Hz.
Qed.

(** With a consistent comparison function, of two elements one does not
    come after the other, and not coming after is transitive. *)
Lemma consistentOn_total {A} (cmp : A -> A -> Z) (l : list A) (a b : A) :
  consistentOn cmp l -> a ∈ l -> b ∈ l -> 0 < cmp a b -> cmp b a < 0.
Proof.
  intros (Hrefl & Hsym & _ & _ & Hgt) Ha Hb Hab.
  destruct (Z.lt_trichotomy (cmp b a) 0) as [H|[H|H]]; [exact H| |].
  - apply (Hsym b a Hb Ha) in H. lia.
  - pose proof (Hgt a b a Ha Hb Ha Hab H) as Haa.
    rewrite (Hrefl a Ha) in Haa. lia.
Qed.

Lemma consistentOn_before {A} (cmp : A -> A -> Z) (l : list A) (a b : A) :
  consistentOn cmp l -> a ∈ l -> b ∈ l -> cmp a b < 0 -> 0 < cmp b a.
Proof.
  intros (Hrefl & Hsym & _ & Hlt & _) Ha Hb Hab.
  destruct (Z.lt_trichotomy (cmp b a) 0) as [H|[H|H]]; [| |exact H].
  - pose proof (Hlt a b a Ha Hb Ha Hab H) as Haa.
    rewrite (Hrefl a Ha) in Haa. lia.
  - apply (Hsym b a Hb Ha) in H. lia.
Qed.

Lemma consistentOn_trans {A} (cmp : A -> A -> Z) (l : list A) (a b c : A) :
  consistentOn cmp l -> a ∈ l -> b ∈ l -> c ∈ l ->
  cmp a b <= 0 -> cmp b c <= 0 -> cmp a c <= 0.
Proof.
  intros Hcons Ha Hb Hc Hab Hbc.
  pose proof Hcons as (Hrefl & Hsym & Heq & Hlt & Hgt).
  destruct (Z.lt_trichotomy (cmp a c) 0) as [H|[H|H]]; [lia | lia |].
  exfalso.
  pose proof (consistentOn_total cmp l a c Hcons Ha Hc H) as Hca.
  destruct (Z.lt_trichotomy (cmp a b) 0) as [H1|[H1|H1]]; [| |lia];
    destruct (Z.lt_trichotomy (cmp b c) 0) as [H2|[H2|H2]]; try lia.
  - pose proof (Hlt a b c Ha Hb Hc H1 H2). lia.
  - pose proof (Hlt c a b Hc Ha Hb Hca H1) as Hcb.
    apply (Hsym b c Hb Hc) in H2. lia.
  - pose proof (Hlt b c a Hb Hc Ha H2 Hca) as Hba.
    apply (Hsym a b Ha Hb) in H1. lia.
  - pose proof (Heq a b c Ha Hb Hc H1 H2). lia.
Qed.

(** The sort of the samples meets what the language says of a sort. *)
Lemma sample_sort_orders : sortOrders Sample.sort.
Proof.
  intros cmp l Hcons. unfold Sample.sort.
  apply (sortBy_sortedBy cmp (fun a => a ∈ l)).
  - intros a b c Ha Hb Hc. exact (consistentOn_trans cmp l a b c Hcons Ha Hb Hc).
  - intros a b Ha Hb Hab.
    pose proof (consistentOn_total cmp l a b Hcons Ha Hb Hab). lia.
  - apply Forall_forall. auto.
Qed.

Lemma hours_of_the_day_order (x y : Z) :
  0 <= x <= 23 -> 0 <= y <= 23 ->
  Num.le (Num.ofZ x) (Num.ofZ y) = true -> x <= y.
Proof.
  intros Hx Hy Hle.
  assert (Hok : hoursOrderOk x = true).
  { apply (Z_range_forallb hoursOrderOk 0 24); [vm_compute; reflexivity | lia]. }
  unfold hoursOrderOk in Hok.
  pose proof (Z_range_forallb _ 0 24 Hok y ltac:(lia)) as Hxy.
  cbv beta in Hxy. rewrite Hle in Hxy.
  destruct (Z.leb_spec x y); [assumption | discriminate].
Qed.

Lemma compareAverages_inOrder (lc : string -> string -> Z) (a b : Average.t) :
  compareAverages lc a b <= 0 -> inOrder lc a b.
Proof.
  unfold compareAverages, inOrder.
  destruct (String.eqb (Average.date a) (Average.date b)); cbn [negb];
    [|exact id].
  intros Hcmp x y Hx Hy. rewrite Hx, Hy in Hcmp.
  assert (Hle : Num.le (Num.ofZ x) (Num.ofZ y) = true)
    by (apply signOfDifference_le; auto using ofZ_number).
  split; [exact Hle|].
  intros Hx23 Hy23. exact (hours_of_the_day_order x y Hx23 Hy23 Hle).
Qed.

(** An entry of the filled object shows the date and the hour of an
    observation with a value. *)
Lemma averages_source (data : list Observation) (e : Average.t) :
  (forall item, item ∈ data -> plainKey item) ->
  e ∈ map toAverage (accumulate data) ->
  exists item, item ∈ data /\ value item <> None
               /\ Average.date e = date item /\ Average.hour e = hour item.
Proof.
  intros Hplain He.
  apply list_elem_of_In, in_map_iff in He as ([k [s c]] & <- & Hentry).
  apply list_elem_of_In in Hentry.
  pose proof (lookupKey_elem k (s, c) _ (accumulate_NoDup data) Hentry) as Hlook.
  rewrite accumulate_lookup in Hlook.
  destruct (summary_Some _ _ _ Hlook) as (Hne & -> & ->).
  destruct (valuesAtKey_source k data Hne) as (item & Hitem & Hk & Hv).
  destruct (Hplain item Hitem) as [Hd Hh].
  exists item. unfold averageKey in Hk. subst k.
  change (toAverage (date item ++ " " ++ hour item,
                     (sumOf (valuesAtKey (date item ++ " " ++ hour item) data),
                      length (valuesAtKey (date item ++ " " ++ hour item) data))))
    with (averageAtKey (date item ++ " " ++ hour item) data).
  destruct (averageAtKey_parts (date item) (hour item) data Hd Hh)
    as (-> & -> & _).
  auto.
Qed.

Lemma hourlyAverages_source
    (lc : string -> string -> Z)
    (sort : (Average.t -> Average.t -> Z) -> list Average.t -> list Average.t)
    data r (e : Average.t) :
  sortPermutes sort ->
  processAirQualityData lc sort data = Return r ->
  (forall item, item ∈ data -> plainKey item) ->
  e ∈ hourlyAverages r ->
  exists item, item ∈ data /\ value item <> None
               /\ Average.date e = date item /\ Average.hour e = hour item.
Proof.
  intros Hsort Hret Hplain He.
  rewrite (processAirQualityData_permutes lc sort data r Hsort Hret) in He.
  exact (averages_source data e Hplain He).
Qed.

(** The order of dates that [ordersDatesOf] gives. *)
Lemma dates_before (lc : string -> string -> Z) (data : list Observation)
    (a b : Observation) :
  ordersDatesOf lc data -> a ∈ data -> b ∈ data ->
  lc (date a) (date b) < 0 -> 0 < lc (date b) (date a).
Proof.
  intros (Hrefl & Hzero & Hlt & _) Ha Hb Hab.
  destruct (Z.lt_trichotomy (lc (date b) (date a)) 0) as [H|[H|H]]; [| |exact H].
  - pose proof (Hlt a b a Ha Hb Ha Hab H) as Haa.
    rewrite (Hrefl a Ha) in Haa. lia.
  - apply (Hzero b a Hb Ha) in H. rewrite H, (Hrefl a Ha) in Hab. lia.
Qed.

Lemma dates_after (lc : string -> string -> Z) (data : list Observation)
    (a b : Observation) :
  ordersDatesOf lc data -> a ∈ data -> b ∈ data ->
  0 < lc (date a) (date b) -> lc (date b) (date a) < 0.
Proof.
  intros (Hrefl & Hzero & _ & Hgt) Ha Hb Hab.
  destruct (Z.lt_trichotomy (lc (date b) (date a)) 0) as [H|[H|H]]; [exact H| |].
  - apply (Hzero b a Hb Ha) in H. rewrite H, (Hrefl a Ha) in Hab. lia.
  - pose proof (Hgt a b a Ha Hb Ha Hab H) as Haa.
    rewrite (Hrefl a Ha) in Haa. lia.
Qed.

(** The comparison function of lines 363-367 is consistent on elements
    whose dates [localeCompare] orders and whose hours read as
    integers. *)
Lemma compareAverages_consistent (lc : string -> string -> Z)
    (data : list Observation) (l : list Average.t) :
  ordersDatesOf lc data ->
  (forall e, e ∈ l ->
     exists item h, item ∈ data /\ Average.date e = date item
                    /\ Str.parseInt (Average.hour e) = Some h) ->
  consistentOn (compareAverages lc) l.
Proof.
  intros Hdates HD.
  pose proof Hdates as (Hrefl & Hzero & Hlt & Hgt).
  assert (Hform : forall a, a ∈ l ->
            exists ia xa, ia ∈ data
              /\ forall b, b ∈ l ->
                   exists ib xb, ib ∈ data
                     /\ compareAverages lc a b
                        = (if negb (String.eqb (date ia) (date ib))
                           then lc (date ia) (date ib)
                           else Num.signOfDifference (Num.ofZ xa) (Num.ofZ xb))
                     /\ compareAverages lc b a
                        = (if negb (String.eqb (date ib) (date ia))
                           then lc (date ib) (date ia)
                           else Num.signOfDifference (Num.ofZ xb) (Num.ofZ xa))
                     /\ Average.date b = date ib
                     /\ Str.parseInt (Average.hour b) = Some xb).
  { intros a Ha. destruct (HD a Ha) as (ia & xa & Hia & Hda & Hxa).
    exists ia, xa. split; [exact Hia|]. intros b Hb.
    destruct (HD b Hb) as (ib & xb & Hib & Hdb & Hxb).
    exists ib, xb. unfold compareAverages.
    rewrite Hda, Hdb, Hxa, Hxb. auto. }
  repeat split.
  - intros a Ha. destruct (HD a Ha) as (ia & xa & Hia & Hda & Hxa).
    unfold compareAverages. rewrite Hxa, String.eqb_refl. cbn [negb].
    apply signOfDifference_refl.
  - intros a b Ha Hb.
    destruct (Hform a Ha) as (ia & xa & Hia & Hfa).
    destruct (Hfa b Hb) as (ib & xb & Hib & -> & -> & _).
    rewrite (String.eqb_sym (date ib) (date ia)).
    destruct (String.eqb_spec (date ia) (date ib)) as [Heq|Hne]; cbn [negb].
    + rewrite (signOfDifference_antisym (Num.ofZ xa) (Num.ofZ xb)). lia.
    + intros H. apply (Hzero ia ib Hia Hib) in H. contradiction.
  - intros a b c Ha Hb Hc.
    destruct (HD a Ha) as (ia & xa & Hia & Hda & Hxa).
    destruct (HD b Hb) as (ib & xb & Hib & Hdb & Hxb).
    destruct (HD c Hc) as (ic & xc & Hic & Hdc & Hxc).
    unfold compareAverages. rewrite Hda, Hdb, Hdc, Hxa, Hxb, Hxc.
    destruct (String.eqb_spec (date ia) (date ib)) as [Hab|Hab];
      destruct (String.eqb_spec (date ib) (date ic)) as [Hbc|Hbc];
      destruct (String.eqb_spec (date ia) (date ic)) as [Hac|Hac];
      cbn [negb]; intros H1 H2; try congruence;
      try (apply (Hzero ia ib Hia Hib) in H1; congruence);
      try (apply (Hzero ib ic Hib Hic) in H2; congruence).
    exact (signOfDifference_trans_eq _ _ _ (ofZ_number xb) H1 H2).
  - intros a b c Ha Hb Hc.
    destruct (HD a Ha) as (ia & xa & Hia & Hda & Hxa).
    destruct (HD b Hb) as (ib & xb & Hib & Hdb & Hxb).
    destruct (HD c Hc) as (ic & xc & Hic & Hdc & Hxc).
    unfold compareAverages. rewrite Hda, Hdb, Hdc, Hxa, Hxb, Hxc.
    destruct (String.eqb_spec (date ia) (date ib)) as [Hab|Hab];
      destruct (String.eqb_spec (date ib) (date ic)) as [Hbc|Hbc];
      destruct (String.eqb_spec (date ia) (date ic)) as [Hac|Hac];
      cbn [negb]; intros H1 H2; try congruence;
      first [ exact (signOfDifference_trans_lt _ _ _ H1 H2)
            | exact (Hlt ia ib ic Hia Hib Hic H1 H2)
            | exfalso; rewrite <- Hac in H2;
              pose proof (dates_before lc data ia ib Hdates Hia Hib H1); lia ].
  - intros a b c Ha Hb Hc.
    destruct (HD a Ha) as (ia & xa & Hia & Hda & Hxa).
    destruct (HD b Hb) as (ib & xb & Hib & Hdb & Hxb).
    destruct (HD c Hc) as (ic & xc & Hic & Hdc & Hxc).
    unfold compareAverages. rewrite Hda, Hdb, Hdc, Hxa, Hxb, Hxc.
    destruct (String.eqb_spec (date ia) (date ib)) as [Hab|Hab];
      destruct (String.eqb_spec (date ib) (date ic)) as [Hbc|Hbc];
      destruct (String.eqb_spec (date ia) (date ic)) as [Hac|Hac];
      cbn [negb]; intros H1 H2; try congruence;
      first [ exact (signOfDifference_trans_gt _ _ _ H1 H2)
            | exact (Hgt ia ib ic Hia Hib Hic H1 H2)
            | exfalso; rewrite <- Hac in H2;
              pose proof (dates_after lc data ia ib Hdates Hia Hib H1); lia ].
Qed.

(** X12.  Lines 355-367.  When the dates and hours of the observations
    have no blank, the hours of those with a value read as integers of
    at most 20 digits and [localeCompare] orders the dates, the
    comparison function is
    consistent, so with any sort that meets what the language says of
    one [hourlyAverages] is in order: each element stands before every
    later one by date, and on the same date by the number of its hour,
    which for hours of the day is the order of the hours. *)
Theorem hourly_averages_are_in_date_and_hour_order
    (lc : string -> string -> Z)
    (sort : (Average.t -> Average.t -> Z) -> list Average.t -> list Average.t)
    (data : list Observation) (r : Processed) :
  sortOrders sort ->
  processAirQualityData lc sort data = Return r ->
  (forall item, item ∈ data -> plainKey item) ->
  (forall item, item ∈ data -> hasValue item = true ->
                exists h, Str.parseInt (hour item) = Some h
                          /\ Z.abs h < 10 ^ 20) ->
  ordersDatesOf lc data ->
  consistentOn (compareAverages lc) (map toAverage (accumulate data))
  /\ sortedBy (inOrder lc) (hourlyAverages r).
Proof.
  intros Hsort Hret Hplain Hhours Hdates.
  assert (Hcons : consistentOn (compareAverages lc)
                    (map toAverage (accumulate data))).
  { apply (compareAverages_consistent lc data); [exact Hdates|].
    intros e He.
    destruct (averages_source data e Hplain He) as (item & Hitem & Hv & Hd & Hh).
    destruct (Hhours item Hitem) as (h & Hp & _).
    { unfold hasValue. destruct (value item); [reflexivity | congruence]. }
    exists item, h. rewrite Hh. auto. }
  split; [exact Hcons|].
  destruct (processAirQualityData_averages lc sort data r Hret)
    as [[_ ->] | ->]; [exact I|].
  apply (sortedBy_impl (fun a b => compareAverages lc a b <= 0));
    [exact (compareAverages_inOrder lc)|].
  exact (Hsort _ _ Hcons).
Qed.

Lemma hourly_averages_are_in_date_and_hour_order_witness :
  exists r,
    Sample2.processed = Some r
    /\ map slot (hourlyAverages r)
       = [("2025-03-01", "9"); ("2025-03-01", "10"); ("2025-03-02", "10")]
    /\ consistentOn (compareAverages Sample.localeCompare)
         (map toAverage (accumulate Sample2.readings))
    /\ sortedBy (inOrder Sample.localeCompare) (hourlyAverages r).
Proof.
  destruct (processAirQualityData Sample.localeCompare Sample.sort
              Sample2.readings) as [r|e] eqn:Hret;
    [|vm_compute in Hret; discriminate Hret].
  exists r. split; [unfold Sample2.processed; rewrite Hret; reflexivity|].
  split.
  - destruct (processAirQualityData_averages _ _ _ _ Hret) as [[H _] | ->];
      [discriminate H | vm_compute; reflexivity].
  - apply (hourly_averages_are_in_date_and_hour_order
             Sample.localeCompare Sample.sort Sample2.readings r
             sample_sort_orders Hret).
    + intros item Hin. each_reading Hin; split; reflexivity.
    + intros item Hin _.
      each_reading Hin; eexists; (split; [reflexivity | vm_compute; reflexivity]).
    + split; [|split; [|split]].
      * intros a Ha. each_reading Ha; reflexivity.
      * intros a b Ha Hb. each_reading Ha; each_reading Hb;
          vm_compute; congruence.
      * intros a b c Ha Hb Hc. each_reading Ha; each_reading Hb; each_reading Hc;
          vm_compute; congruence.
      * intros a b c Ha Hb Hc. each_reading Ha; each_reading Hb; each_reading Hc;
          vm_compute; congruence.
Defined.

(** ** One element for a date and hour *)

Lemma accumulate_entry (data : list Observation) (k : string) (sc : Num.t * nat) :
  (k, sc) ∈ accumulate data ->
  valuesAtKey k data <> []
  /\ sc = (sumOf (valuesAtKey k data), length (valuesAtKey k data)).
Proof.
  intros Hentry.
  pose proof (lookupKey_elem k sc _ (accumulate_NoDup data) Hentry) as Hlook.
  rewrite accumulate_lookup in Hlook. destruct sc as [s c].
  destruct (summary_Some _ _ _ Hlook) as (Hne & -> & ->). auto.
Qed.

Lemma append_key_inj (d h d' h' : string) :
  d = d' -> h = h' -> (d ++ " " ++ h = d' ++ " " ++ h')%string.
Proof. intros -> ->. reflexivity. Qed.

(** X13.  Lines 339-362.  When the dates and hours of the observations
    have no blank, no two elements of [hourlyAverages] show the same
    date and hour, whatever sort the engine has: it is enough that the
    sort keeps the elements. *)
Theorem one_average_for_a_date_and_hour
    (lc : string -> string -> Z)
    (sort : (Average.t -> Average.t -> Z) -> list Average.t -> list Average.t)
    (data : list Observation) (r : Processed) :
  sortPermutes sort ->
  processAirQualityData lc sort data = Return r ->
  (forall item, item ∈ data -> plainKey item) ->
  NoDup (map slot (hourlyAverages r)).
Proof.
  intros Hsort Hret Hplain.
  rewrite (processAirQualityData_permutes lc sort data r Hsort Hret).
  change (NoDup (slot <$> (toAverage <$> accumulate data))).
  rewrite <- list_fmap_compose.
  assert (Hslot : forall k sc, (k, sc) ∈ accumulate data ->
            exists item, item ∈ data /\ k = averageKey item
                         /\ (slot ∘ toAverage) (k, sc) = (date item, hour item)).
  { intros k sc Hentry.
    destruct (accumulate_entry data k sc Hentry) as [Hne _].
    destruct (valuesAtKey_source k data Hne) as (item & Hitem & Hk & _).
    destruct (Hplain item Hitem) as [Hd Hh].
    exists item. split; [exact Hitem|]. split; [auto|].
    subst k. destruct sc as [s c]. unfold averageKey, slot, toAverage, compose.
    cbn [Average.date Average.hour].
    rewrite splitSpaces_key by assumption. reflexivity. }
  apply NoDup_fmap_2_strong.
  - intros [k sc] [k' sc'] Hx Hy Heq.
    destruct (Hslot k sc Hx) as (item & _ & Hk & Hs).
    destruct (Hslot k' sc' Hy) as (item' & _ & Hk' & Hs').
    rewrite Hs, Hs' in Heq. injection Heq as Hd Hh.
    assert (Hkk : k = k').
    { rewrite Hk, Hk'. unfold averageKey. rewrite Hd, Hh. reflexivity. }
    clear Hk Hk' Hs Hs'. subst k'.
    destruct (accumulate_entry data k sc Hx) as [_ ->].
    destruct (accumulate_entry data k sc' Hy) as [_ ->]. reflexivity.
  - pose proof (accumulate_NoDup data) as Hnd.
    exact (NoDup_fmap_1 fst _ Hnd).
Qed.

Lemma one_average_for_a_date_and_hour_witness :
  exists r,
    Sample2.processed = Some r
    /\ NoDup (map slot (hourlyAverages r)).
Proof.
  destruct (processAirQualityData Sample.localeCompare Sample.sort
              Sample2.readings) as [r|e] eqn:Hret;
    [|vm_compute in Hret; discriminate Hret].
  exists r. split; [unfold Sample2.processed; rewrite Hret; reflexivity|].
  apply (one_average_for_a_date_and_hour
           Sample.localeCompare Sample.sort Sample2.readings r
           sample_sort_permutes Hret).
  intros item Hin. each_reading Hin; split; reflexivity.
Defined.

(** ** The counts *)

Lemma countsOf_addToKey (key : string) (v : Num.t) (acc : Sums) :
  countsOf (addToKey key v acc) = S (countsOf acc).
Proof.
  unfold countsOf. induction acc as [|[k [s c]] acc IH]; [reflexivity|].
  cbn [addToKey]. destruct (String.eqb key k); cbn [map sum_list fst snd].
  - reflexivity.
  - rewrite IH. cbn [fst snd]. lia.
Qed.

Lemma countsOf_fold (data : list Observation) (acc : Sums) :
  countsOf (fold_left sumStep data acc)
  = (countsOf acc + length (omap value data))%nat.
Proof.
  revert acc. induction data as [|item data IH]; intros acc.
  - simpl. lia.
  - cbn [fold_left]. rewrite IH. unfold sumStep.
    change (omap value (item :: data))
      with (match value item with
            | Some v => v :: omap value data
            | None => omap value data
            end).
    destruct (value item) as [v|]; [|reflexivity].
    rewrite countsOf_addToKey. simpl. lia.
Qed.

(** X14.  Lines 339-362.  The [stationCount] fields of [hourlyAverages]
    add up to the number of observations that have a value: every such
    observation is counted in one element, whatever its date and hour
    look like and whatever sort the engine has. *)
Theorem station_counts_add_up_to_the_values
    (lc : string -> string -> Z)
    (sort : (Average.t -> Average.t -> Z) -> list Average.t -> list Average.t)
    (data : list Observation) (r : Processed) :
  sortPermutes sort ->
  processAirQualityData lc sort data = Return r ->
  sum_list (map Average.stationCount (hourlyAverages r))
  = length (omap value data).
Proof.
  intros Hsort Hret.
  rewrite (processAirQualityData_permutes lc sort data r Hsort Hret).
  rewrite map_map.
  transitivity (countsOf (accumulate data)).
  - unfold countsOf. f_equal. apply map_ext. intros [k [s c]]. reflexivity.
  - unfold accumulate. rewrite countsOf_fold. reflexivity.
Qed.

Lemma station_counts_add_up_to_the_values_witness :
  exists r,
    Sample2.processed = Some r
    /\ length (omap value Sample2.readings) = 4%nat
    /\ sum_list (map Average.stationCount (hourlyAverages r))
       = length (omap value Sample2.readings).
Proof.
  destruct (processAirQualityData Sample.localeCompare Sample.sort
              Sample2.readings) as [r|e] eqn:Hret;
    [|vm_compute in Hret; discriminate Hret].
  exists r. split; [unfold Sample2.processed; rewrite Hret; reflexivity|].
  split; [reflexivity|].
  apply (station_counts_add_up_to_the_values
           Sample.localeCompare Sample.sort Sample2.readings r
           sample_sort_permutes Hret).
Defined.

(** ** Station names that throw *)

Lemma groupByStation_throws (data : list Observation)
    (m : gmap string (list Observation)) (item : Observation) :
  (forall k, is_Some (m !! k) -> inheritedMember k = false) ->
  item ∈ data -> inheritedMember (station item) = true ->
  groupByStation data m = Throw TypeError.
Proof.
  revert m. induction data as [|x data IH]; intros m Hm Hitem Hinh;
    [inversion Hitem|].
  cbn [groupByStation]. unfold groupStep.
  assert (Hnext : forall g, inheritedMember (station x) = false ->
                            groupByStation data (<[station x := g]> m)
                            = Throw TypeError).
  { intros g Hx. apply IH.
    - intros k [g' Hk]. destruct (decide (k = station x)) as [->|Hne];
        [exact Hx|].
      rewrite lookup_insert_ne in Hk by congruence. apply Hm. eauto.
    - apply elem_of_cons in Hitem as [->|Hitem]; [congruence | exact Hitem].
    - exact Hinh. }
  destruct (m !! station x) as [group|] eqn:Hlook.
  - apply Hnext. apply Hm. eauto.
  - destruct (inheritedMember (station x)) eqn:Hx; [reflexivity|].
    apply Hnext. reflexivity.
Qed.

(** X15.  Lines 329-334.  The call throws exactly when some observation has a
    station name that is an inherited member of the [stationData]
    object, and what it throws is a TypeError; otherwise it returns. *)
Theorem processing_throws_on_inherited_station_names_only
    (lc : string -> string -> Z)
    (sort : (Average.t -> Average.t -> Z) -> list Average.t -> list Average.t)
    (data : list Observation) :
  (processAirQualityData lc sort data = Throw TypeError
   <-> exists item, item ∈ data /\ inheritedMember (station item) = true)
  /\ (forall e, processAirQualityData lc sort data = Throw e -> e = TypeError)
  /\ ((forall item, item ∈ data -> inheritedMember (station item) = false)
      <-> exists r, processAirQualityData lc sort data = Return r).
Proof.
  assert (Hthrow : (exists item, item ∈ data
                                 /\ inheritedMember (station item) = true) ->
                   processAirQualityData lc sort data = Throw TypeError).
  { intros (item & Hitem & Hinh). unfold processAirQualityData.
    destruct data as [|x data]; [inversion Hitem|].
    rewrite (groupByStation_throws (x :: data) ∅ item); auto.
    intros k [g Hk]. rewrite lookup_empty in Hk. discriminate. }
  assert (Hreturn : (forall item, item ∈ data ->
                                  inheritedMember (station item) = false) ->
                    exists r, processAirQualityData lc sort data = Return r).
  { intros Hnames.
    destruct (groupByStation_groups data [] ∅) as (m & Hm & _); auto.
    { intros s. rewrite lookup_empty. reflexivity. }
    unfold processAirQualityData. destruct data as [|x data]; [eauto|].
    rewrite Hm. eauto. }
  assert (Hcases : (exists item, item ∈ data
                                 /\ inheritedMember (station item) = true)
                   \/ (forall item, item ∈ data ->
                                    inheritedMember (station item) = false)).
  { destruct (existsb (fun item => inheritedMember (station item)) data) eqn:Hex.
    - left. apply existsb_exists in Hex as (item & Hin & Hinh).
      exists item. split; [apply list_elem_of_In; exact Hin | exact Hinh].
    - right. intros item Hitem.
      destruct (inheritedMember (station item)) eqn:Hinh; [|reflexivity].
      rewrite <- Hex. symmetry. apply existsb_exists.
      exists item. split; [apply list_elem_of_In; exact Hitem | exact Hinh]. }
  split; [|split].
  - split; [|exact Hthrow].
    intros Hres. destruct Hcases as [Hsome|Hnone]; [exact Hsome|].
    destruct (Hreturn Hnone) as (r & Hr). congruence.
  - intros e He. destruct Hcases as [Hsome|Hnone].
    + rewrite (Hthrow Hsome) in He. congruence.
    + destruct (Hreturn Hnone) as (r & Hr). congruence.
  - split; [exact Hreturn|].
    intros (r & Hr) item Hitem.
    destruct (inheritedMember (station item)) eqn:Hinh; [|reflexivity].
    rewrite Hthrow in Hr by eauto. discriminate.
Qed.

(** ** Classification, continued *)

Lemma le_trans (x y z : Num.t) :
  Num.le x y = true -> Num.le y z = true -> Num.le x z = true.
Proof.
  unfold Num.le, SFleb, SFcompare.
  destruct x as [sx|sx| |sx mx ex], y as [sy|sy| |sy my ey],
           z as [sz|sz| |sz mz ez];
    try destruct sx; try destruct sy; try destruct sz;
    try reflexivity; try discriminate;
    intros H1 H2; try reflexivity; try discriminate.
  all: change (Pos.compare_cont Eq ?a ?b) with (Pos.compare a b) in *.
  all: destruct (Z.compare_spec ex ey), (Z.compare_spec ey ez),
                (Z.compare_spec ex ez);
       try lia; try reflexivity; try discriminate; subst.
  all: try (destruct (Pos.compare_spec mx my), (Pos.compare_spec my mz),
                     (Pos.compare_spec mx mz);
            simpl in *; try lia; try reflexivity; try discriminate).
Qed.

Lemma number_le_Infinity (v : Num.t) :
  Num.isNaN v = false -> Num.le v Num.Infinity = true.
Proof. destruct v as [s|[]| |[] m e]; simpl; intros H; try discriminate; reflexivity. Qed.

Lemma le_right_number (v w : Num.t) :
  Num.le v w = true -> Num.isNaN w = false.
Proof.
  destruct w as [s|s| |s m e]; try reflexivity.
  destruct v as [s|s| |s m e]; discriminate.
Qed.

Lemma last_tier (p : string) :
  exists t, thresholdsFor p !! 5%nat = Some t /\ max t = Num.Infinity.
Proof.
  destruct (thresholdsFor_tiers p) as (b1 & b2 & b3 & b4 & b5 & -> & _).
  eexists. split; reflexivity.
Qed.

(** X17.  Lines 376-444.  Of two values, the larger never falls in an earlier
    tier than the smaller: both are classified, and the tier of the
    smaller value comes first in the table or is the same. *)
Theorem larger_value_never_gets_an_earlier_tier (p : string) (v w : Num.t) :
  inheritedMember p = false ->
  Num.le v w = true ->
  exists (i j : nat) (t u : Threshold),
    (i <= j)%nat
    /\ thresholdsFor p !! i = Some t
    /\ thresholdsFor p !! j = Some u
    /\ getAirQualityCategory p v = Return (categoryOf t)
    /\ getAirQualityCategory p w = Return (categoryOf u).
Proof.
  intros Hp Hvw.
  destruct (last_tier p) as (top & Htop & Hmax).
  assert (Hw : Num.le w (max top) = true).
  { rewrite Hmax. apply number_le_Infinity. exact (le_right_number v w Hvw). }
  assert (Hv : Num.le v (max top) = true) by exact (le_trans v w _ Hvw Hw).
  destruct (scanThresholds_first _ v _ top Htop Hv)
    as (i & t & Hi & Hti & Hbefore & Hscan).
  destruct (scanThresholds_first _ w _ top Htop Hw)
    as (j & u & Hj & Huj & _ & Hscan').
  exists i, j, t, u. rewrite !getAirQualityCategory_scan by exact Hp.
  rewrite Hscan, Hscan'. repeat split; auto.
  destruct (Nat.le_gt_cases i j) as [Hle|Hlt]; [exact Hle|].
  pose proof (Hbefore j u Hlt Hj) as Hnot.
  rewrite (le_trans v w _ Hvw Huj) in Hnot. discriminate.
Qed.

Lemma larger_value_never_gets_an_earlier_tier_witness :
  exists (i j : nat) (t u : Threshold),
    (i <= j)%nat
    /\ thresholdsFor "pm25" !! i = Some t
    /\ thresholdsFor "pm25" !! j = Some u
    /\ getAirQualityCategory "pm25" (Num.decimal 12 0) = Return (categoryOf t)
    /\ getAirQualityCategory "pm25" (Num.decimal 121 1) = Return (categoryOf u).
Proof.
  apply (larger_value_never_gets_an_earlier_tier "pm25"
           (Num.decimal 12 0) (Num.decimal 121 1));
    reflexivity.
Defined.

Lemma scan_tiers (b1 b2 b3 b4 b5 v : Num.t) :
  scanThresholds (tiers b1 b2 b3 b4 b5) v ∈ knownCategories
  /\ (scanThresholds (tiers b1 b2 b3 b4 b5) v = unknownCategory
      <-> Num.isNaN v = true).
Proof.
  destruct (Num.isNaN v) eqn:Hnan.
  - destruct v; try discriminate. split; [|split; reflexivity].
    apply list_elem_of_In. simpl. tauto.
  - unfold tiers. cbn [scanThresholds max category color].
    rewrite (number_le_Infinity v Hnan).
    destruct (Num.le v b1); [|destruct (Num.le v b2); [|destruct (Num.le v b3);
      [|destruct (Num.le v b4); [|destruct (Num.le v b5)]]]];
      (split; [apply list_elem_of_In; simpl; tauto
              | split; intros H; discriminate H]).
Qed.

(** X18.  Lines 376-444.  A result is one of seven: the six tiers and Unknown;
    and it is Unknown for NaN only. *)
Theorem category_is_one_of_seven (p : string) (v : Num.t) (c : Category) :
  getAirQualityCategory p v = Return c ->
  c ∈ knownCategories /\ (c = unknownCategory <-> Num.isNaN v = true).
Proof.
  intros Hret.
  assert (Hc : c = scanThresholds (thresholdsFor p) v).
  { unfold getAirQualityCategory, thresholdsFor in *.
    destruct (categories p); [congruence|].
    destruct (inheritedMember p); congruence. }
  destruct (thresholdsFor_tiers p) as (b1 & b2 & b3 & b4 & b5 & Hths & _).
  rewrite Hc, Hths. apply scan_tiers.
Qed.

Lemma category_is_one_of_seven_witness :
  {| cat_category := "Moderate"; cat_color := "#ffff00" |} ∈ knownCategories
  /\ ({| cat_category := "Moderate"; cat_color := "#ffff00" |} = unknownCategory
      <-> Num.isNaN (Num.decimal 40 0) = true).
Proof.
  apply (category_is_one_of_seven "so2" (Num.decimal 40 0)
           {| cat_category := "Moderate"; cat_color := "#ffff00" |}).
  reflexivity.
Defined.

(** ** From the extraction to the averages *)

Lemma noSpace_app (a b : string) :
  Str.noSpace (a ++ b) = Str.noSpace a && Str.noSpace b.
Proof.
  induction a as [|c a IH]; [reflexivity|].
  simpl. rewrite IH, andb_assoc. reflexivity.
Qed.

Lemma allDigits_noSpace (s : string) :
  Str.allDigits s = true -> Str.noSpace s = true.
Proof.
  induction s as [|c s IH]; [reflexivity|].
  cbn [Str.allDigits Str.noSpace]. intros H.
  apply andb_prop in H as [Hc Hs]. rewrite (IH Hs), andb_true_r.
  destruct (Ascii.eqb_spec c " ") as [->|_]; [discriminate Hc | reflexivity].
Qed.

Lemma padStart2_noSpace (s : string) :
  Str.noSpace s = true -> Str.noSpace (Str.padStart2 s) = true.
Proof. destruct s as [|a [|b s]]; simpl; intros H; auto. Qed.

Lemma dayToken_noSpace (sd : option string) (d : string) :
  (forall s, sd = Some s -> Str.noSpace s = true) ->
  dayToken sd d -> Str.noSpace d = true.
Proof.
  intros Hsd (_ & [Hdigits | [Hset ->]]); [exact (allDigits_noSpace d Hdigits)|].
  destruct sd as [s|]; [|discriminate Hset].
  apply padStart2_noSpace, Hsd. reflexivity.
Qed.

(** X16.  Lines 189-309 with 339-362.  When the year, the month and the day
    filter have no blank, the dates and hours of the observations
    extracted have none, so every element of the [hourlyAverages] made
    from them shows the date and the hour of an extracted observation
    with a value, the hour being two digits from 00 to 23. *)
Theorem averages_of_an_extraction_show_its_dates_and_hours
    (P : string -> Document) g now html p y m sd sh ss obs
    (lc : string -> string -> Z)
    (sort : (Average.t -> Average.t -> Z) -> list Average.t -> list Average.t) :
  sortPermutes sort ->
  parseAirQualityHtml P g now html p y m sd sh ss = Return obs ->
  Str.noSpace y = true -> Str.noSpace m = true ->
  (forall s, sd = Some s -> Str.noSpace s = true) ->
  (forall o, o ∈ obs -> plainKey o)
  /\ (forall r e,
        processAirQualityData lc sort obs = Return r ->
        e ∈ hourlyAverages r ->
        exists o h, o ∈ obs /\ value o <> None
                    /\ Average.date e = date o /\ Average.hour e = hour o
                    /\ isHourOfDay (Average.hour e) h).
Proof.
  intros Hsort Hret Hy Hm Hsd.
  assert (Hkeys : forall o, o ∈ obs ->
                    plainKey o /\ exists h, isHourOfDay (hour o) h).
  { intros o Ho.
    destruct (emitted_entry P g now html p y m sd sh ss obs o Hret Ho)
      as (L & cells & rowDay & h & entry & _ & _ & Hacc & _ & Hcell).
    apply acceptRow_inv in Hacc as (_ & Hday & Hhour & _).
    apply processCell_fields in Hcell as (Hd & Hh & _).
    pose proof (hour_format h (resolveHour_range _ _ _ Hhour)) as Hform.
    rewrite <- Hh in Hform. split; [|exists h; exact Hform].
    split.
    - rewrite Hd. unfold isoDate. rewrite !noSpace_app, Hy, Hm.
      rewrite (dayToken_noSpace sd rowDay Hsd (resolveDay_token _ _ _ _ Hday)).
      reflexivity.
    - apply allDigits_noSpace. apply Hform. }
  split; [intros o Ho; exact (proj1 (Hkeys o Ho))|].
  intros r e Hr He.
  destruct (hourlyAverages_source lc sort obs r e Hsort Hr
              (fun o Ho => proj1 (Hkeys o Ho)) He)
    as (o & Ho & Hv & Hd & Hh).
  destruct (Hkeys o Ho) as [_ [h Hform]].
  exists o, h. rewrite Hh. auto.
Qed.

Lemma averages_of_an_extraction_show_its_dates_and_hours_witness :
  (forall o, o ∈ Sample2.signedObservations -> plainKey o)
  /\ (forall r e,
        processAirQualityData Sample.localeCompare Sample.sort
          Sample2.signedObservations
        = Return r ->
        e ∈ hourlyAverages r ->
        exists o h, o ∈ Sample2.signedObservations /\ value o <> None
                    /\ Average.date e = date o /\ Average.hour e = hour o
                    /\ isHourOfDay (Average.hour e) h).
Proof.
  apply (averages_of_an_extraction_show_its_dates_and_hours
           Sample2.parseFromString (Some []) Sample.now Sample2.signedHtml
           "pm25" "2025" "03" None None None Sample2.signedObservations
           Sample.localeCompare Sample.sort sample_sort_permutes);
    try reflexivity.
  intros s Hs. discriminate Hs.
Defined.

(** ** fetchAirQualityData *)

Lemma requestParams_keys param y m day hr stn :
  (requestParams param y m day hr stn).*1
  = (["qtipo"; "parametro"; "anio"; "qmes"]
     ++ (if truthy day then ["dia"] else [])
     ++ (if truthy hr then ["hora"] else [])
     ++ (if truthy stn then ["qestacion"] else []))%list.
Proof.
  unfold requestParams.
  destruct (truthy day), (truthy hr), (truthy stn); reflexivity.
Qed.

(** X19.  Lines 14-32.  The request never names the parameter pm25:
    where the caller asks for pm25 it says pm2, and any other parameter
    goes through as it is.  The first four entries are always qtipo =
    HORARIOS, parametro, anio with the year and qmes with the month; the
    day, the hour and the station follow when they are non-empty texts,
    in that order, and each key is sent once. *)
Theorem request_entries (param y m : string) (day hr stn : option string) :
  (forall v, ("parametro", v) ∈ requestParams param y m day hr stn ->
             v <> "pm25" /\ v = if String.eqb param "pm25" then "pm2" else param)
  /\ (forall v, ("dia", v) ∈ requestParams param y m day hr stn
                <-> v <> "" /\ day = Some v)
  /\ (forall v, ("hora", v) ∈ requestParams param y m day hr stn
                <-> v <> "" /\ hr = Some v)
  /\ (forall v, ("qestacion", v) ∈ requestParams param y m day hr stn
                <-> v <> "" /\ stn = Some v)
  /\ NoDup (requestParams param y m day hr stn).*1
  /\ (requestParams param y m day hr stn).*1
     `sublist_of` ["qtipo"; "parametro"; "anio"; "qmes"; "dia"; "hora"; "qestacion"]
  /\ take 4 (requestParams param y m day hr stn)
     = [ ("qtipo", "HORARIOS");
         ("parametro", if String.eqb param "pm25" then "pm2" else param);
         ("anio", y); ("qmes", m) ]
  /\ (param = "pm25" ->
      ("parametro", "pm2") ∈ requestParams param y m day hr stn)
  /\ (requestParams param y m day hr stn).*1
     = (["qtipo"; "parametro"; "anio"; "qmes"]
        ++ (if truthy day then ["dia"] else [])
        ++ (if truthy hr then ["hora"] else [])
        ++ (if truthy stn then ["qestacion"] else []))%list.
Proof.
  assert (Hopt : forall (k : string) (o : option string) (v : string),
             (k, v) ∈ (if truthy o then [(k, default "" o)] else [])
             <-> v <> "" /\ o = Some v).
  { intros k o v. destruct o as [[|c s]|]; simpl.
    - split; [intros H; inversion H | intros [H1 H2]; congruence].
    - rewrite list_elem_of_singleton. split.
      + intros H. injection H as ->. split; [discriminate | reflexivity].
      + intros [_ H]. injection H as ->. reflexivity.
    - split; [intros H; inversion H | intros [_ H]; discriminate]. }
  assert (Hother : forall (k k' : string) (o : option string) (v : string),
             k <> k' ->
             (k, v) ∈ (if truthy o then [(k', default "" o)] else []) -> False).
  { intros k k' o v Hne H. destruct (truthy o); [|inversion H].
    apply list_elem_of_singleton in H. congruence. }
  assert (Hfixed : take 4 (requestParams param y m day hr stn)
                   = [ ("qtipo", "HORARIOS");
                       ("parametro",
                        if String.eqb param "pm25" then "pm2" else param);
                       ("anio", y); ("qmes", m) ])
    by reflexivity.
  assert (Hpm2 : param = "pm25" ->
                 ("parametro", "pm2") ∈ requestParams param y m day hr stn).
  { intros ->. apply list_elem_of_In. simpl. right. left. reflexivity. }
  pose proof (requestParams_keys param y m day hr stn) as Hkeys.
  unfold requestParams in *.
  split; [|split; [|split; [|split; [|split; [|split;
    [|split; [exact Hfixed | split; [exact Hpm2 | exact Hkeys]]]]]]]].
  - intros v Hin. rewrite !elem_of_app, !elem_of_cons in Hin.
    destruct Hin as [[H|[H|[H|[H|H]]]]|[H|[H|H]]];
      try discriminate H; try (inversion H; fail).
    + injection H as ->. split; [|reflexivity].
      destruct (String.eqb_spec param "pm25"); [discriminate | assumption].
    + exfalso. (eapply Hother; [|exact H]; intros E; discriminate E).
    + exfalso. (eapply Hother; [|exact H]; intros E; discriminate E).
    + exfalso. (eapply Hother; [|exact H]; intros E; discriminate E).
  - intros v. rewrite <- (Hopt "dia" day v).
    rewrite !elem_of_app, !elem_of_cons. split; [|tauto].
    intros [[H|[H|[H|[H|H]]]]|[H|[H|H]]];
      try discriminate H; try (inversion H; fail); try exact H;
      exfalso; (eapply Hother; [|exact H]; intros E; discriminate E).
  - intros v. rewrite <- (Hopt "hora" hr v).
    rewrite !elem_of_app, !elem_of_cons. split; [|tauto].
    intros [[H|[H|[H|[H|H]]]]|[H|[H|H]]];
      try discriminate H; try (inversion H; fail); try exact H;
      exfalso; (eapply Hother; [|exact H]; intros E; discriminate E).
  - intros v. rewrite <- (Hopt "qestacion" stn v).
    rewrite !elem_of_app, !elem_of_cons. split; [|tauto].
    intros [[H|[H|[H|[H|H]]]]|[H|[H|H]]];
      try discriminate H; try (inversion H; fail); try exact H;
      exfalso; (eapply Hother; [|exact H]; intros E; discriminate E).
  - fold (requestParams param y m day hr stn). rewrite requestParams_keys.
    destruct (truthy day), (truthy hr), (truthy stn);
      apply NoDup_ListNoDup; repeat constructor; simpl; intuition discriminate.
  - fold (requestParams param y m day hr stn). rewrite requestParams_keys.
    destruct (truthy day), (truthy hr), (truthy stn); simpl;
      repeat first [ apply sublist_nil | apply sublist_skip | apply sublist_cons ].
Qed.

(** X20.  Lines 38-49.  The promise resolves only for a response that is ok
    and whose text can be read, and then with what the extractor makes
    of that text for the parameter, the year, the month and the day
    asked for.  The hour and the station are not passed on to the
    extractor, and every observation names the parameter as the caller
    gave it, pm25 also when the request said pm2. *)
Theorem fetch_resolves_with_the_extraction_of_the_page
    (P : string -> Document) (serialize : list (string * string) -> string)
    (fetch : string -> option Response)
    g now param y m day hr stn obs :
  fetchAirQualityData P serialize fetch g now param y m day hr stn
  = Resolved obs ->
  (exists response html,
      fetch (requestUrl serialize param y m day hr stn) = Some response
      /\ ok response = true
      /\ body response = Some html
      /\ parseAirQualityHtml P g now html param y m day None None = Return obs)
  /\ (forall o, o ∈ obs -> parameter o = param).
Proof.
  unfold fetchAirQualityData.
  destruct (fetch (requestUrl serialize param y m day hr stn))
    as [response|] eqn:Hfetch; [|discriminate].
  destruct (ok response) eqn:Hok; [|discriminate]. cbn [negb].
  destruct (body response) as [html|] eqn:Hbody; [|discriminate].
  destruct (parseAirQualityHtml P g now html param y m day None None)
    as [data|e] eqn:Hparse; [|discriminate].
  intros H. injection H as <-. split.
  - exists response, html. auto.
  - intros o Ho.
    destruct (emitted_entry P g now html param y m day None None data o Hparse Ho)
      as (L & cells & rowDay & h & entry & _ & _ & _ & _ & Hcell).
    apply processCell_fields in Hcell. tauto.
Qed.

Lemma fetch_resolves_with_the_extraction_of_the_page_witness :
  (exists response html,
      Sample2.fetch (requestUrl Sample2.serialize "pm25" "2025" "03"
                       None (Some "8") (Some "XAL"))
      = Some response
      /\ ok response = true
      /\ body response = Some html
      /\ parseAirQualityHtml Sample2.parseFromString (Some []) Sample.now html
           "pm25" "2025" "03" None None None
         = Return Sample2.signedObservations)
  /\ (forall o, o ∈ Sample2.signedObservations -> parameter o = "pm25").
Proof.
  apply (fetch_resolves_with_the_extraction_of_the_page
           Sample2.parseFromString Sample2.serialize Sample2.fetch
           (Some []) Sample.now "pm25" "2025" "03" None (Some "8") (Some "XAL")
           Sample2.signedObservations).
  reflexivity.
Defined.

(** X21.  Lines 8-55 with 60-66.  Where no global [tables] is bound, the
    promise never resolves: a page that is fetched and read makes the
    extractor throw its ReferenceError, which the [catch] throws again;
    any other response rejects before the extractor is called. *)
Theorem fetch_never_resolves_without_global_tables
    (P : string -> Document) (serialize : list (string * string) -> string)
    (fetch : string -> option Response)
    now param y m day hr stn :
  (exists r, fetchAirQualityData P serialize fetch None now param y m day hr stn
             = Rejected r)
  /\ (forall response html,
        fetch (requestUrl serialize param y m day hr stn) = Some response ->
        ok response = true -> body response = Some html ->
        fetchAirQualityData P serialize fetch None now param y m day hr stn
        = Rejected (Raised ReferenceError))
  /\ (forall response,
        fetch (requestUrl serialize param y m day hr stn) = Some response ->
        ok response = false ->
        fetchAirQualityData P serialize fetch None now param y m day hr stn
        = Rejected (HttpError (status response))).
Proof.
  unfold fetchAirQualityData.
  destruct (fetch (requestUrl serialize param y m day hr stn)) as [response|].
  - destruct (ok response) eqn:Hok; cbn [negb].
    + destruct (body response) as [html|] eqn:Hbody.
      * split; [eexists; reflexivity|]. split.
        -- intros r' h' Hr _ Hb. injection Hr as <-. reflexivity.
        -- intros r' Hr Hk. injection Hr as <-. congruence.
      * split; [eexists; reflexivity|]. split.
        -- intros r' h' Hr _ Hb. injection Hr as <-. congruence.
        -- intros r' Hr Hk. injection Hr as <-. congruence.
    + split; [eexists; reflexivity|]. split.
      * intros r' h' Hr Hk _. injection Hr as <-. congruence.
      * intros r' Hr _. injection Hr as <-. reflexivity.
  - split; [eexists; reflexivity|]. split; intros; discriminate.
Qed.

(** ** Exceptions of the extractor *)

(** X11.  Lines 58-319.  With a global [tables] bound, the call returns for
    every input: markup of fewer than 100 characters gives the empty
    sequence without being parsed, and the TypeError of the PM2.5 header
    search (the assignment to the constant [headerCells] at line 134) is
    caught and gives the empty sequence too. *)
Theorem extractor_returns_when_tables_is_bound
    (P : string -> Document) (ts : Document) now html p y m sd sh ss :
  exists obs,
    parseAirQualityHtml P (Some ts) now html p y m sd sh ss = Return obs
    /\ ((String.length html < 100)%nat -> obs = [])
    /\ (forall e, resolveLayout (P html) p ss = Throw e -> obs = [])
    /\ ((p = "pm25" \/ p = "pm25nowCast") ->
        forall t, selectDataTable (P html) = Some t ->
                  (2 <= length t)%nat ->
                  (length (default [] (t !! 1%nat)) < 2)%nat ->
                  (exists r, r ∈ take 3 (drop 2 t) /\ (2 <= length r)%nat) ->
                  resolveLayout (P html) p ss = Throw TypeError).
Proof.
  assert (Halt : (p = "pm25" \/ p = "pm25nowCast") ->
            forall t, selectDataTable (P html) = Some t ->
                      (2 <= length t)%nat ->
                      (length (default [] (t !! 1%nat)) < 2)%nat ->
                      (exists r, r ∈ take 3 (drop 2 t) /\ (2 <= length r)%nat) ->
                      resolveLayout (P html) p ss = Throw TypeError).
  { intros Hp t Ht Hrows Hshort (r & Hr & Hlen). unfold resolveLayout.
    rewrite Ht.
    replace (length t <? 2)%nat with false
      by (symmetry; apply Nat.ltb_ge; exact Hrows).
    apply Nat.ltb_lt in Hshort. cbv zeta. unfold Table, Row in *.
    rewrite Hshort.
    replace (String.eqb p "pm25" || String.eqb p "pm25nowCast") with true
      by (destruct Hp as [-> | ->]; reflexivity).
    assert (Hex : existsb (fun r : list string => (2 <=? length r)%nat)
                    (take 3 (drop 2 t)) = true).
    { apply existsb_exists. exists r.
      split; [apply list_elem_of_In; exact Hr | apply Nat.leb_le; exact Hlen]. }
    rewrite Hex. reflexivity. }
  unfold parseAirQualityHtml, tryBlock.
  destruct (String.length html <? 100)%nat eqn:Hlen.
  - exists []. rewrite orb_true_r. repeat split; auto.
  - apply Nat.ltb_ge in Hlen. rewrite orb_false_r.
    destruct (negb (nonEmpty html)); [exists []; repeat split; auto|].
    destruct (resolveLayout (P html) p ss) as [[L|]|e] eqn:HL.
    + eexists. split; [reflexivity|]. split; [lia|]. split; [discriminate|].
      exact Halt.
    + exists []. repeat split; auto.
    + exists []. repeat split; auto.
Qed.
